(** * Drone image server: storage layout, uploads, listings and statistics

    A shallow embedding of [server.py].  The handlers are functions in a
    small state-and-exception monad over a [world] made of a file system,
    a clock and an I/O fault schedule; Python's [str], [os.path], [os],
    [datetime] and [json] operations used by the handlers are modelled in
    the modules of the first part. *)

From Stdlib Require Import Ascii String ZArith QArith Lia Floats.
From Stdlib Require Import DecimalString.
From stdpp Require Import gmap strings list.

(** ** Python [str] operations *)

Module Str.

Definition slash : ascii := "/"%char.
Definition dot : ascii := "."%char.

(** [s.startswith(p)] *)
Fixpoint startswith (p s : string) : bool :=
  match p, s with
  | EmptyString, _ => true
  | String _ _, EmptyString => false
  | String a p', String b s' => if Ascii.eqb a b then startswith p' s' else false
  end.

(** [sub in s] *)
Fixpoint contains (sub s : string) : bool :=
  startswith sub s ||
  match s with
  | EmptyString => false
  | String _ s' => contains sub s'
  end.

(** [s.endswith("/")] *)
Fixpoint ends_with_char (c : ascii) (s : string) : bool :=
  match s with
  | EmptyString => false
  | String a EmptyString => Ascii.eqb a c
  | String _ s' => ends_with_char c s'
  end.

(** The scan of [s.replace(old, new)] for a non-empty [old]: [skip]
    counts the characters of a match that are still to be dropped. *)
Fixpoint replace_from (old new : string) (skip : nat) (s : string) : string :=
  match s with
  | EmptyString => EmptyString
  | String c s' =>
      match skip with
      | S k => replace_from old new k s'
      | O =>
          if startswith old s
          then new +:+ replace_from old new (String.length old - 1) s'
          else String c (replace_from old new 0 s')
      end
  end.

(** With an empty [old], Python inserts [new] before every character
    and at the end. *)
Fixpoint insert_after_each (new s : string) : string :=
  match s with
  | EmptyString => EmptyString
  | String c s' => String c (new +:+ insert_after_each new s')
  end.

(** [s.replace(old, new)]: every non-overlapping occurrence, leftmost
    first. *)
Definition replace (old new s : string) : string :=
  match old with
  | EmptyString => new +:+ insert_after_each new s
  | String _ _ => replace_from old new 0 s
  end.

Definition lower_char (c : ascii) : ascii :=
  let n := nat_of_ascii c in
  if (65 <=? n)%nat && (n <=? 90)%nat then ascii_of_nat (n + 32) else c.

(** [s.lower()] on byte strings *)
Fixpoint lower (s : string) : string :=
  match s with
  | EmptyString => EmptyString
  | String c s' => String (lower_char c) (lower s')
  end.

(** [s[:-n]] *)
Definition drop_last (n : nat) (s : string) : string :=
  String.substring 0 (String.length s - n) s.

(** [s.split(c)] *)
Fixpoint split (c : ascii) (s : string) : list string :=
  match s with
  | EmptyString => [EmptyString]
  | String a s' =>
      if Ascii.eqb a c then EmptyString :: split c s'
      else match split c s' with
           | h :: t => String a h :: t
           | [] => [String a EmptyString]
           end
  end.

(** [sep.join(parts)] *)
Fixpoint join (sep : string) (parts : list string) : string :=
  match parts with
  | [] => EmptyString
  | [p] => p
  | p :: rest => p +:+ sep +:+ join sep rest
  end.

(** [s[len(p):]] when [s] starts with [p] *)
Definition strip_prefix (p s : string) : option string :=
  if startswith p s
  then Some (String.substring (String.length p) (String.length s - String.length p) s)
  else None.

Fixpoint has_char (c : ascii) (s : string) : bool :=
  match s with
  | EmptyString => false
  | String a s' => Ascii.eqb a c || has_char c s'
  end.

End Str.

(** ** [posixpath] *)

Module Path.
Import Str.

(** [(p[:i], p[i:])] with [i = p.rfind("/") + 1] *)
Fixpoint rsplit (p : string) : string * string :=
  match p with
  | EmptyString => (EmptyString, EmptyString)
  | String c p' =>
      let '(h, t) := rsplit p' in
      if Ascii.eqb c slash then (String c h, t)
      else match h with
           | EmptyString => (EmptyString, String c t)
           | String _ _ => (String c h, t)
           end
  end.

(** [s.rstrip("/")] *)
Fixpoint rstrip (s : string) : string :=
  match s with
  | EmptyString => EmptyString
  | String c s' =>
      match rstrip s' with
      | EmptyString => if Ascii.eqb c slash then EmptyString else String c EmptyString
      | r => String c r
      end
  end.

(** [os.path.dirname] *)
Definition dirname (p : string) : string :=
  let h := fst (rsplit p) in
  match rstrip h with
  | EmptyString => h
  | r => r
  end.

(** [os.path.basename] *)
Definition basename (p : string) : string := snd (rsplit p).

(** Split at the last occurrence of [c]: the part before it, and the
    part from it on. *)
Fixpoint rpartition (c : ascii) (s : string) : option (string * string) :=
  match s with
  | EmptyString => None
  | String a s' =>
      match rpartition c s' with
      | Some (h, t) => Some (String a h, t)
      | None => if Ascii.eqb a c then Some (EmptyString, s) else None
      end
  end.

Fixpoint all_dots (s : string) : bool :=
  match s with
  | EmptyString => true
  | String a s' => Ascii.eqb a dot && all_dots s'
  end.

(** [os.path.splitext]: the extension starts at the last dot of the
    last path component, leading dots of that component apart. *)
Definition splitext (p : string) : string * string :=
  let '(h, b) := rsplit p in
  match rpartition dot b with
  | Some (stem, ext) => if all_dots stem then (p, EmptyString) else (h +:+ stem, ext)
  | None => (p, EmptyString)
  end.

(** [os.path.join(a, b)] *)
Definition join (a b : string) : string :=
  if startswith "/" b then b
  else match a with
       | EmptyString => b
       | _ => if ends_with_char slash a then a +:+ b else a +:+ "/" +:+ b
       end.

Definition join3 (a b c : string) : string := join (join a b) c.
Definition join4 (a b c d : string) : string := join (join3 a b c) d.

(** One step of [os.path.normpath] over the components seen so far,
    kept in reverse. *)
Definition norm_step (absolute : bool) (acc : list string) (comp : string) : list string :=
  if bool_decide (comp = EmptyString) || bool_decide (comp = ".") then acc
  else if bool_decide (comp = "..") then
    match acc with
    | [] => if absolute then [] else [comp]
    | top :: rest => if bool_decide (top = "..") then comp :: acc else rest
    end
  else comp :: acc.

(** The components of [os.path.abspath(p)] below the working
    directory, the working directory being taken as the root. *)
Definition abs_components (p : string) : list string :=
  rev (fold_left (norm_step true) (split slash p) []).

Fixpoint strip_common (start path : list string) : list string * list string :=
  match start, path with
  | a :: start', b :: path' =>
      if bool_decide (a = b) then strip_common start' path' else (start, path)
  | _, _ => (start, path)
  end.

(** [os.path.relpath(path, start)] *)
Definition relpath (path start : string) : string :=
  let '(up, down) := strip_common (abs_components start) (abs_components path) in
  match (map (fun _ : string => "..") up ++ down)%list with
  | [] => "."
  | rel => Str.join "/" rel
  end.

End Path.

(** ** [datetime] *)

Module Datetime.

Record datetime := {
  year : N; month : N; day : N;
  hour : N; minute : N; second : N;
  microsecond : N
}.

Definition digits (n : N) : string := NilZero.string_of_uint (N.to_uint n).

Fixpoint zeros (n : nat) : string :=
  match n with
  | O => EmptyString
  | S k => String "0"%char (zeros k)
  end.

(** [%0wd] *)
Definition zfill (w : nat) (n : N) : string :=
  let d := digits n in zeros (w - String.length d) +:+ d.

(** [strftime("%Y-%m-%d")] *)
Definition strftime_date (t : datetime) : string :=
  zfill 4 (year t) +:+ "-" +:+ zfill 2 (month t) +:+ "-" +:+ zfill 2 (day t).

(** [strftime("%Y%m%d_%H%M%S")] *)
Definition strftime_seconds (t : datetime) : string :=
  zfill 4 (year t) +:+ zfill 2 (month t) +:+ zfill 2 (day t) +:+ "_" +:+
  zfill 2 (hour t) +:+ zfill 2 (minute t) +:+ zfill 2 (second t).

(** [strftime("%Y%m%d_%H%M%S_%f")] *)
Definition strftime_micros (t : datetime) : string :=
  strftime_seconds t +:+ "_" +:+ zfill 6 (microsecond t).

(** [isoformat()]: the microseconds are left out when they are zero. *)
Definition isoformat (t : datetime) : string :=
  strftime_date t +:+ "T" +:+
  zfill 2 (hour t) +:+ ":" +:+ zfill 2 (minute t) +:+ ":" +:+ zfill 2 (second t) +:+
  match microsecond t with
  | N0 => EmptyString
  | us => "." +:+ zfill 6 us
  end.

End Datetime.
Export Datetime(datetime).

(** ** Exceptions *)

Inductive errno := ENOENT | EIO | EEXIST | ENOTDIR | EISDIR.

Definition strerror (e : errno) : string :=
  match e with
  | ENOENT => "[Errno 2] No such file or directory"
  | EIO => "[Errno 5] Input/output error"
  | EEXIST => "[Errno 17] File exists"
  | ENOTDIR => "[Errno 20] Not a directory"
  | EISDIR => "[Errno 21] Is a directory"
  end.

Inductive exn :=
| OSError (e : errno) (path : string)
| JSONDecodeError (doc : string)
| ReadError (msg : string).

(** [str(e)].  Of the messages of [json] only the one of a text that
    is no document from its first character on is modelled; for an
    error further in the text [json] names the reason and the position
    that it met. *)
Definition str_exn (e : exn) : string :=
  match e with
  | OSError e path => strerror e +:+ ": '" +:+ path +:+ "'"
  | JSONDecodeError _ => "Expecting value: line 1 column 1 (char 0)"
  | ReadError msg => msg
  end.

(** ** [json]

    The text of a document is not modelled: a value that [json.dump]
    writes is kept in the file as the value itself, and a value that
    [json.loads] reads from a text is kept as that text once the text
    has been recognised as a JSON document. *)

Module Json.

#[local] Unset Elimination Schemes.
Inductive value :=
| Null
| Int (n : Z)
| Float (f : float)
| Str (s : string)
| Dict (items : list (string * value))
| Parsed (text : string).

#[local] Set Elimination Schemes.

Definition quote : ascii := "034"%char.

Definition of_opt_str (o : option string) : value :=
  match o with Some s => Str s | None => Null end.
Definition of_opt_float (o : option float) : value :=
  match o with Some f => Float f | None => Null end.

Definition is_ws (c : ascii) : bool :=
  match nat_of_ascii c with
  | 32 | 9 | 10 | 13 => true
  | _ => false
  end.

Definition is_digit (c : ascii) : bool :=
  let n := nat_of_ascii c in (48 <=? n)%nat && (n <=? 57)%nat.

Definition is_hex (c : ascii) : bool :=
  let n := nat_of_ascii c in
  is_digit c || ((65 <=? n)%nat && (n <=? 70)%nat) || ((97 <=? n)%nat && (n <=? 102)%nat).

Fixpoint skip_ws (s : string) : string :=
  match s with
  | String c s' => if is_ws c then skip_ws s' else s
  | EmptyString => s
  end.

Fixpoint skip_digits (s : string) : string :=
  match s with
  | String c s' => if is_digit c then skip_digits s' else s
  | EmptyString => s
  end.

Definition hex4 (s : string) : bool :=
  match s with
  | String a (String b (String c (String d _))) => is_hex a && is_hex b && is_hex c && is_hex d
  | _ => false
  end.

(** After the opening quote: the rest of the text after the closing
    quote. *)
Fixpoint scan_string (s : string) : option string :=
  match s with
  | EmptyString => None
  | String c s' =>
      if Ascii.eqb c quote then Some s'
      else if Ascii.eqb c "\"%char then
        match s' with
        | EmptyString => None
        | String e s'' =>
            if Ascii.eqb e "u"%char then (if hex4 s'' then scan_string s'' else None)
            else if Str.has_char e (String quote "\/bfnrt") then scan_string s''
            else None
        end
      else if (nat_of_ascii c <? 32)%nat then None
      else scan_string s'
  end.

(** At least one digit, then the rest. *)
Definition scan_digits1 (s : string) : option string :=
  match s with
  | String c s' => if is_digit c then Some (skip_digits s') else None
  | EmptyString => None
  end.

(** A number: an optional minus sign, the integer part (a zero, or
    digits not starting with a zero), an optional fraction and an
    optional exponent; the longest match. *)
Definition scan_number (s : string) : option string :=
  let s1 := match s with String "-"%char r => r | _ => s end in
  let after_int :=
    match s1 with
    | String "0"%char r => Some r
    | String c r => if is_digit c then Some (skip_digits r) else None
    | EmptyString => None
    end in
  match after_int with
  | None => None
  | Some r =>
      let r1 :=
        match r with
        | String "."%char f => match scan_digits1 f with Some r' => r' | None => r end
        | _ => r
        end in
      let exponent (e : string) :=
        let e1 := match e with
                  | String "+"%char x => x
                  | String "-"%char x => x
                  | _ => e
                  end in
        match scan_digits1 e1 with Some r' => r' | None => r1 end in
      Some (match r1 with
            | String "e"%char e => exponent e
            | String "E"%char e => exponent e
            | _ => r1
            end)
  end.

Definition scan_constant (s : string) : option string :=
  match Str.strip_prefix "null" s, Str.strip_prefix "true" s, Str.strip_prefix "false" s,
        Str.strip_prefix "NaN" s, Str.strip_prefix "Infinity" s,
        Str.strip_prefix "-Infinity" s with
  | Some r, _, _, _, _, _ => Some r
  | _, Some r, _, _, _, _ => Some r
  | _, _, Some r, _, _, _ => Some r
  | _, _, _, Some r, _, _ => Some r
  | _, _, _, _, Some r, _ => Some r
  | _, _, _, _, _, Some r => Some r
  | _, _, _, _, _, _ => None
  end.

(** One value at the start of the text, by recursive descent. *)
Fixpoint scan_value (fuel : nat) (s : string) : option string :=
  match fuel with
  | O => None
  | S f =>
      match s with
      | String "034"%char s' => scan_string s'
      | String "["%char s' =>
          match skip_ws s' with
          | String "]"%char r => Some r
          | s1 => scan_elements f s1
          end
      | String "{"%char s' =>
          match skip_ws s' with
          | String "}"%char r => Some r
          | s1 => scan_members f s1
          end
      | _ =>
          match scan_number s with
          | Some r => Some r
          | None => scan_constant s
          end
      end
  end
with scan_elements (fuel : nat) (s : string) : option string :=
  match fuel with
  | O => None
  | S f =>
      match scan_value f s with
      | None => None
      | Some r =>
          match skip_ws r with
          | String "]"%char r' => Some r'
          | String ","%char r' => scan_elements f (skip_ws r')
          | _ => None
          end
      end
  end
with scan_members (fuel : nat) (s : string) : option string :=
  match fuel with
  | O => None
  | S f =>
      match s with
      | String "034"%char k =>
          match scan_string k with
          | None => None
          | Some r =>
              match skip_ws r with
              | String ":"%char r' =>
                  match scan_value f (skip_ws r') with
                  | None => None
                  | Some r'' =>
                      match skip_ws r'' with
                      | String "}"%char r3 => Some r3
                      | String ","%char r3 => scan_members f (skip_ws r3)
                      | _ => None
                      end
                  end
              | _ => None
              end
          end
      | _ => None
      end
  end.

(** The whole text is one document, white space around it apart. *)
Definition valid (s : string) : bool :=
  match scan_value (2 * String.length s + 2) (skip_ws s) with
  | Some r => bool_decide (skip_ws r = EmptyString)
  | None => false
  end.

(** [json.loads].  The limits of the interpreter are not modelled: a
    text nested deeper than the recursion limit, or with an integer of
    more digits than [int] converts, is a document here. *)
Definition loads (s : string) : exn + value :=
  if valid s then inr (Parsed s) else inl (JSONDecodeError s).

End Json.

(** ** The file system

    A tree is a finite map from the components of a path below the
    working directory to the node found there; the working directory
    itself is the empty key, always a directory, and doubles as the
    root.  There are no symbolic links, permissions or name-length
    limits. *)

Module Fs.

(** What a file holds: the bytes written to it, or a JSON document
    that [json.dump] wrote followed by the text appended since. *)
Inductive data :=
| Bytes (s : string)
| Document (v : Json.value) (trailer : string).

Inductive node :=
| File (d : data)
| Dir.

Abbreviation key := (list string).
Abbreviation tree := (gmap (list string) node).

Definition is_dir (t : tree) (k : key) : bool :=
  match k with
  | [] => true
  | _ => match t !! k with Some Dir => true | _ => false end
  end.

Definition is_file (t : tree) (k : key) : bool :=
  match t !! k with Some (File _) => true | _ => false end.

Definition present (t : tree) (k : key) : bool :=
  is_dir t k || is_file t k.

Definition special (comp : string) : bool :=
  bool_decide (comp = "") || bool_decide (comp = ".").

(** One component of a path, from the directory [cur]. *)
Definition enter (t : tree) (cur : key) (comp : string) : errno + key :=
  if is_dir t cur then
    if special comp then inr cur
    else if bool_decide (comp = "..") then inr (removelast cur)
    else inr (cur ++ [comp])
  else inl (match t !! cur with Some _ => ENOTDIR | None => ENOENT end).

Definition walk_to (t : tree) (comps : list string) : errno + key :=
  foldl (fun acc comp => match acc with inl e => inl e | inr cur => enter t cur comp end)
        (inr []) comps.

(** The key a path names; every component but the last has to be an
    existing directory.  The working directory is taken as the root:
    an absolute path, or one that climbs above the working directory
    by [..], is resolved inside the tree, where the source reads the
    file system of the machine. *)
Definition resolve (t : tree) (p : string) : errno + key :=
  match p with
  | EmptyString => inl ENOENT
  | _ => walk_to t (Str.split Str.slash p)
  end.

(** [os.path.exists], [os.path.isdir], [os.path.isfile] *)
Definition path_exists (t : tree) (p : string) : bool :=
  match resolve t p with inr k => present t k | inl _ => false end.
Definition path_isdir (t : tree) (p : string) : bool :=
  match resolve t p with inr k => is_dir t k | inl _ => false end.
Definition path_isfile (t : tree) (p : string) : bool :=
  match resolve t p with inr k => is_file t k | inl _ => false end.

(** One component of [os.makedirs]: a missing directory is created. *)
Definition make (st : tree * key) (comp : string) : errno + (tree * key) :=
  let '(t, cur) := st in
  if is_dir t cur then
    if special comp then inr (t, cur)
    else if bool_decide (comp = "..") then inr (t, removelast cur)
    else
      let k := cur ++ [comp] in
      match t !! k with
      | Some _ => inr (t, k)
      | None => inr (<[k := Dir]> t, k)
      end
  else inl ENOTDIR.

(** [os.makedirs(p, exist_ok=True)].  A failure leaves the tree as it
    was and is reported for the whole path; [os.makedirs] keeps the
    directories that it made before the failure, and its error names
    the component whose [mkdir] failed. *)
Definition makedirs (p : string) (t : tree) : errno + (unit * tree) :=
  match p with
  | EmptyString => inl ENOENT
  | _ =>
      match foldl (fun acc comp => match acc with inl e => inl e | inr st => make st comp end)
                  (inr (t, [])) (Str.split Str.slash p) with
      | inl e => inl e
      | inr (t', k) => if is_dir t' k then inr (tt, t') else inl EEXIST
      end
  end.

(** [open(p, "w")], [open(p, "wb")]: the file is created or emptied. *)
Definition open_write (p : string) (t : tree) : errno + (key * tree) :=
  match resolve t p with
  | inl e => inl e
  | inr k => if is_dir t k then inl EISDIR else inr (k, <[k := File (Bytes "")]> t)
  end.

(** [open(p, "a")]: the file is created when it is missing. *)
Definition open_append (p : string) (t : tree) : errno + (key * tree) :=
  match resolve t p with
  | inl e => inl e
  | inr k =>
      if is_dir t k then inl EISDIR
      else match t !! k with
           | Some _ => inr (k, t)
           | None => inr (k, <[k := File (Bytes "")]> t)
           end
  end.

(** [f.write(d)] on a file opened for writing, as its only write. *)
Definition write (k : key) (d : data) (t : tree) : errno + (unit * tree) :=
  inr (tt, <[k := File d]> t).

Definition extend (d : data) (s : string) : data :=
  match d with
  | Bytes b => Bytes (b +:+ s)
  | Document v tl => Document v (tl +:+ s)
  end.

(** [f.write(s)] on a file opened for appending. *)
Definition append (k : key) (s : string) (t : tree) : errno + (unit * tree) :=
  match t !! k with
  | Some (File d) => inr (tt, <[k := File (extend d s)]> t)
  | _ => inr (tt, <[k := File (Bytes s)]> t)
  end.

Definition split_last (k : key) : option (key * string) :=
  match reverse k with
  | [] => None
  | name :: r => Some (reverse r, name)
  end.

(** The entries of the directory [k]. *)
Definition children (t : tree) (k : key) : list (string * node) :=
  omap (fun '(k', n) =>
          match split_last k' with
          | Some (d, name) => if bool_decide (d = k) then Some (name, n) else None
          | None => None
          end)
       (map_to_list t).

Definition is_file_node (n : node) : bool :=
  match n with File _ => true | Dir => false end.

Definition file_names (t : tree) (k : key) : list string :=
  map fst (filter (fun e => is_file_node e.2 = true) (children t k)).
Definition dir_names (t : tree) (k : key) : list string :=
  map fst (filter (fun e => is_file_node e.2 = false) (children t k)).

(** [os.listdir] *)
Definition listdir (t : tree) (p : string) : errno + list string :=
  match resolve t p with
  | inl e => inl e
  | inr k =>
      if is_dir t k then inr (map fst (children t k))
      else inl (if is_file t k then ENOTDIR else ENOENT)
  end.

(** Every directory on the way from [cur] down [rest] is there. *)
Fixpoint dirs_along (t : tree) (cur : key) (rest : list string) : bool :=
  is_dir t cur &&
  match rest with
  | [] => true
  | c :: rest' => dirs_along t (cur ++ [c]) rest'
  end.

Definition below (k0 k : key) : option (list string) :=
  if bool_decide (take (length k0) k = k0) then Some (drop (length k0) k) else None.

(** The directories strictly below [k0], as paths relative to it. *)
Definition subdirs (t : tree) (k0 : key) : list (list string) :=
  omap (fun '(k, n) =>
          match below k0 k with
          | Some (c :: rest) => if dirs_along t k0 (c :: rest) then Some (c :: rest) else None
          | _ => None
          end)
       (map_to_list t).

(** [os.walk(top)]: one [(root, dirs, files)] per directory from [top]
    down, [top] first; errors are skipped, as [os.walk] does by
    default.  The order of the other directories and of the names
    within one is the order of the map. *)
Definition walk (t : tree) (top : string) : list (string * list string * list string) :=
  match resolve t top with
  | inl _ => []
  | inr k0 =>
      if is_dir t k0 then
        map (fun rest => (foldl Path.join top rest,
                          dir_names t (k0 ++ rest), file_names t (k0 ++ rest)))
            ([] :: subdirs t k0)
      else []
  end.

(** What a read of the file at [p] yields. *)
Definition read (t : tree) (p : string) : errno + data :=
  match resolve t p with
  | inl e => inl e
  | inr k =>
      match t !! k with
      | Some (File d) => inr d
      | Some Dir => inl EISDIR
      | None => inl (match k with [] => EISDIR | _ => ENOENT end)
      end
  end.

End Fs.

(** ** The world and the monad of the handlers *)

Record world := World {
  files : gmap (list string) Fs.node;
  ticks : nat;                       (* calls of [datetime.now()] so far *)
  clock : nat -> datetime;           (* what each call reads *)
  ops : nat;                         (* writes to the file system so far *)
  fault : nat -> bool;               (* the writes that the environment fails *)
  json_length : Json.value -> nat    (* the length of [json.dumps(v, indent=2)] *)
}.

Definition set_files (t : gmap (list string) Fs.node) (w : world) : world :=
  World t (ticks w) (clock w) (ops w) (fault w) (json_length w).
Definition tick (w : world) : world :=
  World (files w) (S (ticks w)) (clock w) (ops w) (fault w) (json_length w).
Definition count_op (w : world) : world :=
  World (files w) (ticks w) (clock w) (S (ops w)) (fault w) (json_length w).

Inductive outcome (A : Type) :=
| Return (a : A)
| Raise (e : exn).
Arguments Return {A} a.
Arguments Raise {A} e.

Definition M (A : Type) : Type := world -> outcome A * world.

Definition ret {A} (a : A) : M A := fun w => (Return a, w).
Definition raise {A} (e : exn) : M A := fun w => (Raise e, w).
Definition bind {A B} (m : M A) (k : A -> M B) : M B :=
  fun w => match m w with
           | (Return a, w') => k a w'
           | (Raise e, w') => (Raise e, w')
           end.

Notation "'let*' x := m 'in' k" := (bind m (fun x => k))
  (at level 10, x name, m at level 100, k at level 200, only parsing).
Notation "'let*' ' pat := m 'in' k" := (bind m (fun x => match x with pat => k end))
  (at level 10, pat pattern, m at level 100, k at level 200, only parsing).

(** [datetime.now()] *)
Definition now : M datetime :=
  fun w => (Return (clock w (ticks w)), tick w).

(** A write to the file system at [path]: it fails, changing nothing,
    when the environment says so, and otherwise as the tree decides. *)
Definition io {A} (path : string)
    (op : gmap (list string) Fs.node -> errno + (A * gmap (list string) Fs.node)) : M A :=
  fun w =>
    if fault w (ops w) then (Raise (OSError EIO path), count_op w)
    else match op (files w) with
         | inl e => (Raise (OSError e path), count_op w)
         | inr (a, t) => (Return a, set_files t (count_op w))
         end.

Definition lift {A} (r : exn + A) : M A :=
  match r with inl e => raise e | inr a => ret a end.

(** ** The server *)

Definition IMAGE_DIR : string := "images".
Definition METADATA_DIR : string := "metadata".
Definition LOGS_DIR : string := "logs".

(** The truth value of an optional string: [None] and the empty string
    are false. *)
Definition truthy (o : option string) : bool :=
  match o with
  | Some (String _ _) => true
  | _ => false
  end.

(** [o or d] *)
Definition or_else (o : option string) (d : string) : string :=
  match o with
  | Some (String c s) => String c s
  | _ => d
  end.

Definition get_timestamped_path (flight_id : option string) : M (string * string * string) :=
  let* now_ := now in
  let date_folder := Datetime.strftime_date now_ in
  let flight_folder :=
    if truthy flight_id then "flight_" +:+ default "" flight_id
    else "flight_" +:+ Datetime.strftime_seconds now_ in
  let full_path := Path.join3 IMAGE_DIR date_folder flight_folder in
  let* _ := io full_path (Fs.makedirs full_path) in
  ret (full_path, date_folder, flight_folder).

Definition generate_filename (original_filename : string) : M string :=
  let* now_ := now in
  let timestamp := Str.drop_last 3 (Datetime.strftime_micros now_) in
  let ext := snd (Path.splitext original_filename) in
  ret (timestamp +:+ ext).

(** [image_path.replace(IMAGE_DIR, METADATA_DIR).replace(ext, ".json")]
    with [ext = os.path.splitext(image_path)[1]], as [save_metadata] and
    [get_metadata] both compute it. *)
Definition metadata_path (image_path : string) : string :=
  Str.replace (snd (Path.splitext image_path)) ".json"
    (Str.replace IMAGE_DIR METADATA_DIR image_path).

(** [d[k] = v] on a dict kept in insertion order *)
Fixpoint dict_set (k : string) (v : Json.value) (d : list (string * Json.value))
  : list (string * Json.value) :=
  match d with
  | [] => [(k, v)]
  | (k', v') :: d' => if bool_decide (k' = k) then (k, v) :: d' else (k', v') :: dict_set k v d'
  end.

Fixpoint dict_get (k : string) (d : list (string * Json.value)) : option Json.value :=
  match d with
  | [] => None
  | (k', v) :: d' => if bool_decide (k' = k) then Some v else dict_get k d'
  end.

(** The dict is changed in place; it is returned next to the path for
    the caller to go on with. *)
Definition save_metadata (image_path : string) (metadata : list (string * Json.value))
    (flight_id : option string) : M (string * list (string * Json.value)) :=
  let metadata_file := metadata_path image_path in
  let* _ := io (Path.dirname metadata_file) (Fs.makedirs (Path.dirname metadata_file)) in
  let* now_ := now in
  let metadata := dict_set "server_timestamp" (Json.Str (Datetime.isoformat now_)) metadata in
  let metadata := dict_set "image_path" (Json.Str image_path) metadata in
  let metadata := dict_set "metadata_file" (Json.Str metadata_file) metadata in
  let* f := io metadata_file (Fs.open_write metadata_file) in
  let* _ := io metadata_file (Fs.write f (Fs.Document (Json.Dict metadata) "")) in
  ret (metadata_file, metadata).

Definition newline : string := String "010"%char "".

Definition log_upload (filename : string) (flight_id : option string) : M unit :=
  let* today := now in
  let log_file :=
    Path.join LOGS_DIR ("uploads_" +:+ Datetime.strftime_date today +:+ ".log") in
  let* f := io log_file (Fs.open_append log_file) in
  let* now_ := now in
  let timestamp := Datetime.isoformat now_ in
  io log_file
     (Fs.append f (timestamp +:+ " | Flight: " +:+ or_else flight_id "N/A" +:+
                   " | Image: " +:+ filename +:+ newline)).

(** An uploaded file: its name, its declared content type, and what
    [await file.read()] gives, the content or the message of the
    exception raised. *)
Record UploadFile := {
  upload_filename : string;
  upload_content_type : option string;
  upload_read : string + string
}.

(** [await file.read()] *)
Definition read_upload (file : UploadFile) : M string :=
  match upload_read file with
  | inl msg => raise (ReadError msg)
  | inr content => ret content
  end.

(** What a handler answers: a body, an [HTTPException] it raised, or an
    exception it did not catch. *)
Inductive response (A : Type) :=
| Ok (body : A)
| HTTPException (status_code : nat) (detail : string)
| Uncaught (e : exn).
Arguments Ok {A} body.
Arguments HTTPException {A} status_code detail.
Arguments Uncaught {A} e.

Record upload_form := {
  form_file : UploadFile;
  form_flight_id : option string;
  form_gps_latitude : option float;
  form_gps_longitude : option float;
  form_altitude : option float;
  form_camera_settings : option string;
  form_notes : option string
}.

Record upload_result := {
  res_filename : string;
  res_status : string;
  res_path : string;
  res_metadata_file : string;
  res_flight_id : string;
  res_uploaded_at : string
}.

(** The body of the [try] of [upload_image]. *)
Definition upload_image_try (rq : upload_form) : M upload_result :=
  let file := form_file rq in
  let flight_id := form_flight_id rq in
  let* '(full_path, date_folder, flight_folder) := get_timestamped_path flight_id in
  let* filename := generate_filename (upload_filename file) in
  let image_path := Path.join full_path filename in
  let* content := read_upload file in
  let* image_file := io image_path (Fs.open_write image_path) in
  let* _ := io image_path (Fs.write image_file (Fs.Bytes content)) in
  let* uploaded := now in
  let* camera := (if truthy (form_camera_settings rq)
                then lift (Json.loads (default "" (form_camera_settings rq)))
                else ret Json.Null) in
  let metadata :=
    [ ("original_filename", Json.Str (upload_filename file));
      ("stored_filename", Json.Str filename);
      ("upload_timestamp", Json.Str (Datetime.isoformat uploaded));
      ("flight_id", Json.of_opt_str flight_id);
      ("gps", Json.Dict [ ("latitude", Json.of_opt_float (form_gps_latitude rq));
                          ("longitude", Json.of_opt_float (form_gps_longitude rq)) ]);
      ("altitude", Json.of_opt_float (form_altitude rq));
      ("camera_settings", camera);
      ("notes", Json.of_opt_str (form_notes rq));
      ("file_size", Json.Int (Z.of_nat (String.length content)));
      ("content_type", Json.of_opt_str (upload_content_type file)) ] in
  let* '(metadata_file, metadata) := save_metadata image_path metadata flight_id in
  let* _ := log_upload filename flight_id in
  ret {| res_filename := filename;
         res_status := "success";
         res_path := image_path;
         res_metadata_file := metadata_file;
         res_flight_id := or_else flight_id flight_folder;
         res_uploaded_at :=
           match dict_get "upload_timestamp" metadata with
           | Some (Json.Str s) => s
           | _ => ""
           end |}.

(** [POST /upload/] *)
Definition upload_image (rq : upload_form) (w : world) : response upload_result * world :=
  match upload_image_try rq w with
  | (Return r, w') => (Ok r, w')
  | (Raise e, w') => (HTTPException 500 ("Upload failed: " +:+ str_exn e), w')
  end.

Inductive batch_entry :=
| BatchSuccess (filename path : string)
| BatchError (filename error : string).

Definition entry_status (r : batch_entry) : string :=
  match r with
  | BatchSuccess _ _ => "success"
  | BatchError _ _ => "error"
  end.

Record batch_form := {
  batch_files : list UploadFile;
  batch_flight_id : option string;
  batch_gps_latitude : option float;
  batch_gps_longitude : option float;
  batch_altitude : option float
}.

Record batch_result := {
  batch_total : nat;
  batch_successful : nat;
  batch_failed : nat;
  batch_results : list batch_entry
}.

(** The body of the [try] of the loop of [upload_batch]. *)
Definition upload_batch_try (rq : batch_form) (file : UploadFile) : M batch_entry :=
  let flight_id := batch_flight_id rq in
  let* '(full_path, date_folder, flight_folder) := get_timestamped_path flight_id in
  let* filename := generate_filename (upload_filename file) in
  let image_path := Path.join full_path filename in
  let* content := read_upload file in
  let* image_file := io image_path (Fs.open_write image_path) in
  let* _ := io image_path (Fs.write image_file (Fs.Bytes content)) in
  let* uploaded := now in
  let metadata :=
    [ ("original_filename", Json.Str (upload_filename file));
      ("stored_filename", Json.Str filename);
      ("upload_timestamp", Json.Str (Datetime.isoformat uploaded));
      ("flight_id", Json.of_opt_str flight_id);
      ("gps", Json.Dict [ ("latitude", Json.of_opt_float (batch_gps_latitude rq));
                          ("longitude", Json.of_opt_float (batch_gps_longitude rq)) ]);
      ("altitude", Json.of_opt_float (batch_altitude rq));
      ("file_size", Json.Int (Z.of_nat (String.length content)));
      ("content_type", Json.of_opt_str (upload_content_type file)) ] in
  let* _ := save_metadata image_path metadata flight_id in
  let* _ := log_upload filename flight_id in
  ret (BatchSuccess filename image_path).

(** One turn of the loop: the entry appended to [results]. *)
Definition upload_batch_step (rq : batch_form) (file : UploadFile) (w : world)
  : batch_entry * world :=
  match upload_batch_try rq file w with
  | (Return r, w') => (r, w')
  | (Raise e, w') => (BatchError (upload_filename file) (str_exn e), w')
  end.

Fixpoint upload_batch_loop (rq : batch_form) (todo : list UploadFile)
    (results : list batch_entry) (w : world) : list batch_entry * world :=
  match todo with
  | [] => (results, w)
  | file :: rest =>
      let '(r, w') := upload_batch_step rq file w in
      upload_batch_loop rq rest (results ++ [r]) w'
  end.

Definition count_status (st : string) (results : list batch_entry) : nat :=
  length (filter (fun r => entry_status r = st) results).

(** [POST /upload/batch] *)
Definition upload_batch (rq : batch_form) (w : world) : response batch_result * world :=
  let '(results, w') := upload_batch_loop rq (batch_files rq) [] w in
  (Ok {| batch_total := length (batch_files rq);
         batch_successful := count_status "success" results;
         batch_failed := count_status "error" results;
         batch_results := results |}, w').

Record image_info := {
  img_filename : string;
  img_path : string;
  img_flight_id : option string
}.

Inductive listing :=
| SimpleListing (images : list string)
| FullListing (total : nat) (images : list image_info).

(** The inner loop of the branch of [list_images] for one date: the
    files of [flight_folder]. *)
Definition images_of_flight (t : Fs.tree) (date date_path flight_folder : string)
  : errno + list image_info :=
  let flight_path := Path.join date_path flight_folder in
  if Fs.path_isdir t flight_path then
    match Fs.listdir t flight_path with
    | inl e => inl e
    | inr names =>
        inr (map (fun filename =>
                    {| img_filename := filename;
                       img_path := date +:+ "/" +:+ flight_folder +:+ "/" +:+ filename;
                       img_flight_id := Some (Str.replace "flight_" "" flight_folder) |})
                 (filter (fun filename => Fs.path_isfile t (Path.join flight_path filename) = true)
                         names))
    end
  else inr [].

(** The outer loop of that branch, over the names found in [date_path]. *)
Fixpoint images_of_date (t : Fs.tree) (flight_id : option string) (date date_path : string)
    (folders : list string) : errno + list image_info :=
  match folders with
  | [] => inr []
  | flight_folder :: rest =>
      if truthy flight_id &&
         negb (bool_decide ("flight_" +:+ default "" flight_id = flight_folder))
      then images_of_date t flight_id date date_path rest
      else
        match images_of_flight t date date_path flight_folder with
        | inl e => inl e
        | inr found =>
            match images_of_date t flight_id date date_path rest with
            | inl e => inl e
            | inr more => inr (found ++ more)
            end
        end
  end.

(** The record of one file met by the walk of the whole tree. *)
Definition image_of_walk (root filename : string) : image_info :=
  let rel_path := Path.relpath (Path.join root filename) IMAGE_DIR in
  let flight_folder := Path.basename (Path.dirname rel_path) in
  {| img_filename := filename;
     img_path := Str.replace "\" "/" rel_path;
     img_flight_id :=
       if Str.contains "flight_" flight_folder
       then Some (Str.replace "flight_" "" flight_folder)
       else None |}.

(** The [(root, filename)] pairs that the two nested loops over
    [os.walk(IMAGE_DIR)] go through. *)
Definition walked_files (t : Fs.tree) : list (string * string) :=
  flat_map (fun '(root, _, names) => map (fun filename => (root, filename)) names)
           (Fs.walk t IMAGE_DIR).

(** [GET /images/] *)
Definition list_images (flight_id date : option string) (simple : bool) (t : Fs.tree)
  : response listing :=
  let collected : response (list image_info) :=
    if truthy date then
      let date := default "" date in
      let date_path := Path.join IMAGE_DIR date in
      if negb (Fs.path_exists t date_path)
      then HTTPException 404 ("No images found for date: " +:+ date)
      else
        match Fs.listdir t date_path with
        | inl e => Uncaught (OSError e date_path)
        | inr folders =>
            match images_of_date t flight_id date date_path folders with
            | inl e => Uncaught (OSError e date_path)
            | inr images_list => Ok images_list
            end
        end
    else Ok (map (fun '(root, filename) => image_of_walk root filename) (walked_files t)) in
  match collected with
  | Ok [] => HTTPException 404 "No images found"
  | Ok images_list =>
      if simple then Ok (SimpleListing (map img_filename images_list))
      else Ok (FullListing (length images_list) images_list)
  | HTTPException c d => HTTPException c d
  | Uncaught e => Uncaught e
  end.

Record FileResponse := {
  fr_path : string;
  fr_media_type : string
}.

Definition content_type_map : list (string * string) :=
  [ (".jpg", "image/jpeg"); (".jpeg", "image/jpeg"); (".png", "image/png");
    (".tiff", "image/tiff"); (".tif", "image/tiff") ].

(** [d.get(k, dflt)] *)
Fixpoint get_or (k : string) (dflt : string) (d : list (string * string)) : string :=
  match d with
  | [] => dflt
  | (k', v) :: d' => if bool_decide (k' = k) then v else get_or k dflt d'
  end.

(** [GET /images/{date}/{flight_folder}/{filename}] *)
Definition get_image (date flight_folder filename : string) (t : Fs.tree)
  : response FileResponse :=
  let image_path := Path.join4 IMAGE_DIR date flight_folder filename in
  if negb (Fs.path_exists t image_path) then HTTPException 404 "Image not found"
  else
    let ext := Str.lower (snd (Path.splitext filename)) in
    let media_type := get_or ext "image/jpeg" content_type_map in
    Ok {| fr_path := image_path; fr_media_type := media_type |}.

(** The loop of [get_image_by_filename] over [os.walk(IMAGE_DIR)]: the
    path under the first root whose files have the name. *)
Fixpoint find_image (filename : string) (walked : list (string * list string * list string))
  : option string :=
  match walked with
  | [] => None
  | (root, _, names) :: rest =>
      if bool_decide (filename ∈ names) then Some (Path.join root filename)
      else find_image filename rest
  end.

(** [GET /images/{filename}] *)
Definition get_image_by_filename (filename : string) (t : Fs.tree)
  : response FileResponse :=
  match find_image filename (Fs.walk t IMAGE_DIR) with
  | Some image_path =>
      let ext := Str.lower (snd (Path.splitext filename)) in
      let media_type := get_or ext "image/jpeg" content_type_map in
      Ok {| fr_path := image_path; fr_media_type := media_type |}
  | None => HTTPException 404 "Image not found"
  end.

(** What the client receives for a [FileResponse]: the file's content. *)
Definition served (t : Fs.tree) (r : FileResponse) : errno + Fs.data :=
  Fs.read t (fr_path r).

(** [json.load(f)] *)
Definition json_load (d : Fs.data) : exn + Json.value :=
  match d with
  | Fs.Bytes s => Json.loads s
  | Fs.Document v trailer =>
      match Json.skip_ws trailer with
      | EmptyString => inr v
      | _ => inl (JSONDecodeError trailer)
      end
  end.

(** [GET /metadata/{date}/{flight_folder}/{filename}] *)
Definition get_metadata (date flight_folder filename : string) (t : Fs.tree)
  : response Json.value :=
  let image_path := Path.join4 IMAGE_DIR date flight_folder filename in
  let metadata_file := metadata_path image_path in
  if negb (Fs.path_exists t metadata_file) then HTTPException 404 "Metadata not found"
  else
    match Fs.read t metadata_file with
    | inl e => Uncaught (OSError e metadata_file)
    | inr d =>
        match json_load d with
        | inl e => Uncaught e
        | inr metadata => Ok metadata
        end
    end.

Record flight_info := {
  fl_date : string;
  fl_flight_id : string;
  fl_path : string;
  fl_image_count : nat
}.

(** The inner loop of [list_flights], over the names found in one date
    folder. *)
Fixpoint flights_of_date (t : Fs.tree) (date_folder date_path : string)
    (folders : list string) : errno + list flight_info :=
  match folders with
  | [] => inr []
  | flight_folder :: rest =>
      let flight_path := Path.join date_path flight_folder in
      if Fs.path_isdir t flight_path && Str.contains "flight_" flight_folder then
        match Fs.listdir t flight_path with
        | inl e => inl e
        | inr names =>
            let image_count :=
              length (filter (fun f => Fs.path_isfile t (Path.join flight_path f) = true) names) in
            match flights_of_date t date_folder date_path rest with
            | inl e => inl e
            | inr more =>
                inr ({| fl_date := date_folder;
                        fl_flight_id := Str.replace "flight_" "" flight_folder;
                        fl_path := date_folder +:+ "/" +:+ flight_folder;
                        fl_image_count := image_count |} :: more)
            end
        end
      else flights_of_date t date_folder date_path rest
  end.

(** The outer loop, over the names found in [IMAGE_DIR]. *)
Fixpoint flights_of_dates (t : Fs.tree) (date_folders : list string)
  : errno + list flight_info :=
  match date_folders with
  | [] => inr []
  | date_folder :: rest =>
      let date_path := Path.join IMAGE_DIR date_folder in
      let found :=
        if Fs.path_isdir t date_path then
          match Fs.listdir t date_path with
          | inl e => inl e
          | inr folders => flights_of_date t date_folder date_path folders
          end
        else inr [] in
      match found, flights_of_dates t rest with
      | inl e, _ => inl e
      | inr _, inl e => inl e
      | inr l, inr more => inr (l ++ more)
      end
  end.

(** [GET /flights/] *)
Definition list_flights (t : Fs.tree) : response (nat * list flight_info) :=
  match Fs.listdir t IMAGE_DIR with
  | inl e => Uncaught (OSError e IMAGE_DIR)
  | inr date_folders =>
      match flights_of_dates t date_folders with
      | inl e => Uncaught (OSError e IMAGE_DIR)
      | inr [] => HTTPException 404 "No flights found"
      | inr flights => Ok (length flights, flights)
      end
  end.

(** [os.path.getsize] *)
Definition getsize (json_len : Json.value -> nat) (t : Fs.tree) (p : string) : errno + nat :=
  match Fs.resolve t p with
  | inl e => inl e
  | inr k =>
      match t !! k with
      | Some (Fs.File (Fs.Bytes s)) => inr (String.length s)
      | Some (Fs.File (Fs.Document v trailer)) => inr (json_len v + String.length trailer)
      | Some Fs.Dir => inr 4096
      | None => match k with [] => inr 4096 | _ => inl ENOENT end
      end
  end.

(** The nearest integer to [n / d], ties to the even one. *)
Definition round_half_even (n d : Z) : Z :=
  let q := (n / d)%Z in
  let r := (n mod d)%Z in
  if (2 * r <? d)%Z then q
  else if (d <? 2 * r)%Z then (q + 1)%Z
  else if Z.even q then q else (q + 1)%Z.

(** [round(total_size / (1024**3), 2)] as a number of hundredths over
    100: the quotient by a power of two is exact in a double for sizes
    below 2^53, and [round] rounds its exact value, ties to even. *)
Definition size_gb (total_size : nat) : Q :=
  Qmake (round_half_even (100 * Z.of_nat total_size) (1024 ^ 3)) 100.

Record stats := {
  total_images : nat;
  total_size_gb : Q;
  total_flights : nat;
  images_per_flight : gmap string nat;
  timestamp : string
}.

Record tally := {
  tally_images : nat;
  tally_size : nat;
  tally_flights : gmap string nat
}.

(** The count of one file under its flight: the body of the [if] on
    the folder name in [get_stats]. *)
Definition count_flight (flight_folder : string) (flights : gmap string nat)
  : gmap string nat :=
  if Str.contains "flight_" flight_folder then
    let flight_id := Str.replace "flight_" "" flight_folder in
    let flights :=
      match flights !! flight_id with
      | None => <[flight_id := 0]> flights
      | Some _ => flights
      end in
    <[flight_id := default 0 (flights !! flight_id) + 1]> flights
  else flights.

(** One turn of the inner loop of [get_stats]. *)
Definition count_file (json_len : Json.value -> nat) (t : Fs.tree)
    (acc : tally) (root filename : string) : exn + tally :=
  let file_path := Path.join root filename in
  match getsize json_len t file_path with
  | inl e => inl (OSError e file_path)
  | inr size =>
      let flight_folder := Path.basename (Path.dirname file_path) in
      inr {| tally_images := tally_images acc + 1;
             tally_size := tally_size acc + size;
             tally_flights := count_flight flight_folder (tally_flights acc) |}
  end.

Fixpoint count_files (json_len : Json.value -> nat) (t : Fs.tree)
    (acc : tally) (todo : list (string * string)) : exn + tally :=
  match todo with
  | [] => inr acc
  | (root, filename) :: rest =>
      match count_file json_len t acc root filename with
      | inl e => inl e
      | inr acc' => count_files json_len t acc' rest
      end
  end.

Definition tally0 : tally :=
  {| tally_images := 0; tally_size := 0; tally_flights := ∅ |}.

(** [GET /stats/] *)
Definition get_stats (w : world) : response stats * world :=
  match count_files (json_length w) (files w) tally0 (walked_files (files w)) with
  | inl e => (Uncaught e, w)
  | inr acc =>
      (Ok {| total_images := tally_images acc;
             total_size_gb := size_gb (tally_size acc);
             total_flights := size (tally_flights acc);
             images_per_flight := tally_flights acc;
             timestamp := Datetime.isoformat (clock w (ticks w)) |},
       tick w)
  end.

Record health := {
  health_status : string;
  health_timestamp : string;
  health_service : string;
  health_version : string
}.

(** [GET /health] *)
Definition health_check (w : world) : response health * world :=
  (Ok {| health_status := "healthy";
         health_timestamp := Datetime.isoformat (clock w (ticks w));
         health_service := "drone-image-server";
         health_version := "1.0.0" |},
   tick w).

(** ** Sample worlds *)

(** The three directories that the module creates when it is loaded. *)
Definition fresh_store : gmap (list string) Fs.node :=
  <[ [IMAGE_DIR] := Fs.Dir ]> (<[ [METADATA_DIR] := Fs.Dir ]> (<[ [LOGS_DIR] := Fs.Dir ]> ∅)).

(** 9 March 2025, 14:05:07, and [ms] milliseconds. *)
Definition sample_time (ms : N) : datetime :=
  {| Datetime.year := 2025; Datetime.month := 3; Datetime.day := 9;
     Datetime.hour := 14; Datetime.minute := 5; Datetime.second := 7;
     Datetime.microsecond := 1000 * ms |}.

(** A world on [store] with the clock [clk] and no fault. *)
Definition quiet_world (store : gmap (list string) Fs.node) (clk : nat -> datetime) : world :=
  {| files := store; ticks := 0; clock := clk;
     ops := 0; fault := fun _ => false; json_length := fun _ => 0 |}.

(** Every reading within the same millisecond. *)
Definition frozen_clock (n : nat) : datetime := sample_time 250.

(** One upload reads the clock six times; with this clock the readings
    of the n-th upload all are n milliseconds after the first. *)
Definition stepping_clock (n : nat) : datetime := sample_time (250 + N.of_nat (n / 6)).

Definition jpeg_file (name body : string) : UploadFile :=
  {| upload_filename := name;
     upload_content_type := Some "image/jpeg";
     upload_read := inr body |}.

(** A form with the file, the flight and the camera settings, and
    nothing else. *)
Definition plain_form (file : UploadFile) (flight_id camera : option string) : upload_form :=
  {| form_file := file;
     form_flight_id := flight_id;
     form_gps_latitude := None;
     form_gps_longitude := None;
     form_altitude := None;
     form_camera_settings := camera;
     form_notes := None |}.

(** * The vocabulary of the properties *)

(** ** Batch uploads *)

(** The entries of a batch, one after the other, each from the world
    that the one before left. *)
Fixpoint batch_run (rq : batch_form) (todo : list UploadFile) (w : world)
  : list batch_entry * world :=
  match todo with
  | [] => ([], w)
  | file :: rest =>
      let '(r, w1) := upload_batch_step rq file w in
      let '(rs, w2) := batch_run rq rest w1 in
      (r :: rs, w2)
  end.

(** What an entry of the result says about the file it stands for. *)
Definition entry_of (rq : batch_form) (file : UploadFile) (r : batch_entry) : Prop :=
  exists w,
    r = (upload_batch_step rq file w).1 /\
    match upload_batch_try rq file w with
    | (Return entry, _) => r = entry /\ exists stored path, r = BatchSuccess stored path
    | (Raise e, _) => r = BatchError (upload_filename file) (str_exn e)
    end.

(** An entry of the results that reports a success names a file of
    the store. *)
Definition entry_stored (t : Fs.tree) (entry : batch_entry) : Prop :=
  match entry with
  | BatchSuccess stored path =>
      Fs.path_isfile t path = true /\ Path.basename path = stored
  | BatchError _ _ => True
  end.

(** ** The path of the metadata record *)

(** Modelled from the words of the specification, to compare with
    [metadata_path]: the image root replaced by the metadata root, the
    extension replaced by [.json], the rest of the path kept. *)
Definition mirrored_path (image_path : string) : string :=
  match Str.strip_prefix IMAGE_DIR image_path with
  | Some rest => METADATA_DIR +:+ fst (Path.splitext rest) +:+ ".json"
  | None => image_path
  end.

(** An upload to flight X of a file whose name has no extension. *)
Definition extensionless_upload : response upload_result * world :=
  upload_image (plain_form (jpeg_file "photo" "bytes") (Some "X") None)
               (quiet_world fresh_store frozen_clock).

(** ** The scenario of two uploads *)

(** [a.jpg] and [b.png] uploaded to flight X on a fresh store, one
    millisecond apart. *)
Definition two_uploads (a b : string) : world :=
  let w1 := (upload_image (plain_form (jpeg_file "a.jpg" a) (Some "X") None)
                          (quiet_world fresh_store stepping_clock)).2 in
  (upload_image (plain_form (jpeg_file "b.png" b) (Some "X") None) w1).2.

(** ** The flight of a listed image *)

(** The name that the handlers give as the flight of a folder: the
    folder's name without any of its occurrences of [flight_]. *)
Definition flight_of (flight_folder : string) : string :=
  Str.replace "flight_" "" flight_folder.

(** A record of the listing of one date: found as [filename] in the
    folder [flight_folder] of the date's directory, its flight is what
    [flight_of] makes of the folder's name. *)
Definition dated_record (t : Fs.tree) (date : string) (r : image_info) : Prop :=
  exists flight_folder names,
    let date_path := Path.join IMAGE_DIR date in
    Fs.listdir t (Path.join date_path flight_folder) = inr names /\
    In (img_filename r) names /\
    img_path r = date +:+ "/" +:+ flight_folder +:+ "/" +:+ img_filename r /\
    img_flight_id r = Some (flight_of flight_folder).

(** A record of the listing of the whole tree: met by the walk as
    [filename] under [root], its flight comes from the last folder of
    its path below [IMAGE_DIR], and there is none when that name has no
    [flight_] in it. *)
Definition walked_record (t : Fs.tree) (r : image_info) : Prop :=
  exists root,
    let rel_path := Path.relpath (Path.join root (img_filename r)) IMAGE_DIR in
    let flight_folder := Path.basename (Path.dirname rel_path) in
    In (root, img_filename r) (walked_files t) /\
    img_path r = Str.replace "\" "/" rel_path /\
    img_flight_id r =
      if Str.contains "flight_" flight_folder then Some (flight_of flight_folder) else None.

(** A record of the listing of flights: a directory two levels below
    the image root whose name has [flight_] in it, with the number of
    the files that it holds. *)
Definition flight_record (t : Fs.tree) (fl : flight_info) : Prop :=
  exists flight_folder names,
    let flight_path := Path.join (Path.join IMAGE_DIR (fl_date fl)) flight_folder in
    Str.contains "flight_" flight_folder = true /\
    Fs.path_isdir t flight_path = true /\
    Fs.listdir t flight_path = inr names /\
    fl_path fl = fl_date fl +:+ "/" +:+ flight_folder /\
    fl_flight_id fl = flight_of flight_folder /\
    fl_image_count fl
    = length (filter (fun f => Fs.path_isfile t (Path.join flight_path f) = true) names).

(** ** Counts per flight *)

(** The sum of the counts of all flights. *)
Definition sum_counts (flights : gmap string nat) : nat :=
  map_fold (fun _ n acc => n + acc) 0 flights.

(** The folder that [get_stats] takes the flight of a file from. *)
Definition stats_folder (root filename : string) : string :=
  Path.basename (Path.dirname (Path.join root filename)).

Definition in_flight (entry : string * string) : bool :=
  Str.contains "flight_" (stats_folder entry.1 entry.2).

(** The files that the statistics count for the flight [id]: those of
    the folders whose name has [flight_] in it and is [id] once every
    [flight_] is deleted from it. *)
Definition counted_for (id : string) (e : string * string) : bool :=
  in_flight e && bool_decide (flight_of (stats_folder e.1 e.2) = id).

(** ** How the handlers change the tree *)

(** A name that can be the name of an entry of a directory. *)
Definition plain (s : string) : Prop :=
  Str.has_char Str.slash s = false /\ s <> "" /\ s <> "." /\ s <> "..".

(** Nothing is ever removed: a directory stays a directory and a file
    stays a file, though its content may change; and what is added is
    added under plain names. *)
Definition grows (t t' : Fs.tree) : Prop :=
  forall k,
    (Fs.is_dir t k = true -> Fs.is_dir t' k = true) /\
    (Fs.is_file t k = true -> Fs.is_file t' k = true) /\
    (is_Some (t' !! k) -> is_Some (t !! k) \/ Forall plain k).

(** No file is created or written: every file of [t'] is in [t] with
    the same content. *)
Definition same_files (t t' : Fs.tree) : Prop :=
  forall k d, t' !! k = Some (Fs.File d) -> t !! k = Some (Fs.File d).

(** Every name in the tree is the name of an entry. *)
Definition valid_names (t : Fs.tree) : Prop :=
  forall k n, t !! k = Some n -> Forall plain k.

(** [Fs.enter] and [Fs.make], as the steps of the folds of [Fs.resolve]
    and [Fs.makedirs]. *)
Definition enter_from (t : Fs.tree) (acc : errno + list string) (comp : string)
  : errno + list string :=
  match acc with inl e => inl e | inr cur => Fs.enter t cur comp end.

Definition make_from (acc : errno + (Fs.tree * list string)) (comp : string)
  : errno + (Fs.tree * list string) :=
  match acc with inl e => inl e | inr st => Fs.make st comp end.

(** The part of the world that no handler changes. *)
Definition same_env (w w' : world) : Prop :=
  clock w' = clock w /\ fault w' = fault w /\ json_length w' = json_length w.

(** The folder of the flight, from the reading of the clock that
    [get_timestamped_path] takes. *)
Definition planned_folder (flight_id : option string) (t0 : datetime) : string :=
  if truthy flight_id then "flight_" +:+ default "" flight_id
  else "flight_" +:+ Datetime.strftime_seconds t0.

Definition planned_date (w : world) : string :=
  Datetime.strftime_date (clock w (ticks w)).

Definition planned_dir (flight_id : option string) (w : world) : string :=
  Path.join3 IMAGE_DIR (planned_date w) (planned_folder flight_id (clock w (ticks w))).

(** The stored name, from the reading that [generate_filename] takes,
    the second of the upload. *)
Definition planned_name (original_filename : string) (w : world) : string :=
  Str.drop_last 3 (Datetime.strftime_micros (clock w (S (ticks w))))
  +:+ snd (Path.splitext original_filename).

Definition planned_path (flight_id : option string) (original_filename : string)
    (w : world) : string :=
  Path.join (planned_dir flight_id w) (planned_name original_filename w).

(** A write through the path [p]: the tree grows, and the files found
    elsewhere than at [p] are as they were. *)
Definition writes_at (p : string) (t t' : Fs.tree) : Prop :=
  grows t t' /\
  forall k d, t !! k = Some (Fs.File d) ->
              t' !! k = Some (Fs.File d) \/ Fs.resolve t' p = inr k.

(** Writes through the paths [ps] and nowhere else: the tree grows, and
    every file keeps its content unless one of the paths names it. *)
Definition touches (ps : list string) (t t' : Fs.tree) : Prop :=
  grows t t' /\
  forall k d, t !! k = Some (Fs.File d) ->
              t' !! k = Some (Fs.File d) \/ exists p, p ∈ ps /\ Fs.resolve t' p = inr k.

(** The log of the day of the reading [t0]. *)
Definition log_file_of (t0 : datetime) : string :=
  Path.join LOGS_DIR ("uploads_" +:+ Datetime.strftime_date t0 +:+ ".log").

(** The steps before the log, with what they hand on: the stored name,
    the path of the image, the folder of the flight, the path of the
    record and the record. *)
Definition upload_image_store (rq : upload_form)
  : M (string * string * string * string * list (string * Json.value)) :=
  let file := form_file rq in
  let flight_id := form_flight_id rq in
  let* '(full_path, date_folder, flight_folder) := get_timestamped_path flight_id in
  let* filename := generate_filename (upload_filename file) in
  let image_path := Path.join full_path filename in
  let* content := read_upload file in
  let* image_file := io image_path (Fs.open_write image_path) in
  let* _ := io image_path (Fs.write image_file (Fs.Bytes content)) in
  let* uploaded := now in
  let* camera := (if truthy (form_camera_settings rq)
                  then lift (Json.loads (default "" (form_camera_settings rq)))
                  else ret Json.Null) in
  let metadata :=
    [ ("original_filename", Json.Str (upload_filename file));
      ("stored_filename", Json.Str filename);
      ("upload_timestamp", Json.Str (Datetime.isoformat uploaded));
      ("flight_id", Json.of_opt_str flight_id);
      ("gps", Json.Dict [ ("latitude", Json.of_opt_float (form_gps_latitude rq));
                          ("longitude", Json.of_opt_float (form_gps_longitude rq)) ]);
      ("altitude", Json.of_opt_float (form_altitude rq));
      ("camera_settings", camera);
      ("notes", Json.of_opt_str (form_notes rq));
      ("file_size", Json.Int (Z.of_nat (String.length content)));
      ("content_type", Json.of_opt_str (upload_content_type file)) ] in
  let* '(metadata_file, metadata) := save_metadata image_path metadata flight_id in
  ret (filename, image_path, flight_folder, metadata_file, metadata).

(** The log, and the answer. *)
Definition upload_image_finish (rq : upload_form)
    (stored : string * string * string * string * list (string * Json.value))
  : M upload_result :=
  let '(filename, image_path, flight_folder, metadata_file, metadata) := stored in
  let* _ := log_upload filename (form_flight_id rq) in
  ret {| res_filename := filename;
         res_status := "success";
         res_path := image_path;
         res_metadata_file := metadata_file;
         res_flight_id := or_else (form_flight_id rq) flight_folder;
         res_uploaded_at :=
           match dict_get "upload_timestamp" metadata with
           | Some (Json.Str s) => s
           | _ => ""
           end |}.

(** The image of an upload, as the steps before the log leave it: the
    file that its path names, holding the uploaded bytes unless the
    path of the record names the same file. *)
Definition image_stored (t : Fs.tree) (p content : string) : Prop :=
  exists kp,
    Fs.resolve t p = inr kp /\ Fs.is_file t kp = true /\
    (t !! kp = Some (Fs.File (Fs.Bytes content)) \/ Fs.resolve t (metadata_path p) = inr kp).

(** The worlds that the server can be in: it starts on the three
    directories, and only the two upload handlers write. *)
Inductive reachable : world -> Prop :=
| reach_start w : files w = fresh_store -> reachable w
| reach_upload rq w : reachable w -> reachable (upload_image rq w).2
| reach_batch rq w : reachable w -> reachable (upload_batch rq w).2
| reach_read w w' : reachable w -> files w' = files w -> reachable w'.

(** An upload of five bytes under the name [x.json], to a flight that
    is a path that leaves the image root and comes back below the
    working directory. *)
Definition upload_to_a_path_as_flight : response upload_result * world :=
  upload_image (plain_form (jpeg_file "x.json" "bytes") (Some "a/../../../shared") None)
               (quiet_world fresh_store frozen_clock).

(** ** Failed uploads *)

(** An upload to flight X whose camera settings are not a JSON
    document. *)
Definition upload_with_bad_settings : response upload_result * world :=
  upload_image (plain_form (jpeg_file "a.jpg" "bytes") (Some "X") (Some "invalid json"))
               (quiet_world fresh_store frozen_clock).

(** ** The log *)

(** A store whose [logs] directory is gone. *)
Definition store_without_logs : gmap (list string) Fs.node :=
  <[ [IMAGE_DIR] := Fs.Dir ]> (<[ [METADATA_DIR] := Fs.Dir ]> ∅).

Definition upload_without_logs : response upload_result * world :=
  upload_image (plain_form (jpeg_file "a.jpg" "bytes") (Some "X") None)
               (quiet_world store_without_logs frozen_clock).

(** ** Names and paths *)

(** There is no file anywhere. *)
Definition no_files (t : Fs.tree) : Prop :=
  forall k, Fs.is_file t k = false.

(** ** The names that an upload makes *)

(** Every character of the string passes the test. *)
Fixpoint all_chars (ok : ascii -> bool) (s : string) : bool :=
  match s with
  | EmptyString => true
  | String c s' => ok c && all_chars ok s'
  end.

(** The characters of a time stamp: digits, and the separators. *)
Definition stamp_char (c : ascii) : bool :=
  Json.is_digit c || Ascii.eqb c "_" || Ascii.eqb c "-".

(** A string with a character other than the dot is neither empty nor
    one of the two special names. *)
Fixpoint has_other (s : string) : bool :=
  match s with
  | EmptyString => false
  | String c s' => negb (Ascii.eqb c ".") || has_other s'
  end.

(** No slash, and a character other than the dot: such a string is
    the name of an entry, and stays one under the replacements of
    [metadata_path]. *)
Definition named (s : string) : Prop :=
  Str.has_char Str.slash s = false /\ has_other s = true.

(** The flight, when given, is a single name. *)
Definition single_name (flight_id : option string) : Prop :=
  forall id, flight_id = Some id -> Str.has_char Str.slash id = false.

(** A path, from its first component and the names that follow. *)
Definition path_from (first : string) (rest : list string) : string :=
  foldl (fun acc name => acc +:+ String Str.slash name) first rest.

(** What [replace] with an empty pattern makes of a string. *)
Definition spread (new s : string) : string := new +:+ Str.insert_after_each new s.

(** ** The flight of a listed image, in the tree *)

(** A record of the listing of the whole tree: a file of the tree,
    below the image root, whose flight comes from the name of the
    directory it lies in. *)
Definition walked_in_tree (t : Fs.tree) (r : image_info) : Prop :=
  exists rest d,
    let flight_folder := default "" (last rest) in
    t !! (IMAGE_DIR :: rest ++ [img_filename r])%list = Some (Fs.File d) /\
    img_flight_id r =
      if Str.contains "flight_" flight_folder then Some (flight_of flight_folder) else None.

(** A store with one image in the folder of the flight [flight_7]. *)
Definition store_of_flight_flight_7 : world :=
  (upload_image (plain_form (jpeg_file "a.jpg" "bytes") (Some "flight_7") None)
                (quiet_world fresh_store frozen_clock)).2.

(** ** The counts per flight, in the tree *)

(** A file below the image root, every directory on the way to it
    being there. *)
Definition stored_image (t : Fs.tree) (k : list string) : Prop :=
  exists rest name d,
    k = (IMAGE_DIR :: rest ++ [name])%list /\
    Fs.dirs_along t [IMAGE_DIR] rest = true /\
    t !! k = Some (Fs.File d).

(** The keys of the files that the walk of the image root meets, in
    the order of the walk. *)
Definition image_keys (t : Fs.tree) : list (list string) :=
  if Fs.is_dir t [IMAGE_DIR] then
    flat_map (fun rest => map (fun name => (IMAGE_DIR :: rest ++ [name])%list)
                              (Fs.file_names t ([IMAGE_DIR] ++ rest)))
             ([] :: Fs.subdirs t [IMAGE_DIR])
  else [].

(** The sizes of the files of the list, as [os.path.getsize] gives
    them. *)
Definition sizes_of (json_len : Json.value -> nat) (t : Fs.tree)
    (todo : list (string * string)) (sizes : list nat) : Prop :=
  Forall2 (fun e size => getsize json_len t (Path.join e.1 e.2) = inr size) todo sizes.

(** A file that the statistics count: a file of the tree, below the
    image root, counted under the name of the directory it lies in. *)
Definition counted_in_tree (t : Fs.tree) (e : string * string) : Prop :=
  exists rest d,
    t !! (IMAGE_DIR :: rest ++ [e.2])%list = Some (Fs.File d) /\
    stats_folder e.1 e.2 = default IMAGE_DIR (last rest).

(** ** A batch, entry by entry *)

Definition is_success (entry : batch_entry) : bool :=
  match entry with
  | BatchSuccess _ _ => true
  | BatchError _ _ => false
  end.

(** The form of the single upload of [file] in the context of the
    batch: the flight, the position and the altitude of the batch, no
    camera settings and no notes. *)
Definition put_form (rq : batch_form) (file : UploadFile) : upload_form :=
  {| form_file := file;
     form_flight_id := batch_flight_id rq;
     form_gps_latitude := batch_gps_latitude rq;
     form_gps_longitude := batch_gps_longitude rq;
     form_altitude := batch_altitude rq;
     form_camera_settings := None;
     form_notes := None |}.

(** Two trees with the same entries, but for the values of the JSON
    documents that they hold at the same places. *)
Definition alike (t1 t2 : Fs.tree) : Prop :=
  forall k,
    t1 !! k = t2 !! k \/
    exists v1 v2 trailer,
      t1 !! k = Some (Fs.File (Fs.Document v1 trailer)) /\
      t2 !! k = Some (Fs.File (Fs.Document v2 trailer)).

Definition same_but_records (w1 w2 : world) : Prop :=
  ticks w1 = ticks w2 /\ clock w1 = clock w2 /\ ops w1 = ops w2 /\ fault w1 = fault w2 /\
  json_length w1 = json_length w2 /\ alike (files w1) (files w2).

(** Two runs that end alike: both return, with results that [R]
    relates, or both raise the same exception. *)
Definition sim {A B} (R : A -> B -> Prop)
    (run1 : outcome A * world) (run2 : outcome B * world) : Prop :=
  same_but_records run1.2 run2.2 /\
  match run1.1, run2.1 with
  | Return a, Return b => R a b
  | Raise e1, Raise e2 => e1 = e2
  | _, _ => False
  end.

(** What the batch does with [file] in the world [w] is what the single
    upload of the file does there: [entry] is the success or the
    failure that [upload_image] answers, with its stored name and path
    or with the description of its error, and the world [w1] that the
    batch goes on from is the one that [upload_image] leaves, but for
    the record, which has no camera settings and no notes. *)
Definition put_answers (rq : batch_form) (file : UploadFile) (w : world)
    (entry : batch_entry) (w1 : world) : Prop :=
  match upload_image (put_form rq file) w with
  | (Ok r, w2) =>
      entry = BatchSuccess (res_filename r) (res_path r) /\ same_but_records w1 w2
  | (HTTPException code detail, w2) =>
      exists error,
        entry = BatchError (upload_filename file) error /\
        code = 500 /\ detail = "Upload failed: " +:+ error /\ same_but_records w1 w2
  | (Uncaught _, _) => False
  end.

(** What an entry of the results says, in the store: a success names
    the file, readable, that was written under the stored name of the
    moment, in the folder of the flight; a failure has the name of the
    file as it was sent, and the text of the exception of the read or
    of the file system that made it fail. *)
Definition entry_outcome (rq : batch_form) (file : UploadFile) (w : world)
    (entry : batch_entry) (w1 : world) : Prop :=
  grows (files w) (files w1) /\
  match entry with
  | BatchSuccess stored path =>
      stored = planned_name (upload_filename file) w /\
      path = planned_path (batch_flight_id rq) (upload_filename file) w /\
      Fs.path_isfile (files w1) path = true /\
      exists content, upload_read file = inr content
  | BatchError name error =>
      name = upload_filename file /\
      ((exists msg, upload_read file = inl msg /\ error = msg) \/
       (exists e path, error = str_exn (OSError e path)))
  end.

(** The entries of a batch, one for each file in the order sent, each
    from the world that the one before it left, whether that one
    failed or not. *)
Inductive batch_trace (rq : batch_form)
  : world -> list UploadFile -> list batch_entry -> world -> Prop :=
| trace_done w : batch_trace rq w [] [] w
| trace_entry w file entry w1 rest entries w' :
    put_answers rq file w entry w1 ->
    entry_outcome rq file w entry w1 ->
    batch_trace rq w1 rest entries w' ->
    batch_trace rq w (file :: rest) (entry :: entries) w'.

(** ** Listings that find nothing *)








(** * Properties *)

(** ** The library, on examples *)

Example json_documents :
  let q := String Json.quote "" in
  Json.valid ("{" +:+ q +:+ "iso" +:+ q +:+ ": 100, " +:+ q +:+ "tags" +:+ q +:+
              ": [1, -2.5e3, null, " +:+ q +:+ "1\/1000\u00e9" +:+ q +:+ "]}") = true /\
  Json.valid " [ ] " = true /\
  Json.valid "invalid json" = false /\
  Json.valid "[1, 2,]" = false /\
  Json.valid "01" = false /\
  Json.valid "" = false.
Proof. repeat split; reflexivity. Qed.

Example replace_all_occurrences :
  Str.replace "ab" "X" "abcabab" = "XcXX".
Proof. reflexivity. Qed.

Example replace_empty_pattern :
  Str.replace "" "-" "abc" = "-a-b-c-".
Proof. reflexivity. Qed.

Example splitext_cases :
  Path.splitext "a/b.c/photo.tar.gz" = ("a/b.c/photo.tar", ".gz") /\
  Path.splitext ".bashrc" = (".bashrc", "") /\
  Path.splitext "dir.d/noext" = ("dir.d/noext", "") /\
  Path.splitext "trailing." = ("trailing", ".").
Proof. repeat split; reflexivity. Qed.

Example dirname_basename_cases :
  Path.dirname "images/d/f/x.jpg" = "images/d/f" /\
  Path.basename "images/d/f" = "f" /\
  Path.dirname "x.jpg" = "" /\
  Path.dirname "//x" = "//" /\
  Path.relpath "images/d/f/x.jpg" "images" = "d/f/x.jpg" /\
  Path.relpath "images" "images" = ".".
Proof. repeat split; reflexivity. Qed.

(** ** Batch uploads *)

Lemma upload_batch_loop_run rq todo acc w :
  upload_batch_loop rq todo acc w =
  ((acc ++ (batch_run rq todo w).1)%list, (batch_run rq todo w).2).
Proof.
  revert acc w. induction todo as [|file rest IH]; intros acc w; simpl.
  - by rewrite app_nil_r.
  - destruct (upload_batch_step rq file w) as [r w1] eqn:Hstep.
    rewrite IH. destruct (batch_run rq rest w1) as [rs w2]; simpl.
    by rewrite <- app_assoc.
Qed.

Lemma upload_batch_step_entry rq file w : entry_of rq file (upload_batch_step rq file w).1.
Proof.
  exists w. split; [done|]. unfold upload_batch_step.
  destruct (upload_batch_try rq file w) as [[entry|e] w1] eqn:Htry; simpl; [|done].
  split; [done|].
  unfold upload_batch_try, bind in Htry.
  repeat match type of Htry with
         | context [match ?m with _ => _ end] => destruct m as [[?|?] ?] eqn:?; try discriminate
         | context [let (_, _) := ?m in _] => destruct m
         end.
  unfold ret in Htry. injection Htry as <- _. eauto.
Qed.

Lemma batch_run_entries rq todo w : Forall2 (entry_of rq) todo (batch_run rq todo w).1.
Proof.
  revert w. induction todo as [|file rest IH]; intros w; simpl; [constructor|].
  pose proof (upload_batch_step_entry rq file w) as Hentry.
  destruct (upload_batch_step rq file w) as [r w1].
  specialize (IH w1). destruct (batch_run rq rest w1) as [rs w2]. simpl in *.
  by constructor.
Qed.

Lemma count_status_split results :
  count_status "success" results + count_status "error" results = length results.
Proof.
  unfold count_status. induction results as [|r rs IH]; [done|].
  rewrite !filter_cons. destruct r; simpl;
    repeat case_decide; try done; simpl; lia.
Qed.

(** ** Stored names *)

(** C1: two files sent in one batch within the same millisecond, with
    the same extension and into the same flight, are both answered as
    stored, under the same stored name: the flight's directory then
    holds a single file, the bytes of the second, and the first is
    lost. *)
Theorem burst_uploads_share_a_stored_name :
  let batch :=
    {| batch_files := [jpeg_file "a.jpg" "first"; jpeg_file "a.jpg" "second"];
       batch_flight_id := Some "X";
       batch_gps_latitude := None; batch_gps_longitude := None; batch_altitude := None |} in
  let '(answer, w') := upload_batch batch (quiet_world fresh_store frozen_clock) in
  let stored := "20250309_140507_250.jpg" in
  let path := "images/2025-03-09/flight_X/20250309_140507_250.jpg" in
  (exists r, answer = Ok r /\
     batch_successful r = 2 /\
     batch_results r = [BatchSuccess stored path; BatchSuccess stored path]) /\
  Fs.listdir (files w') "images/2025-03-09/flight_X" = inr [stored] /\
  Fs.read (files w') path = inr (Fs.Bytes "second").
Proof.
  vm_compute. split; [|split; reflexivity].
  eexists. split; [reflexivity|]. split; reflexivity.
Qed.

(** ** The path of the metadata record *)

Example mirrored_path_jpg :
  mirrored_path "images/2025-03-09/flight_X/20250309_140507_250.jpg"
  = "metadata/2025-03-09/flight_X/20250309_140507_250.json"
  /\ metadata_path "images/2025-03-09/flight_X/20250309_140507_250.jpg"
     = "metadata/2025-03-09/flight_X/20250309_140507_250.json".
Proof. split; reflexivity. Qed.

(** C2: an upload whose original name has no extension succeeds, but
    its record is not at the mirrored path: with an empty extension the
    second [replace] puts [.json] around every character of the path,
    and nothing is stored under the metadata root. *)
Theorem metadata_of_extensionless_upload_is_not_mirrored :
  let image := "images/2025-03-09/flight_X/20250309_140507_250" in
  let t := files extensionless_upload.2 in
  exists r, extensionless_upload.1 = Ok r /\
    res_path r = image /\
    Fs.path_isfile t image = true /\
    mirrored_path image = "metadata/2025-03-09/flight_X/20250309_140507_250.json" /\
    res_metadata_file r <> mirrored_path image /\
    Str.startswith ".jsonm.jsone.jsont.jsona.jsond.jsona.jsont.jsona.json/.json2"
                   (res_metadata_file r) = true /\
    Fs.path_isfile t (res_metadata_file r) = true /\
    Fs.path_exists t (mirrored_path image) = false /\
    Fs.listdir t METADATA_DIR = inr [].
Proof.
  eexists. split; [vm_compute; reflexivity|].
  vm_compute. repeat split; try reflexivity. discriminate.
Qed.

(** ** The scenario of two uploads *)

Ltac explode_string s H :=
  repeat (destruct s as [|? s]; [discriminate H|]);
  destruct s; [|discriminate H]; clear H.

(** C5, as amended: after the two uploads the listing for flight X has
    exactly two entries, and the statistics count two images, one
    flight and two images for X; the size is reported in gigabytes
    rounded to two decimals, 0.00 for these thirty bytes. *)
Theorem two_uploads_listing_and_stats (a b : string) :
  String.length a = 10 -> String.length b = 20 ->
  (exists first second,
     list_images (Some "X") None false (files (two_uploads a b))
     = Ok (FullListing 2 [first; second]) /\
     img_flight_id first = Some "X" /\ img_flight_id second = Some "X") /\
  exists st,
    (get_stats (two_uploads a b)).1 = Ok st /\
    total_images st = 2 /\
    total_size_gb st = Qmake 0 100 /\
    total_flights st = 1 /\
    images_per_flight st = {[ "X" := 2 ]}.
Proof.
  intros Ha Hb. explode_string a Ha. explode_string b Hb.
  vm_compute. split.
  - eexists _, _. repeat split; reflexivity.
  - eexists. repeat split; reflexivity.
Qed.

Lemma two_uploads_listing_and_stats_witness :
  String.length "0123456789" = 10 /\
  exists st,
    (get_stats (two_uploads "0123456789" "abcdefghijklmnopqrst")).1 = Ok st /\
    total_images st = 2.
Proof.
  split; [reflexivity|].
  destruct (two_uploads_listing_and_stats "0123456789" "abcdefghijklmnopqrst"
              eq_refl eq_refl) as [_ (st & Hst & Hn & _)].
  exists st. split; assumption.
Defined.

(** C5, as stated, fails: the size that the statistics report for the
    two files is 0.00, not 30, and a store of 31 bytes gets the very
    same report, so that the byte count cannot be read off it. *)
Lemma stats_report_no_byte_count :
  let st30 := (get_stats (two_uploads "0123456789" "abcdefghijklmnopqrst")).1 in
  let st31 := (get_stats (two_uploads "0123456789" "abcdefghijklmnopqrstu")).1 in
  (exists st, st30 = Ok st /\ total_size_gb st = Qmake 0 100 /\ ~ Qeq (total_size_gb st) 30) /\
  st30 = st31.
Proof.
  vm_compute. split; [|reflexivity].
  eexists. split; [reflexivity|]. split; [reflexivity|]. discriminate.
Qed.

(** ** Facts about [replace] *)

Lemma append_nil_l (s : string) : "" +:+ s = s.
Proof. reflexivity. Qed.

Lemma append_cons (c : ascii) (s t : string) : String c s +:+ t = String c (s +:+ t).
Proof. reflexivity. Qed.

Lemma append_nil_r (s : string) : s +:+ "" = s.
Proof. induction s as [|c s IH]; [done|]. by rewrite append_cons, IH. Qed.

Lemma append_assoc (s t u : string) : (s +:+ t) +:+ u = s +:+ (t +:+ u).
Proof. induction s as [|c s IH]; [done|]. by rewrite !append_cons, IH. Qed.

Lemma length_append (s t : string) :
  String.length (s +:+ t) = String.length s + String.length t.
Proof. induction s as [|c s IH]; [done|]. rewrite append_cons. simpl. by rewrite IH. Qed.

(** Where [old] does not occur, nothing is replaced. *)
Lemma replace_from_absent (old new : string) s :
  Str.contains old s = false -> Str.replace_from old new 0 s = s.
Proof.
  induction s as [|c s IH]; [done|]. intros Hno.
  cbn [Str.contains] in Hno. apply orb_false_elim in Hno as [Hhere Hlater].
  cbn [Str.replace_from]. rewrite Hhere. by rewrite IH.
Qed.

Lemma replace_absent (old new : string) s :
  old <> "" -> Str.contains old s = false -> Str.replace old new s = s.
Proof.
  intros Hold Hno. unfold Str.replace. destruct old; [done|].
  by apply replace_from_absent.
Qed.

Lemma delete_from_length (old : string) k s :
  String.length (Str.replace_from old "" k s) <= String.length s.
Proof.
  revert k. induction s as [|c s IH]; intros k; [done|].
  cbn [Str.replace_from]. destruct k as [|k].
  - destruct (Str.startswith old (String c s)).
    + rewrite append_nil_l. specialize (IH (String.length old - 1)). simpl. lia.
    + specialize (IH 0). simpl. lia.
  - specialize (IH k). simpl. lia.
Qed.

(** Where [old] occurs, deleting it makes the string shorter. *)
Lemma delete_from_shorter (old : string) s :
  old <> "" ->
  Str.contains old s = true ->
  String.length (Str.replace_from old "" 0 s) < String.length s.
Proof.
  intros Hold. induction s as [|c s IH].
  - destruct old; [done|]. discriminate.
  - intros Hin. cbn [Str.contains] in Hin. cbn [Str.replace_from].
    destruct (Str.startswith old (String c s)) eqn:Hhere.
    + rewrite append_nil_l.
      pose proof (delete_from_length old (String.length old - 1) s). simpl. lia.
    + simpl in Hin. specialize (IH Hin). simpl. lia.
Qed.

Lemma delete_fixes_iff (old : string) s :
  old <> "" ->
  Str.replace old "" s = s <-> Str.contains old s = false.
Proof.
  intros Hold. split.
  - intros Hsame. destruct (Str.contains old s) eqn:Hin; [|done].
    exfalso. apply delete_from_shorter in Hin; [|done].
    unfold Str.replace in Hsame. destruct old; [done|].
    rewrite Hsame in Hin. lia.
  - by apply replace_absent.
Qed.

(** ** The flight of a listed image *)

Lemma flight_of_folder (id : string) : flight_of ("flight_" +:+ id) = flight_of id.
Proof. reflexivity. Qed.

Lemma flight_of_folder_is_id (id : string) :
  flight_of ("flight_" +:+ id) = id <-> Str.contains "flight_" id = false.
Proof. rewrite flight_of_folder. by apply delete_fixes_iff. Qed.

Lemma images_of_flight_records t date flight_folder found :
  images_of_flight t date (Path.join IMAGE_DIR date) flight_folder = inr found ->
  Forall (dated_record t date) found.
Proof.
  unfold images_of_flight. intros Hfound.
  destruct (Fs.path_isdir t _); [|injection Hfound as <-; constructor].
  destruct (Fs.listdir t _) as [e|names] eqn:Hnames; [done|].
  injection Hfound as <-. apply Forall_forall. intros r Hr.
  apply list_elem_of_In, in_map_iff in Hr as (filename & <- & Hin).
  apply list_elem_of_In, list_elem_of_filter in Hin as [_ Hin].
  exists flight_folder, names. simpl. rewrite Hnames.
  repeat split; try done. by apply list_elem_of_In.
Qed.

Lemma images_of_date_records t flight_id date folders found :
  images_of_date t flight_id date (Path.join IMAGE_DIR date) folders = inr found ->
  Forall (dated_record t date) found.
Proof.
  revert found. induction folders as [|flight_folder rest IH]; intros found; simpl.
  - intros [= <-]. constructor.
  - destruct (_ && _); [by apply IH|].
    destruct (images_of_flight t date _ flight_folder) as [e|here] eqn:Hhere; [done|].
    destruct (images_of_date t flight_id date _ rest) as [e|more]; [done|].
    intros [= <-]. apply Forall_app. split.
    + by eapply images_of_flight_records.
    + by apply IH.
Qed.

Lemma walked_records t :
  Forall (walked_record t)
         (map (fun '(root, filename) => image_of_walk root filename) (walked_files t)).
Proof.
  apply Forall_forall. intros r Hr.
  apply list_elem_of_In, in_map_iff in Hr as ([root filename] & <- & Hin).
  exists root. simpl. repeat split; done.
Qed.

(** ** Counts per flight *)

Lemma sum_counts_empty : sum_counts ∅ = 0.
Proof. apply map_fold_empty. Qed.

Lemma sum_counts_insert_fresh (flights : gmap string nat) id n :
  flights !! id = None -> sum_counts (<[id := n]> flights) = n + sum_counts flights.
Proof.
  intros Hfresh. unfold sum_counts.
  apply (map_fold_insert_L (fun _ n acc => n + acc)); [|done].
  intros. lia.
Qed.

Lemma sum_counts_insert (flights : gmap string nat) id n :
  sum_counts (<[id := n]> flights) + default 0 (flights !! id) = n + sum_counts flights.
Proof.
  destruct (flights !! id) as [old|] eqn:Hid; simpl.
  - rewrite <- (insert_delete_eq flights id n).
    rewrite <- (insert_delete_id flights id old Hid) at 2.
    rewrite !sum_counts_insert_fresh by apply lookup_delete_eq. lia.
  - rewrite sum_counts_insert_fresh by done. lia.
Qed.

Lemma count_flight_sum folder flights :
  sum_counts (count_flight folder flights)
  = sum_counts flights + (if Str.contains "flight_" folder then 1 else 0).
Proof.
  unfold count_flight. destruct (Str.contains "flight_" folder); [|lia].
  set (id := Str.replace "flight_" "" folder).
  destruct (flights !! id) as [n|] eqn:Hid; simpl.
  - pose proof (sum_counts_insert flights id (n + 1)) as Hsum.
    rewrite Hid in Hsum |- *. simpl in *. lia.
  - rewrite lookup_insert_eq. simpl. rewrite insert_insert_eq.
    rewrite sum_counts_insert_fresh by done. lia.
Qed.

Lemma count_files_tally json_len t acc todo acc' :
  count_files json_len t acc todo = inr acc' ->
  tally_images acc' = tally_images acc + length todo /\
  sum_counts (tally_flights acc')
  = sum_counts (tally_flights acc) + length (filter (fun e => in_flight e = true) todo).
Proof.
  revert acc. induction todo as [|[root filename] rest IH]; intros acc; simpl.
  - intros [= <-]. lia.
  - unfold count_file.
    destruct (getsize json_len t (Path.join root filename)) as [e|size]; [done|].
    intros Hrest. apply IH in Hrest as [Himages Hflights]. simpl in *.
    rewrite Himages, Hflights, count_flight_sum, filter_cons.
    destruct (decide (in_flight (root, filename) = true)) as [Hin|Hin];
      unfold in_flight, stats_folder in Hin; simpl in Hin;
      [|apply not_true_is_false in Hin]; rewrite Hin; simpl; lia.
Qed.

Lemma filter_length_all {A} (P : A -> Prop) `{!forall x, Decision (P x)} (l : list A) :
  length (filter P l) = length l <-> Forall P l.
Proof.
  induction l as [|x l IH]; [by rewrite filter_nil|].
  rewrite filter_cons. pose proof (length_filter P l) as Hle.
  destruct (decide (P x)) as [Hx|Hx]; simpl.
  - rewrite Forall_cons. split.
    + intros Hlen. split; [done|]. apply IH. lia.
    + intros [_ Hall]. apply IH in Hall. lia.
  - split; [lia|]. by intros [? _]%Forall_cons.
Qed.

(** ** How the handlers change the tree *)

Lemma grows_refl t : grows t t.
Proof. intros k. repeat split; auto. Qed.

Lemma grows_trans t1 t2 t3 : grows t1 t2 -> grows t2 t3 -> grows t1 t3.
Proof.
  intros H12 H23 k. destruct (H12 k) as (Hd & Hf & Hn), (H23 k) as (Hd' & Hf' & Hn').
  repeat split; [auto|auto|]. intros [Hk|Hk]%Hn'; auto.
Qed.

Lemma grows_is_dir t t' k : grows t t' -> Fs.is_dir t k = true -> Fs.is_dir t' k = true.
Proof. intros Hg. apply Hg. Qed.

Lemma grows_is_file t t' k : grows t t' -> Fs.is_file t k = true -> Fs.is_file t' k = true.
Proof. intros Hg. apply Hg. Qed.

Lemma same_files_refl t : same_files t t.
Proof. by intros k d. Qed.

Lemma same_files_trans t1 t2 t3 : same_files t1 t2 -> same_files t2 t3 -> same_files t1 t3.
Proof. intros H12 H23 k d Hk. auto. Qed.

Lemma is_dir_insert_ne (t : Fs.tree) k j n :
  k <> j -> Fs.is_dir (<[k := n]> t) j = Fs.is_dir t j.
Proof. intros Hne. unfold Fs.is_dir. by rewrite lookup_insert_ne. Qed.

Lemma is_file_insert_ne (t : Fs.tree) k j n :
  k <> j -> Fs.is_file (<[k := n]> t) j = Fs.is_file t j.
Proof. intros Hne. unfold Fs.is_file. by rewrite lookup_insert_ne. Qed.

Lemma is_file_insert (t : Fs.tree) k d : Fs.is_file (<[k := Fs.File d]> t) k = true.
Proof. unfold Fs.is_file. by rewrite lookup_insert_eq. Qed.

Lemma is_dir_is_file (t : Fs.tree) k : Fs.is_dir t k = true -> Fs.is_file t k = true -> k = [].
Proof.
  unfold Fs.is_dir, Fs.is_file. destruct k; [done|].
  by destruct (t !! _) as [[]|].
Qed.

Lemma grows_insert_dir (t : Fs.tree) k :
  t !! k = None -> Forall plain k -> grows t (<[k := Fs.Dir]> t).
Proof.
  intros Hfresh Hplain j. destruct (decide (k = j)) as [<-|Hne].
  - split; [|split].
    + unfold Fs.is_dir. rewrite lookup_insert_eq. by destruct k.
    + unfold Fs.is_file. by rewrite Hfresh.
    + auto.
  - rewrite is_dir_insert_ne, is_file_insert_ne, lookup_insert_ne by done. auto.
Qed.

Lemma grows_insert_file (t : Fs.tree) k d :
  Fs.is_dir t k = false -> Forall plain k -> grows t (<[k := Fs.File d]> t).
Proof.
  intros Hnodir Hplain j. destruct (decide (k = j)) as [<-|Hne].
  - split; [congruence|]. split; [|by auto]. intros _. apply is_file_insert.
  - rewrite is_dir_insert_ne, is_file_insert_ne, lookup_insert_ne by done. auto.
Qed.

Lemma grows_valid_names t t' : grows t t' -> valid_names t -> valid_names t'.
Proof.
  intros Hg Hvalid k n Hk. destruct (Hg k) as (_ & _ & Hnew).
  destruct Hnew as [[n' Hk']|Hplain]; [by eauto|by eauto|done].
Qed.

Lemma split_no_slash p :
  Forall (fun comp => Str.has_char Str.slash comp = false) (Str.split Str.slash p).
Proof.
  induction p as [|c p IH]; [by repeat constructor|]. cbn [Str.split].
  destruct (Ascii.eqb c Str.slash) eqn:Hc; [by constructor|].
  destruct (Str.split Str.slash p) as [|h rest].
  - constructor; [|constructor]. cbn [Str.has_char]. by rewrite Hc.
  - apply Forall_cons in IH as [Hh Hrest]. constructor; [|done].
    cbn [Str.has_char]. by rewrite Hc, Hh.
Qed.

Lemma plain_removelast (k : list string) : Forall plain k -> Forall plain (removelast k).
Proof.
  induction 1 as [|c k Hc Hk IH]; [constructor|]. simpl. destruct k; [constructor|].
  by constructor.
Qed.

Lemma plain_step cur comp :
  Forall plain cur -> Str.has_char Str.slash comp = false ->
  Fs.special comp = false -> bool_decide (comp = "..") = false ->
  Forall plain (cur ++ [comp]).
Proof.
  intros Hcur Hslash Hspecial Hup. apply Forall_app. split; [done|].
  constructor; [|constructor]. unfold Fs.special in Hspecial.
  apply orb_false_elim in Hspecial as [Hne Hdot].
  apply bool_decide_eq_false in Hne, Hdot, Hup. by repeat split.
Qed.

Lemma same_files_insert_dir (t : Fs.tree) k : same_files t (<[k := Fs.Dir]> t).
Proof.
  intros j d. destruct (decide (k = j)) as [<-|Hne].
  - by rewrite lookup_insert_eq.
  - by rewrite lookup_insert_ne.
Qed.

(** *** Paths keep their meaning as the tree grows *)

Lemma enter_grows t t' cur comp k :
  grows t t' -> Fs.enter t cur comp = inr k -> Fs.enter t' cur comp = inr k.
Proof.
  intros Hgrow. unfold Fs.enter.
  destruct (Fs.is_dir t cur) eqn:Hdir; [|done].
  apply (grows_is_dir _ _ _ Hgrow) in Hdir. by rewrite Hdir.
Qed.

(** The key that a walk ends at is made of plain names. *)
Lemma enter_plain_key t cur comp k :
  Forall plain cur -> Str.has_char Str.slash comp = false ->
  Fs.enter t cur comp = inr k -> Forall plain k.
Proof.
  intros Hcur Hslash. unfold Fs.enter. destruct (Fs.is_dir t cur); [|done].
  destruct (Fs.special comp) eqn:Hspecial; [by intros [= <-]|].
  destruct (bool_decide (comp = "..")) eqn:Hup; intros [= <-].
  - by apply plain_removelast.
  - by apply plain_step.
Qed.

Lemma walk_from_error t e comps : foldl (enter_from t) (inl e) comps = inl e.
Proof. by induction comps. Qed.

Lemma walk_from_grows t t' comps cur k :
  grows t t' ->
  foldl (enter_from t) (inr cur) comps = inr k ->
  foldl (enter_from t') (inr cur) comps = inr k.
Proof.
  intros Hgrow. revert cur. induction comps as [|comp comps IH]; intros cur; [done|].
  simpl. destruct (Fs.enter t cur comp) as [e|next] eqn:Hnext.
  - by rewrite walk_from_error.
  - rewrite (enter_grows _ _ _ _ _ Hgrow Hnext). apply IH.
Qed.

Lemma walk_from_plain_key t comps cur k :
  Forall (fun comp => Str.has_char Str.slash comp = false) comps -> Forall plain cur ->
  foldl (enter_from t) (inr cur) comps = inr k -> Forall plain k.
Proof.
  intros Hcomps. revert cur. induction Hcomps as [|comp comps Hc _ IH]; intros cur Hcur.
  - by intros [= <-].
  - simpl. destruct (Fs.enter t cur comp) as [e|next] eqn:Hnext.
    + by rewrite walk_from_error.
    + apply IH. by eapply enter_plain_key.
Qed.

Lemma resolve_plain_key t p k : Fs.resolve t p = inr k -> Forall plain k.
Proof.
  unfold Fs.resolve. destruct p; [done|].
  apply walk_from_plain_key; [apply split_no_slash|constructor].
Qed.

Lemma resolve_grows t t' p k :
  grows t t' -> Fs.resolve t p = inr k -> Fs.resolve t' p = inr k.
Proof.
  intros Hgrow. unfold Fs.resolve. destruct p; [done|].
  apply walk_from_grows, Hgrow.
Qed.

Lemma path_isfile_grows t t' p :
  grows t t' -> Fs.path_isfile t p = true -> Fs.path_isfile t' p = true.
Proof.
  intros Hgrow. unfold Fs.path_isfile.
  destruct (Fs.resolve t p) as [e|k] eqn:Hk; [done|].
  rewrite (resolve_grows _ _ _ _ Hgrow Hk). by apply grows_is_file.
Qed.

Lemma path_isdir_grows t t' p :
  grows t t' -> Fs.path_isdir t p = true -> Fs.path_isdir t' p = true.
Proof.
  intros Hgrow. unfold Fs.path_isdir.
  destruct (Fs.resolve t p) as [e|k] eqn:Hk; [done|].
  rewrite (resolve_grows _ _ _ _ Hgrow Hk). by apply grows_is_dir.
Qed.

(** *** The writes, one by one *)

Lemma make_from_error e comps : foldl make_from (inl e) comps = inl e.
Proof. by induction comps. Qed.

Lemma make_grows t cur comp t' cur' :
  Forall plain cur -> Str.has_char Str.slash comp = false ->
  Fs.make (t, cur) comp = inr (t', cur') ->
  grows t t' /\ same_files t t' /\ Forall plain cur'.
Proof.
  intros Hcur Hslash. unfold Fs.make. destruct (Fs.is_dir t cur); [|done].
  destruct (Fs.special comp) eqn:Hspecial.
  { intros [= <- <-]. split; [apply grows_refl|]. split; [apply same_files_refl|done]. }
  destruct (bool_decide (comp = "..")) eqn:Hup.
  { intros [= <- <-]. split; [apply grows_refl|]. split; [apply same_files_refl|].
    by apply plain_removelast. }
  pose proof (plain_step cur comp Hcur Hslash Hspecial Hup) as Hnext.
  destruct (t !! (cur ++ [comp])%list) eqn:Hk; intros [= <- <-].
  - split; [apply grows_refl|]. split; [apply same_files_refl|done].
  - split; [by apply grows_insert_dir|]. split; [apply same_files_insert_dir|done].
Qed.

Lemma make_all_grows comps t cur t' cur' :
  Forall (fun comp => Str.has_char Str.slash comp = false) comps -> Forall plain cur ->
  foldl make_from (inr (t, cur)) comps = inr (t', cur') -> grows t t' /\ same_files t t'.
Proof.
  intros Hcomps. revert t cur.
  induction Hcomps as [|comp comps Hc _ IH]; intros t cur Hcur; cbn [foldl make_from].
  - intros [= <- _]. split; [apply grows_refl|apply same_files_refl].
  - destruct (Fs.make (t, cur) comp) as [e|[t1 cur1]] eqn:Hmake.
    + by rewrite make_from_error.
    + intros Hrest. apply make_grows in Hmake as (Hg & Hs & Hcur1); [|done..].
      apply IH in Hrest as [Hg' Hs']; [|done].
      split; [by eapply grows_trans|by eapply same_files_trans].
Qed.

Lemma makedirs_grows p t t' :
  Fs.makedirs p t = inr (tt, t') -> grows t t' /\ same_files t t'.
Proof.
  unfold Fs.makedirs. destruct p; [done|].
  match goal with |- context [foldl ?f ?a ?l] => change (foldl f a l) with (foldl make_from a l) end.
  destruct (foldl make_from _ _) as [e|[t1 k]] eqn:Hfold; [done|].
  destruct (Fs.is_dir t1 k); [|done]. intros [= <-].
  eapply make_all_grows; [apply split_no_slash|constructor|done].
Qed.

Lemma open_write_run p t k t' :
  Fs.open_write p t = inr (k, t') ->
  Fs.resolve t p = inr k /\ Fs.is_dir t k = false /\
  t' = <[k := Fs.File (Fs.Bytes "")]> t /\ grows t t'.
Proof.
  unfold Fs.open_write. destruct (Fs.resolve t p) as [e|k0] eqn:Hres; [done|].
  destruct (Fs.is_dir t k0) eqn:Hdir; [done|]. intros [= <- <-].
  split; [done|]. split; [done|]. split; [done|].
  apply grows_insert_file; [done|]. by eapply resolve_plain_key.
Qed.

Lemma open_append_run p t k t' :
  Fs.open_append p t = inr (k, t') ->
  Fs.resolve t p = inr k /\ Fs.is_dir t k = false /\ Fs.is_file t' k = true /\
  (forall j, j <> k -> t' !! j = t !! j) /\ grows t t'.
Proof.
  unfold Fs.open_append. destruct (Fs.resolve t p) as [e|k0] eqn:Hres; [done|].
  destruct (Fs.is_dir t k0) eqn:Hdir; [done|].
  destruct (t !! k0) as [n|] eqn:Hk0; intros [= <- <-].
  - split; [done|]. split; [done|]. split; [|split; [done|apply grows_refl]].
    unfold Fs.is_file, Fs.is_dir in *. rewrite Hk0 in *. destruct k0, n; done.
  - split; [done|]. split; [done|]. split; [apply is_file_insert|]. split.
    + intros j Hne. by rewrite lookup_insert_ne.
    + apply grows_insert_file; [done|]. by eapply resolve_plain_key.
Qed.

Lemma write_run k d t t' :
  Fs.write k d t = inr (tt, t') -> t' = <[k := Fs.File d]> t.
Proof. by intros [= <-]. Qed.

Lemma append_run k s t t' :
  Fs.append k s t = inr (tt, t') ->
  exists d, t' = <[k := Fs.File d]> t.
Proof.
  unfold Fs.append. destruct (t !! k) as [[d|]|]; intros [= <-]; eauto.
Qed.

Lemma append_total k s t : exists t', Fs.append k s t = inr (tt, t').
Proof. unfold Fs.append. destruct (t !! k) as [[d|]|]; eauto. Qed.

(** *** The monad, one step at a time *)

Lemma same_env_refl w : same_env w w.
Proof. done. Qed.

Lemma same_env_trans w1 w2 w3 : same_env w1 w2 -> same_env w2 w3 -> same_env w1 w3.
Proof. intros (?&?&?) (?&?&?). repeat split; congruence. Qed.

Lemma bind_run {A B} (m : M A) (k : A -> M B) w out w' :
  bind m k w = (out, w') ->
  (exists a w1, m w = (Return a, w1) /\ k a w1 = (out, w')) \/
  (exists e, m w = (Raise e, w') /\ out = Raise e).
Proof.
  unfold bind. destruct (m w) as [[a|e] w1].
  - intros Hk. left. eauto.
  - intros [= <- <-]. right. eauto.
Qed.

Lemma now_run w out w' :
  now w = (out, w') ->
  out = Return (clock w (ticks w)) /\ files w' = files w /\
  ticks w' = S (ticks w) /\ same_env w w'.
Proof. by intros [= <- <-]. Qed.

Lemma lift_run {A} (r : exn + A) w out w' :
  lift r w = (out, w') ->
  w' = w /\ match r with inl e => out = Raise e | inr a => out = Return a end.
Proof. destruct r; by intros [= <- <-]. Qed.

Lemma io_run {A} (path : string) (op : Fs.tree -> errno + (A * Fs.tree)) w out w' :
  io path op w = (out, w') ->
  ticks w' = ticks w /\ same_env w w' /\
  ((exists e, out = Raise (OSError e path) /\ files w' = files w) \/
   (exists a, out = Return a /\ op (files w) = inr (a, files w'))).
Proof.
  unfold io. destruct (fault w (ops w)).
  - intros [= <- <-]. repeat split. left. eauto.
  - destruct (op (files w)) as [e|[a t]]; intros [= <- <-]; repeat split.
    + left. eauto.
    + right. eauto.
Qed.

Ltac step H :=
  let a := fresh "a" in
  let w1 := fresh "w" in
  let Hm := fresh "Hstep" in
  let e := fresh "e" in
  apply bind_run in H as [(a & w1 & Hm & H) | (e & Hm & ->)].

Tactic Notation "advance" hyp(H) "as" ident(a) ident(w1) ident(Hm) :=
  apply bind_run in H as [(a & w1 & Hm & H) | (? & Hm & ->)].

(** A step that cannot raise: a reading of the clock. *)
Tactic Notation "tick" hyp(H) "as" ident(a) ident(w1) ident(Hm) :=
  apply bind_run in H as [(a & w1 & Hm & H) | (? & Hm & ->)];
  [|by apply now_run in Hm as ([=] & _)].

(** *** Where an upload goes *)

Lemma get_timestamped_path_run flight_id w out w' :
  get_timestamped_path flight_id w = (out, w') ->
  ticks w' = S (ticks w) /\ same_env w w' /\
  grows (files w) (files w') /\ same_files (files w) (files w') /\
  match out with
  | Return x =>
      x = (planned_dir flight_id w, planned_date w,
           planned_folder flight_id (clock w (ticks w)))
  | Raise e => exists e0 path, e = OSError e0 path
  end.
Proof.
  unfold get_timestamped_path. intros H. step H.
  - apply now_run in Hstep as ([= ->] & Hfiles & Hticks & Henv).
    cbv zeta in H. step H.
    + apply io_run in Hstep as (Hticks' & Henv' & [(e & [=] & _)|(u & [= <-] & Hop)]).
      destruct a. apply makedirs_grows in Hop as [Hg Hs].
      injection H as <- <-. rewrite Hfiles in *.
      split; [congruence|]. split; [by eapply same_env_trans|]. done.
    + apply io_run in Hstep as (Hticks' & Henv' & [(e' & [= ->] & Hsame)|(u & [=] & _)]).
      rewrite Hsame, Hfiles.
      split; [congruence|]. split; [by eapply same_env_trans|].
      split; [apply grows_refl|]. split; [apply same_files_refl|eauto].
  - by apply now_run in Hstep as ([=] & _).
Qed.

Lemma generate_filename_run original_filename w out w' :
  generate_filename original_filename w = (out, w') ->
  out = Return (Str.drop_last 3 (Datetime.strftime_micros (clock w (ticks w)))
                +:+ snd (Path.splitext original_filename)) /\
  files w' = files w /\ ticks w' = S (ticks w) /\ same_env w w'.
Proof. by intros [= <- <-]. Qed.

Lemma writes_at_refl p t : writes_at p t t.
Proof. split; [apply grows_refl|]. auto. Qed.

Lemma writes_at_trans p t1 t2 t3 :
  writes_at p t1 t2 -> writes_at p t2 t3 -> writes_at p t1 t3.
Proof.
  intros [Hg12 Hk12] [Hg23 Hk23]. split; [by eapply grows_trans|].
  intros k d Hk. destruct (Hk12 k d Hk) as [Hsame|Hres].
  - by apply Hk23.
  - right. by eapply resolve_grows.
Qed.

Lemma writes_at_makedirs p q t t' :
  Fs.makedirs q t = inr (tt, t') -> writes_at p t t'.
Proof.
  intros Hmk. apply makedirs_grows in Hmk as [Hg Hs]. split; [done|].
  intros k d Hk. left. pose proof (grows_is_file _ _ k Hg) as Hfile.
  unfold Fs.is_file in Hfile. rewrite Hk in Hfile. specialize (Hfile eq_refl).
  destruct (t' !! k) as [[d'|]|] eqn:Hk'; try done.
  by rewrite (Hs k d' Hk') in Hk.
Qed.

Lemma writes_at_insert p t k d :
  Fs.resolve t p = inr k -> Fs.is_dir t k = false ->
  writes_at p t (<[k := Fs.File d]> t).
Proof.
  intros Hres Hdir.
  pose proof (grows_insert_file t k d Hdir (resolve_plain_key _ _ _ Hres)) as Hg.
  split; [done|]. intros j dj Hj. destruct (decide (k = j)) as [<-|Hne].
  - right. by eapply resolve_grows.
  - left. by rewrite lookup_insert_ne.
Qed.

Lemma is_dir_insert_file (t : Fs.tree) k d :
  Fs.is_dir t k = false -> Fs.is_dir (<[k := Fs.File d]> t) k = false.
Proof. unfold Fs.is_dir. rewrite lookup_insert_eq. by destruct k. Qed.

Lemma save_metadata_run image_path metadata flight_id w out w' :
  save_metadata image_path metadata flight_id w = (out, w') ->
  same_env w w' /\
  writes_at (metadata_path image_path) (files w) (files w') /\
  match out with
  | Return (file, _) =>
      file = metadata_path image_path /\
      Fs.path_isfile (files w') file = true
  | Raise e => exists e0 path, e = OSError e0 path
  end.
Proof.
  unfold save_metadata. set (m := metadata_path image_path). cbv zeta.
  intros H. advance H as u w1 Hmk.
  2:{ apply io_run in Hmk as (_ & Henv & [(e' & [= ->] & Hsame)|(u & [=] & _)]).
      rewrite Hsame. split; [done|]. split; [apply writes_at_refl|eauto]. }
  apply io_run in Hmk as (_ & Henv1 & [(e & [=] & _)|(u' & _ & Hmk)]).
  destruct u'. apply (writes_at_makedirs m) in Hmk as Hw1.
  tick H as t0 w2 Hnow.
  apply now_run in Hnow as (_ & Hfiles2 & _ & Henv2).
  assert (same_env w w2) as Henv02 by by eapply same_env_trans.
  rewrite <- Hfiles2 in Hw1.
  advance H as f w3 Hopen.
  2:{ apply io_run in Hopen as (_ & Henv3 & [(e' & [= ->] & Hsame)|(u' & [=] & _)]).
      rewrite Hsame. split; [by eapply same_env_trans|eauto]. }
  apply io_run in Hopen as (_ & Henv3 & [(e & [=] & _)|(f' & [= <-] & Hopen)]).
  apply open_write_run in Hopen as (Hres & Hnodir & Hw3 & Hg3).
  pose proof (writes_at_insert m _ _ (Fs.Bytes "") Hres Hnodir) as Hw23.
  rewrite <- Hw3 in Hw23.
  assert (same_env w w3) as Henv03 by by eapply same_env_trans.
  assert (writes_at m (files w) (files w3)) as Hw03 by by eapply writes_at_trans.
  assert (Fs.resolve (files w3) m = inr f) as Hres3 by by eapply resolve_grows.
  assert (Fs.is_dir (files w3) f = false) as Hnodir3.
  { rewrite Hw3. by apply is_dir_insert_file. }
  advance H as u' w4 Hwrite.
  2:{ apply io_run in Hwrite as (_ & Henv4 & [(e' & [= ->] & Hsame)|(u' & [=] & _)]).
      rewrite Hsame. split; [by eapply same_env_trans|eauto]. }
  apply io_run in Hwrite as (_ & Henv4 & [(e & [=] & _)|(u'' & _ & Hwrite)]).
  destruct u''. apply write_run in Hwrite.
  match type of Hwrite with
  | _ = <[_ := Fs.File ?d]> _ => pose proof (writes_at_insert m _ _ d Hres3 Hnodir3) as Hw34
  end.
  rewrite <- Hwrite in Hw34.
  injection H as <- <-.
  split; [by eapply same_env_trans|]. split; [by eapply writes_at_trans|].
  split; [done|]. unfold Fs.path_isfile.
  rewrite (resolve_grows _ _ _ _ (proj1 Hw34) Hres3), Hwrite. apply is_file_insert.
Qed.

Lemma log_upload_run filename flight_id w out w' :
  log_upload filename flight_id w = (out, w') ->
  same_env w w' /\
  writes_at (log_file_of (clock w (ticks w))) (files w) (files w') /\
  match out with
  | Return _ => True
  | Raise e => exists e0 path, e = OSError e0 path
  end.
Proof.
  unfold log_upload. intros H.
  tick H as today w1 Hnow.
  apply now_run in Hnow as ([= ->] & Hfiles1 & _ & Henv1).
  cbv zeta in H. fold (log_file_of (clock w (ticks w))) in H.
  set (log := log_file_of (clock w (ticks w))) in *.
  advance H as f w2 Hopen.
  2:{ apply io_run in Hopen as (_ & Henv2 & [(e' & [= ->] & Hsame)|(u & [=] & _)]).
      rewrite Hsame, Hfiles1.
      split; [by eapply same_env_trans|]. split; [apply writes_at_refl|eauto]. }
  apply io_run in Hopen as (_ & Henv2 & [(e & [=] & _)|(f' & [= <-] & Hopen)]).
  rewrite Hfiles1 in Hopen.
  apply open_append_run in Hopen as (Hres & Hnodir & Hfile & Hframe & Hg2).
  assert (same_env w w2) as Henv02 by by eapply same_env_trans.
  assert (Fs.resolve (files w2) log = inr f) as Hres2 by by eapply resolve_grows.
  assert (Fs.is_dir (files w2) f = false) as Hnodir2.
  { destruct (Fs.is_dir (files w2) f) eqn:Hdir; [|done].
    pose proof (is_dir_is_file _ _ Hdir Hfile) as ->. done. }
  assert (writes_at log (files w) (files w2)) as Hw02.
  { split; [done|]. intros j d Hj. destruct (decide (j = f)) as [->|Hne].
    - by right.
    - left. by rewrite Hframe. }
  tick H as t1 w3 Hnow.
  apply now_run in Hnow as (_ & Hfiles3 & _ & Henv3).
  assert (same_env w w3) as Henv03 by by eapply same_env_trans.
  apply io_run in H as (_ & Henv4 & [(e & -> & Hsame)|(u & -> & Happ)]).
  - rewrite Hsame, Hfiles3. split; [by eapply same_env_trans|]. split; [done|eauto].
  - destruct u. rewrite Hfiles3 in Happ. apply append_run in Happ as [d Happ].
    pose proof (writes_at_insert log _ _ d Hres2 Hnodir2) as Hw24.
    rewrite <- Happ in Hw24.
    split; [by eapply same_env_trans|]. split; [by eapply writes_at_trans|done].
Qed.

(** *** The [try] of [upload_image], in two parts *)

Lemma bind_assoc {A B C} (m : M A) (k : A -> M B) (h : B -> M C) w :
  bind (bind m k) h w = bind m (fun a => bind (k a) h) w.
Proof. unfold bind. by destruct (m w) as [[a|e] w1]. Qed.

Lemma bind_ext {A B} (m : M A) (k1 k2 : A -> M B) w :
  (forall a w1, k1 a w1 = k2 a w1) -> bind m k1 w = bind m k2 w.
Proof. intros Hk. unfold bind. by destruct (m w) as [[a|e] w1]. Qed.

Lemma upload_image_try_split rq w :
  upload_image_try rq w = bind (upload_image_store rq) (upload_image_finish rq) w.
Proof.
  unfold upload_image_try, upload_image_store. cbv zeta.
  rewrite bind_assoc. apply bind_ext. intros [[full_path date_folder] flight_folder] w1.
  do 6 (rewrite bind_assoc; apply bind_ext; intros ? ?).
  rewrite bind_assoc. apply bind_ext. intros [metadata_file metadata] w8.
  reflexivity.
Qed.

Lemma read_file_at t p k d :
  Fs.resolve t p = inr k -> t !! k = Some (Fs.File d) -> Fs.read t p = inr d.
Proof. intros Hres Hk. unfold Fs.read. by rewrite Hres, Hk. Qed.

Lemma upload_image_store_run rq w out w' :
  upload_image_store rq w = (out, w') ->
  let flight_id := form_flight_id rq in
  let file := form_file rq in
  let p := planned_path flight_id (upload_filename file) w in
  same_env w w' /\ grows (files w) (files w') /\
  match out with
  | Return (filename, image_path, flight_folder, metadata_file, _) =>
      filename = planned_name (upload_filename file) w /\
      image_path = p /\
      flight_folder = planned_folder flight_id (clock w (ticks w)) /\
      metadata_file = metadata_path p /\
      Fs.path_isfile (files w') metadata_file = true /\
      exists content, upload_read file = inr content /\ image_stored (files w') p content
  | Raise e =>
      (same_files (files w) (files w') \/ Fs.path_isfile (files w') p = true) /\
      match e with
      | JSONDecodeError _ =>
          exists content,
            upload_read file = inr content /\
            Fs.read (files w') p = inr (Fs.Bytes content) /\
            forall k d, files w' !! k = Some (Fs.File d) ->
                        files w !! k = Some (Fs.File d) \/ Fs.resolve (files w') p = inr k
      | _ => True
      end
  end.
Proof.
  unfold upload_image_store. cbv zeta. intros H.
  advance H as dirs w1 Hdirs.
  2:{ apply get_timestamped_path_run in Hdirs as (_ & Henv & Hg & Hs & (e0 & path & ->)).
      auto. }
  apply get_timestamped_path_run in Hdirs as (Hticks1 & Henv1 & Hg1 & Hs1 & ->).
  advance H as filename w2 Hname; [|by apply generate_filename_run in Hname as ([=] & _)].
  apply generate_filename_run in Hname as ([= ->] & Hfiles2 & _ & Henv2).
  destruct Henv1 as (Hclock1 & Hfault1 & Hjson1).
  rewrite Hticks1, Hclock1 in H.
  fold (planned_name (upload_filename (form_file rq)) w) in H.
  fold (planned_path (form_flight_id rq) (upload_filename (form_file rq)) w) in H.
  set (p := planned_path (form_flight_id rq) (upload_filename (form_file rq)) w) in *.
  assert (same_env w w2) as Henv02.
  { eapply same_env_trans; [|done]. done. }
  rewrite <- Hfiles2 in Hg1, Hs1.
  advance H as content w3 Hread.
  2:{ unfold read_upload in Hread. destruct (upload_read (form_file rq)); [|done].
      injection Hread as <- <-. auto. }
  unfold read_upload in Hread.
  destruct (upload_read (form_file rq)) as [msg|content'] eqn:Hcontent; [done|].
  injection Hread as -> ->.
  advance H as kp w4 Hopen.
  2:{ apply io_run in Hopen as (_ & Henv4 & [(e' & [= ->] & Hsame)|(u & [=] & _)]).
      rewrite Hsame. split; [by eapply same_env_trans|]. auto. }
  apply io_run in Hopen as (_ & Henv4 & [(e & [=] & _)|(kp' & [= <-] & Hopen)]).
  apply open_write_run in Hopen as (Hres & Hnodir & Hw4 & Hg4).
  assert (same_env w w4) as Henv04 by by eapply same_env_trans.
  assert (grows (files w) (files w4)) as Hg04 by by eapply grows_trans.
  assert (Fs.resolve (files w4) p = inr kp) as Hres4
    by apply (resolve_grows _ _ _ _ Hg4 Hres).
  assert (Fs.is_dir (files w4) kp = false) as Hnodir4.
  { rewrite Hw4. by apply is_dir_insert_file. }
  assert (Fs.path_isfile (files w4) p = true) as Hfile4.
  { unfold Fs.path_isfile. rewrite Hres4, Hw4. apply is_file_insert. }
  advance H as u w5 Hwrite.
  2:{ apply io_run in Hwrite as (_ & Henv5 & [(e' & [= ->] & Hsame)|(u & [=] & _)]).
      rewrite Hsame. split; [by eapply same_env_trans|]. auto. }
  apply io_run in Hwrite as (_ & Henv5 & [(e & [=] & _)|(u' & _ & Hwrite)]).
  destruct u'. apply write_run in Hwrite.
  pose proof (grows_insert_file (files w4) kp (Fs.Bytes content) Hnodir4
                (resolve_plain_key _ _ _ Hres4)) as Hg5.
  rewrite <- Hwrite in Hg5.
  assert (same_env w w5) as Henv05 by by eapply same_env_trans.
  assert (grows (files w) (files w5)) as Hg05 by by eapply grows_trans.
  assert (Fs.resolve (files w5) p = inr kp) as Hres5
    by apply (resolve_grows _ _ _ _ Hg5 Hres4).
  assert (files w5 !! kp = Some (Fs.File (Fs.Bytes content))) as Hkp5.
  { rewrite Hwrite. apply lookup_insert_eq. }
  assert (Fs.path_isfile (files w5) p = true) as Hfile5
    by apply (path_isfile_grows _ _ _ Hg5 Hfile4).
  tick H as uploaded w6 Hnow.
  apply now_run in Hnow as (_ & Hfiles6 & _ & Henv6).
  assert (same_env w w6) as Henv06 by by eapply same_env_trans.
  rewrite <- Hfiles6 in Hg05, Hres5, Hkp5, Hfile5.
  advance H as camera w7 Hcamera.
  2:{ destruct (truthy (form_camera_settings rq)); [|done].
      apply lift_run in Hcamera as [-> Hloads]. unfold Json.loads in Hloads.
      destruct (Json.valid _); [done|]. injection Hloads as ->.
      split; [done|]. split; [done|]. split; [by right|].
      exists content. split; [done|]. split; [by eapply read_file_at|].
      intros k d Hk. rewrite Hfiles6, Hwrite in Hk.
      destruct (decide (kp = k)) as [<-|Hne]; [by right|]. left.
      rewrite lookup_insert_ne in Hk by done. rewrite Hw4 in Hk.
      rewrite lookup_insert_ne in Hk by done. by apply Hs1. }
  assert (w7 = w6) as ->.
  { destruct (truthy (form_camera_settings rq)).
    - by apply lift_run in Hcamera as [-> _].
    - by injection Hcamera as _ <-. }
  clear Hcamera.
  advance H as saved w8 Hsave.
  2:{ apply save_metadata_run in Hsave as (Henv8 & [Hg8 _] & (e0 & path & ->)).
      split; [by eapply same_env_trans|]. split; [by eapply grows_trans|].
      split; [|done]. right. apply (path_isfile_grows _ _ _ Hg8 Hfile5). }
  destruct saved as [metadata_file metadata].
  apply save_metadata_run in Hsave as (Henv8 & [Hg8 Hkeep8] & -> & Hrecord).
  injection H as <- <-.
  split; [by eapply same_env_trans|]. split; [by eapply grows_trans|].
  repeat (split; [done|]). exists content. split; [done|].
  exists kp. split; [apply (resolve_grows _ _ _ _ Hg8 Hres5)|]. split.
  - apply (grows_is_file _ _ _ Hg8). unfold Fs.is_file. by rewrite Hkp5.
  - apply Hkeep8, Hkp5.
Qed.

(** *** Uploads only add *)

Lemma upload_image_grows rq w answer w' :
  upload_image rq w = (answer, w') -> same_env w w' /\ grows (files w) (files w').
Proof.
  unfold upload_image. rewrite upload_image_try_split.
  destruct (bind _ _ w) as [out w1] eqn:Htry. intros Hanswer.
  assert (w1 = w') as -> by (destruct out; by injection Hanswer). clear Hanswer.
  advance Htry as stored w1 Hstore.
  2:{ by apply upload_image_store_run in Hstore as (Henv & Hg & _). }
  apply upload_image_store_run in Hstore as (Henv1 & Hg1 & _).
  destruct stored as [[[[filename image_path] flight_folder] metadata_file] metadata].
  unfold upload_image_finish in Htry. advance Htry as u w2 Hlog.
  - apply log_upload_run in Hlog as (Henv2 & [Hg2 _] & _). injection Htry as _ <-.
    split; [by eapply same_env_trans|by eapply grows_trans].
  - apply log_upload_run in Hlog as (Henv2 & [Hg2 _] & _).
    split; [by eapply same_env_trans|by eapply grows_trans].
Qed.

Lemma upload_batch_try_grows rq file w out w' :
  upload_batch_try rq file w = (out, w') -> same_env w w' /\ grows (files w) (files w').
Proof.
  unfold upload_batch_try. cbv zeta. intros H.
  advance H as dirs w1 Hdirs.
  2:{ by apply get_timestamped_path_run in Hdirs as (_ & Henv & Hg & _). }
  apply get_timestamped_path_run in Hdirs as (_ & Henv1 & Hg1 & _ & ->).
  advance H as filename w2 Hname; [|by apply generate_filename_run in Hname as ([=] & _)].
  apply generate_filename_run in Hname as ([= ->] & Hfiles2 & _ & Henv2).
  assert (same_env w w2) as Henv02 by by eapply same_env_trans.
  rewrite <- Hfiles2 in Hg1.
  advance H as content w3 Hread.
  2:{ unfold read_upload in Hread. destruct (upload_read file); [|done].
      by injection Hread as <- <-. }
  unfold read_upload in Hread. destruct (upload_read file) as [msg|content']; [done|].
  injection Hread as -> ->.
  advance H as kp w4 Hopen.
  2:{ apply io_run in Hopen as (_ & Henv4 & [(e' & [= ->] & Hsame)|(u & [=] & _)]).
      rewrite Hsame. split; [by eapply same_env_trans|done]. }
  apply io_run in Hopen as (_ & Henv4 & [(e & [=] & _)|(kp' & [= <-] & Hopen)]).
  apply open_write_run in Hopen as (Hres & Hnodir & Hw4 & Hg4).
  assert (same_env w w4) as Henv04 by by eapply same_env_trans.
  assert (grows (files w) (files w4)) as Hg04 by by eapply grows_trans.
  assert (Fs.is_dir (files w4) kp = false) as Hnodir4.
  { rewrite Hw4. by apply is_dir_insert_file. }
  advance H as u w5 Hwrite.
  2:{ apply io_run in Hwrite as (_ & Henv5 & [(e' & [= ->] & Hsame)|(u & [=] & _)]).
      rewrite Hsame. split; [by eapply same_env_trans|done]. }
  apply io_run in Hwrite as (_ & Henv5 & [(e & [=] & _)|(u' & _ & Hwrite)]).
  destruct u'. apply write_run in Hwrite.
  pose proof (grows_insert_file (files w4) kp (Fs.Bytes content) Hnodir4
                (resolve_plain_key _ _ _ Hres)) as Hg5.
  rewrite <- Hwrite in Hg5.
  assert (same_env w w5) as Henv05 by by eapply same_env_trans.
  assert (grows (files w) (files w5)) as Hg05 by by eapply grows_trans.
  tick H as uploaded w6 Hnow.
  apply now_run in Hnow as (_ & Hfiles6 & _ & Henv6).
  assert (same_env w w6) as Henv06 by by eapply same_env_trans.
  rewrite <- Hfiles6 in Hg05.
  advance H as saved w7 Hsave.
  2:{ apply save_metadata_run in Hsave as (Henv7 & [Hg7 _] & _).
      split; [by eapply same_env_trans|by eapply grows_trans]. }
  apply save_metadata_run in Hsave as (Henv7 & [Hg7 _] & _).
  assert (same_env w w7) as Henv07 by by eapply same_env_trans.
  assert (grows (files w) (files w7)) as Hg07 by by eapply grows_trans.
  advance H as u' w8 Hlog.
  - apply log_upload_run in Hlog as (Henv8 & [Hg8 _] & _). injection H as _ <-.
    split; [by eapply same_env_trans|by eapply grows_trans].
  - apply log_upload_run in Hlog as (Henv8 & [Hg8 _] & _).
    split; [by eapply same_env_trans|by eapply grows_trans].
Qed.

Lemma upload_batch_loop_grows rq todo acc w results w' :
  upload_batch_loop rq todo acc w = (results, w') ->
  same_env w w' /\ grows (files w) (files w').
Proof.
  revert acc w. induction todo as [|file rest IH]; intros acc w; cbn [upload_batch_loop].
  - intros [= _ <-]. split; [done|apply grows_refl].
  - unfold upload_batch_step.
    destruct (upload_batch_try rq file w) as [[entry|e] w1] eqn:Htry;
      apply upload_batch_try_grows in Htry as [Henv1 Hg1];
      intros [Henv Hg]%IH;
      (split; [by eapply same_env_trans|by eapply grows_trans]).
Qed.

Lemma upload_batch_grows rq w answer w' :
  upload_batch rq w = (answer, w') -> same_env w w' /\ grows (files w) (files w').
Proof.
  unfold upload_batch.
  destruct (upload_batch_loop rq (batch_files rq) [] w) as [results w1] eqn:Hloop.
  intros [= _ <-]. by eapply upload_batch_loop_grows.
Qed.

(** The names of the store stay names of entries, whatever is uploaded,
    and whether the uploads succeed or not. *)
Lemma upload_image_valid_names rq w :
  valid_names (files w) -> valid_names (files (upload_image rq w).2).
Proof.
  destruct (upload_image rq w) as [answer w'] eqn:Hrun.
  apply upload_image_grows in Hrun as [_ Hg]. by apply grows_valid_names.
Qed.

Lemma upload_batch_valid_names rq w :
  valid_names (files w) -> valid_names (files (upload_batch rq w).2).
Proof.
  destruct (upload_batch rq w) as [answer w'] eqn:Hrun.
  apply upload_batch_grows in Hrun as [_ Hg]. by apply grows_valid_names.
Qed.

Lemma image_stored_isfile t p content : image_stored t p content -> Fs.path_isfile t p = true.
Proof. intros (kp & Hres & Hfile & _). unfold Fs.path_isfile. by rewrite Hres. Qed.

(** A run, from its answer. *)
Lemma run_pair {A} (m : M A) w out : (m w).1 = out -> m w = (out, (m w).2).
Proof. intros <-. by destruct (m w). Qed.

Lemma upload_image_pair rq w answer :
  (upload_image rq w).1 = answer -> upload_image rq w = (answer, (upload_image rq w).2).
Proof. intros <-. by destruct (upload_image rq w). Qed.

(** ** Failed uploads *)

(** C3, as amended: an upload that fails removes nothing and rolls
    nothing back.  Either it wrote no file at all, or the file of the
    image is there; the record and the log are only written after the
    image, so that there is no new record without its image.  When the
    failure is that the camera settings do not parse, the image holds
    the uploaded bytes in full, and no other file was written: the
    image is stored without a record. *)
Theorem failed_upload_is_not_rolled_back
    (rq : upload_form) (w : world) (status : nat) (detail : string) (w' : world) :
  upload_image rq w = (HTTPException status detail, w') ->
  let p := planned_path (form_flight_id rq) (upload_filename (form_file rq)) w in
  exists e,
    upload_image_try rq w = (Raise e, w') /\
    status = 500 /\ detail = "Upload failed: " +:+ str_exn e /\
    grows (files w) (files w') /\
    (same_files (files w) (files w') \/ Fs.path_isfile (files w') p = true) /\
    match e with
    | JSONDecodeError _ =>
        exists content,
          upload_read (form_file rq) = inr content /\
          Fs.read (files w') p = inr (Fs.Bytes content) /\
          forall k d, files w' !! k = Some (Fs.File d) ->
                      files w !! k = Some (Fs.File d) \/ Fs.resolve (files w') p = inr k
    | _ => True
    end.
Proof.
  intros Hrun p. unfold upload_image in Hrun.
  destruct (upload_image_try rq w) as [[r|e] w1] eqn:Htry; [done|].
  injection Hrun as <- <- <-. exists e. do 3 (split; [done|]).
  rewrite upload_image_try_split in Htry.
  apply bind_run in Htry as [(stored & w2 & Hstore & Hfinish)|(e' & Hstore & [= <-])].
  - apply upload_image_store_run in Hstore as (_ & Hg & Hstored).
    destruct stored as [[[[filename image_path] flight_folder] metadata_file] metadata].
    destruct Hstored as (_ & _ & _ & _ & _ & content & _ & Himage).
    unfold upload_image_finish in Hfinish.
    apply bind_run in Hfinish as [(u & w3 & _ & [=])|(e' & Hlog & [= <-])].
    apply log_upload_run in Hlog as (_ & [Hg' _] & (e0 & path & ->)).
    split; [by eapply grows_trans|]. split; [|done]. right.
    apply image_stored_isfile in Himage. by eapply path_isfile_grows.
  - apply upload_image_store_run in Hstore as (_ & Hg & Hraise). by fold p in Hraise.
Qed.

Lemma failed_upload_is_not_rolled_back_witness :
  grows fresh_store (files upload_with_bad_settings.2).
Proof.
  edestruct (failed_upload_is_not_rolled_back
               (plain_form (jpeg_file "a.jpg" "bytes") (Some "X") (Some "invalid json"))
               (quiet_world fresh_store frozen_clock))
    as (e & _ & _ & _ & Hg & _).
  - apply upload_image_pair. vm_compute. reflexivity.
  - exact Hg.
Defined.

(** C3, as stated, fails: the upload whose camera settings do not
    parse reports a failure, and yet its image is there to be listed
    and fetched, bytes and all, with no record to go with it. *)
Lemma failed_upload_leaves_the_image :
  let '(answer, w') := upload_with_bad_settings in
  let t := files w' in
  answer = HTTPException 500 "Upload failed: Expecting value: line 1 column 1 (char 0)" /\
  (exists r, get_image "2025-03-09" "flight_X" "20250309_140507_250.jpg" t = Ok r /\
             served t r = inr (Fs.Bytes "bytes")) /\
  list_images None None true t = Ok (SimpleListing ["20250309_140507_250.jpg"]) /\
  get_metadata "2025-03-09" "flight_X" "20250309_140507_250.jpg" t
  = HTTPException 404 "Metadata not found".
Proof.
  vm_compute. split; [reflexivity|]. split; [|split; reflexivity].
  eexists. split; reflexivity.
Qed.

(** ** The log *)

(** C6, as amended: the log is written inside the same [try] as the
    rest, so that when the image and the record have been written and
    the append to the log raises, the upload is answered with the
    failure of the log, status 500; the image and the record stay. *)
Theorem failed_log_fails_the_upload
    (rq : upload_form) (w w1 w2 : world) (e : exn)
    (filename image_path flight_folder metadata_file : string)
    (metadata : list (string * Json.value)) :
  upload_image_store rq w
  = (Return (filename, image_path, flight_folder, metadata_file, metadata), w1) ->
  log_upload filename (form_flight_id rq) w1 = (Raise e, w2) ->
  upload_image rq w = (HTTPException 500 ("Upload failed: " +:+ str_exn e), w2) /\
  Fs.path_isfile (files w2) image_path = true /\
  Fs.path_isfile (files w2) metadata_file = true.
Proof.
  intros Hstore Hlog. split.
  - unfold upload_image. rewrite upload_image_try_split. unfold bind at 1.
    rewrite Hstore. unfold upload_image_finish, bind. by rewrite Hlog.
  - apply upload_image_store_run in Hstore
      as (_ & _ & _ & -> & _ & -> & Hrecord & content & _ & Himage).
    apply log_upload_run in Hlog as (_ & [Hg _] & _).
    apply image_stored_isfile in Himage.
    split; by eapply path_isfile_grows.
Qed.

Lemma failed_log_fails_the_upload_witness :
  exists detail, upload_without_logs.1 = HTTPException 500 detail.
Proof.
  eexists. unfold upload_without_logs.
  edestruct (failed_log_fails_the_upload
               (plain_form (jpeg_file "a.jpg" "bytes") (Some "X") None)
               (quiet_world store_without_logs frozen_clock)) as [Hanswer _].
  - apply run_pair. vm_compute. reflexivity.
  - apply run_pair. vm_compute. reflexivity.
  - rewrite Hanswer. reflexivity.
Defined.

(** C6, as stated, fails: with the [logs] directory gone the image and
    the record are written, the append to the log raises, and the
    upload is answered with status 500. *)
Lemma log_failure_is_reported :
  let '(answer, w') := upload_without_logs in
  answer = HTTPException 500
    "Upload failed: [Errno 2] No such file or directory: 'logs/uploads_2025-03-09.log'" /\
  Fs.read (files w') "images/2025-03-09/flight_X/20250309_140507_250.jpg"
  = inr (Fs.Bytes "bytes") /\
  Fs.path_isfile (files w') "metadata/2025-03-09/flight_X/20250309_140507_250.json" = true.
Proof. vm_compute. repeat split; reflexivity. Qed.

(** ** Names and paths *)

Lemma plain_not_special s : plain s -> Fs.special s = false /\ bool_decide (s = "..") = false.
Proof.
  intros (_ & Hne & Hdot & Hup). unfold Fs.special.
  by rewrite !bool_decide_eq_false_2.
Qed.

Lemma has_char_append c s t :
  Str.has_char c (s +:+ t) = Str.has_char c s || Str.has_char c t.
Proof.
  induction s as [|a s IH]; [done|].
  rewrite append_cons. cbn [Str.has_char]. rewrite IH. by rewrite orb_assoc.
Qed.

Lemma split_nonempty c s : Str.split c s <> [].
Proof.
  destruct s as [|a s]; [done|]. cbn [Str.split].
  destruct (Ascii.eqb a c); [done|]. by destruct (Str.split c s).
Qed.

Lemma split_no_char c s : Str.has_char c s = false -> Str.split c s = [s].
Proof.
  induction s as [|a s IH]; [done|]. cbn [Str.split Str.has_char].
  intros [Ha Hs]%orb_false_elim. rewrite Ha, IH by done. done.
Qed.

Lemma split_append c a b :
  Str.split c (a +:+ String c b) = (Str.split c a ++ Str.split c b)%list.
Proof.
  induction a as [|x a IH].
  - rewrite append_nil_l. cbn [Str.split]. by rewrite Ascii.eqb_refl.
  - rewrite append_cons. cbn [Str.split]. destruct (Ascii.eqb x c).
    + by rewrite IH.
    + rewrite IH. pose proof (split_nonempty c a). by destruct (Str.split c a).
Qed.

Lemma startswith_slash_no_slash b :
  Str.has_char Str.slash b = false -> Str.startswith "/" b = false.
Proof.
  destruct b as [|c b]; [done|]. cbn [Str.has_char Str.startswith].
  intros [Hc _]%orb_false_elim. rewrite Ascii.eqb_sym in Hc.
  unfold Str.slash in Hc. by rewrite Hc.
Qed.

Lemma ends_with_char_append c s t :
  t <> "" -> Str.ends_with_char c (s +:+ t) = Str.ends_with_char c t.
Proof.
  intros Ht. induction s as [|a s IH]; [done|].
  rewrite append_cons. cbn [Str.ends_with_char]. rewrite IH.
  destruct (s +:+ t) eqn:Hst; [|done].
  destruct s; [|done]. rewrite append_nil_l in Hst. done.
Qed.

Lemma ends_with_char_no_char c s :
  Str.has_char c s = false -> Str.ends_with_char c s = false.
Proof.
  induction s as [|a s IH]; [done|]. cbn [Str.has_char Str.ends_with_char].
  intros [Ha Hs]%orb_false_elim. destruct s; [done|]. by apply IH.
Qed.

(** The join of a path with a name is the two with a slash between,
    when the path does not end with a slash. *)
Lemma join_name a b :
  a <> "" -> Str.ends_with_char Str.slash a = false ->
  Str.has_char Str.slash b = false ->
  Path.join a b = a +:+ String Str.slash b.
Proof.
  intros Ha Hend Hb. unfold Path.join.
  rewrite startswith_slash_no_slash by done.
  destruct a; [done|]. by rewrite Hend.
Qed.

Lemma join_name_end a b :
  plain b -> Str.ends_with_char Str.slash (a +:+ String Str.slash b) = false.
Proof.
  intros (Hb & Hne & _). rewrite ends_with_char_append by done.
  cbn [Str.ends_with_char]. destruct b; [done|]. by apply ends_with_char_no_char.
Qed.

Lemma append_not_empty a b : b <> "" -> a +:+ b <> "".
Proof. intros Hb. by destruct a. Qed.

Lemma split_join_name a b :
  Str.has_char Str.slash b = false ->
  Str.split Str.slash (a +:+ String Str.slash b) = (Str.split Str.slash a ++ [b])%list.
Proof. intros Hb. by rewrite split_append, (split_no_char _ b). Qed.

(** *** Walking down plain names *)

Lemma enter_plain t cur name :
  plain name ->
  Fs.enter t cur name
  = if Fs.is_dir t cur then inr (cur ++ [name])%list
    else inl (match t !! cur with Some _ => ENOTDIR | None => ENOENT end).
Proof.
  intros [Hs Hu]%plain_not_special. unfold Fs.enter. by rewrite Hs, Hu.
Qed.

Lemma walk_from_app t acc comps more :
  foldl (enter_from t) acc (comps ++ more)
  = foldl (enter_from t) (foldl (enter_from t) acc comps) more.
Proof. apply foldl_app. Qed.

(** A walk down plain names ends, when it does, at the key made of
    the names. *)
Lemma walk_plain_key t cur comps k :
  Forall plain comps ->
  foldl (enter_from t) (inr cur) comps = inr k -> k = (cur ++ comps)%list.
Proof.
  intros Hplain. revert cur. induction Hplain as [|name comps Hname _ IH]; intros cur; simpl.
  - intros [= <-]. by rewrite app_nil_r.
  - rewrite enter_plain by done. destruct (Fs.is_dir t cur).
    + intros Hk. apply IH in Hk as ->. by rewrite <- app_assoc.
    + by rewrite walk_from_error.
Qed.

(** And it does end there when every directory on the way is there. *)
Lemma walk_plain_dirs t cur comps name :
  Forall plain comps -> plain name ->
  Fs.dirs_along t cur comps = true ->
  foldl (enter_from t) (inr cur) (comps ++ [name]) = inr (cur ++ comps ++ [name])%list.
Proof.
  intros Hplain Hname. revert cur.
  induction Hplain as [|c comps Hc _ IH]; intros cur; simpl.
  - rewrite andb_true_r. intros Hdir. by rewrite enter_plain, Hdir.
  - intros [Hdir Hrest]%andb_prop. rewrite enter_plain, Hdir by done.
    rewrite IH by done. by rewrite <- app_assoc.
Qed.

(** *** What the walk meets *)

Lemma split_last_key k d name : Fs.split_last k = Some (d, name) <-> k = (d ++ [name])%list.
Proof.
  unfold Fs.split_last. split.
  - destruct (reverse k) as [|x r] eqn:Hrev; [done|]. intros [= <- <-].
    rewrite <- (reverse_involutive k), Hrev. by rewrite reverse_cons.
  - intros ->. by rewrite reverse_snoc, reverse_involutive.
Qed.

Lemma elem_of_children t k name n :
  (name, n) ∈ Fs.children t k <-> t !! (k ++ [name])%list = Some n.
Proof.
  unfold Fs.children. rewrite list_elem_of_omap. split.
  - intros ([k' n'] & Hin & Hsome). apply elem_of_map_to_list in Hin.
    destruct (Fs.split_last k') as [[d name']|] eqn:Hlast; [|done].
    case_bool_decide; [|done]. injection Hsome as <- <-. subst d.
    by apply split_last_key in Hlast as ->.
  - intros Hk. exists ((k ++ [name])%list, n). split; [by apply elem_of_map_to_list|].
    rewrite (proj2 (split_last_key _ k name) eq_refl). by rewrite bool_decide_eq_true_2.
Qed.

Lemma elem_of_file_names t k name :
  name ∈ Fs.file_names t k <-> exists d, t !! (k ++ [name])%list = Some (Fs.File d).
Proof.
  unfold Fs.file_names. split.
  - intros Hin. apply list_elem_of_In, in_map_iff in Hin as ([name' n] & <- & Hin).
    apply list_elem_of_In, list_elem_of_filter in Hin as [Hfile Hin].
    apply elem_of_children in Hin. destruct n; [|done]. eauto.
  - intros [d Hk]. apply list_elem_of_In, in_map_iff. exists (name, Fs.File d).
    split; [done|]. apply list_elem_of_In, list_elem_of_filter. split; [done|].
    by apply elem_of_children.
Qed.

Lemma file_names_no_files t k : no_files t -> Fs.file_names t k = [].
Proof.
  intros Hnone. apply elem_of_nil_inv. intros name [d Hk]%elem_of_file_names.
  specialize (Hnone (k ++ [name])%list). unfold Fs.is_file in Hnone. by rewrite Hk in Hnone.
Qed.

Lemma below_key k0 k rest : Fs.below k0 k = Some rest <-> k = (k0 ++ rest)%list.
Proof.
  unfold Fs.below. split.
  - case_bool_decide as Hpre; [|done]. intros [= <-].
    by rewrite <- Hpre at 1; rewrite take_drop.
  - intros ->. rewrite take_app_length, bool_decide_eq_true_2 by done.
    by rewrite drop_app_length.
Qed.

Lemma elem_of_subdirs t k0 rest :
  rest ∈ Fs.subdirs t k0 ->
  rest <> [] /\ is_Some (t !! (k0 ++ rest)%list) /\ Fs.dirs_along t k0 rest = true.
Proof.
  unfold Fs.subdirs. rewrite list_elem_of_omap. intros ([k n] & Hin & Hsome).
  apply elem_of_map_to_list in Hin.
  destruct (Fs.below k0 k) as [[|c more]|] eqn:Hbelow; try done.
  destruct (Fs.dirs_along t k0 (c :: more)) eqn:Hdirs; [|done].
  injection Hsome as <-. apply below_key in Hbelow as ->. eauto.
Qed.

Lemma resolve_image_dir t : Fs.resolve t IMAGE_DIR = inr [IMAGE_DIR].
Proof. reflexivity. Qed.

(** A file that the walk of the image root meets: its folder below
    the root, where every directory on the way is there. *)
Lemma elem_of_walked_files t root name :
  (root, name) ∈ walked_files t ->
  exists rest d,
    root = foldl Path.join IMAGE_DIR rest /\
    Fs.dirs_along t [IMAGE_DIR] rest = true /\
    (rest = [] \/ is_Some (t !! (IMAGE_DIR :: rest))) /\
    t !! (IMAGE_DIR :: rest ++ [name])%list = Some (Fs.File d).
Proof.
  unfold walked_files, Fs.walk. rewrite resolve_image_dir.
  destruct (Fs.is_dir t [IMAGE_DIR]) eqn:Hdir; [|by intros ?%elem_of_nil].
  intros Hin. apply list_elem_of_In, in_flat_map in Hin as ([[root' dirs] names] & Hentry & Hin).
  apply in_map_iff in Hin as (name' & [= <- <-] & Hname).
  apply in_map_iff in Hentry as (rest & [= <- _ <-] & Hrest).
  apply list_elem_of_In, elem_of_file_names in Hname as [d Hfile].
  exists rest, d. split; [done|].
  apply list_elem_of_In, elem_of_cons in Hrest as [->|Hsub].
  - cbn [Fs.dirs_along]. rewrite Hdir. auto.
  - apply elem_of_subdirs in Hsub as (_ & Hkey & Hdirs).
    split; [done|]. split; [by right|]. done.
Qed.

Lemma walked_files_no_files t : no_files t -> walked_files t = [].
Proof.
  intros Hnone. apply elem_of_nil_inv. intros [root name] Hin.
  apply elem_of_walked_files in Hin as (rest & d & _ & _ & _ & Hfile).
  specialize (Hnone (IMAGE_DIR :: rest ++ [name])%list).
  unfold Fs.is_file in Hnone. by rewrite Hfile in Hnone.
Qed.

(** The path that the walk gives for a folder, in components. *)
Lemma walk_root_split top rest :
  top <> "" -> Str.ends_with_char Str.slash top = false -> Forall plain rest ->
  let root := foldl Path.join top rest in
  root <> "" /\ Str.ends_with_char Str.slash root = false /\
  Str.split Str.slash root = (Str.split Str.slash top ++ rest)%list.
Proof.
  intros Htop Hend Hplain. revert top Htop Hend.
  induction Hplain as [|c rest Hc _ IH]; intros top Htop Hend; simpl.
  - by rewrite app_nil_r.
  - destruct Hc as (Hslash & Hne & Hdots).
    rewrite (join_name top c) by done.
    destruct (IH (top +:+ String Str.slash c)) as (Hroot & Hrend & Hsplit).
    + by apply append_not_empty.
    + by apply join_name_end.
    + rewrite split_join_name in Hsplit by done. by rewrite <- app_assoc in Hsplit.
Qed.

Lemma plain_image_dir : plain IMAGE_DIR.
Proof. by repeat split. Qed.

(** The file that the walk met is found again under the path that the
    handlers make for it. *)
Lemma walked_file_resolves t rest name :
  Forall plain rest -> plain name ->
  Fs.dirs_along t [IMAGE_DIR] rest = true ->
  Fs.resolve t (Path.join (foldl Path.join IMAGE_DIR rest) name)
  = inr (IMAGE_DIR :: rest ++ [name])%list.
Proof.
  intros Hrest Hname Hdirs.
  destruct (walk_root_split IMAGE_DIR rest) as (Hroot & Hend & Hsplit); try done.
  rewrite join_name by (done || apply Hname).
  unfold Fs.resolve.
  destruct (_ +:+ _) eqn:Hpath; [by apply append_not_empty in Hpath|].
  rewrite <- Hpath. rewrite split_join_name by apply Hname. rewrite Hsplit.
  change (Str.split Str.slash IMAGE_DIR) with [IMAGE_DIR].
  apply (walk_plain_dirs t [] (IMAGE_DIR :: rest) name); [|done|].
  - constructor; [apply plain_image_dir|done].
  - simpl. done.
Qed.

(** ** Statistics and listings of an empty store *)

Lemma getsize_walked json_len t root name :
  valid_names t -> (root, name) ∈ walked_files t ->
  exists size, getsize json_len t (Path.join root name) = inr size.
Proof.
  intros Hvalid Hin.
  apply elem_of_walked_files in Hin as (rest & d & -> & Hdirs & _ & Hfile).
  apply Hvalid in Hfile as Hplain.
  apply Forall_cons in Hplain as [_ Hplain]. apply Forall_app in Hplain as [Hrest Hname].
  apply Forall_inv in Hname.
  unfold getsize. rewrite walked_file_resolves, Hfile by done.
  destruct d; eauto.
Qed.

Lemma count_files_total json_len t acc todo :
  Forall (fun e => exists size, getsize json_len t (Path.join e.1 e.2) = inr size) todo ->
  exists acc', count_files json_len t acc todo = inr acc'.
Proof.
  intros Hall. revert acc. induction Hall as [|[root name] todo [size Hsize] _ IH]; intros acc.
  - simpl. eauto.
  - simpl in *. unfold count_file. rewrite Hsize. apply IH.
Qed.

(** The statistics never fail on a tree of valid names. *)
Lemma get_stats_total w :
  valid_names (files w) -> exists st, get_stats w = (Ok st, tick w).
Proof.
  intros Hvalid. unfold get_stats.
  destruct (count_files_total (json_length w) (files w) tally0 (walked_files (files w)))
    as [acc ->]; [|eauto].
  apply Forall_forall. intros [root name] Hin. by apply getsize_walked.
Qed.

Lemma get_stats_no_files w :
  no_files (files w) ->
  get_stats w
  = (Ok {| total_images := 0; total_size_gb := Qmake 0 100; total_flights := 0;
           images_per_flight := ∅;
           timestamp := Datetime.isoformat (clock w (ticks w)) |}, tick w).
Proof. intros Hnone. unfold get_stats. by rewrite walked_files_no_files. Qed.

Lemma path_isfile_no_files t p : no_files t -> Fs.path_isfile t p = false.
Proof. intros Hnone. unfold Fs.path_isfile. by destruct (Fs.resolve t p). Qed.

Lemma listdir_isdir t p :
  Fs.path_isdir t p = true -> exists names, Fs.listdir t p = inr names.
Proof.
  unfold Fs.path_isdir, Fs.listdir. destruct (Fs.resolve t p) as [e|k]; [done|].
  intros ->. eauto.
Qed.

Lemma filter_none {A} (P : A -> Prop) `{!forall x, Decision (P x)} (l : list A) :
  (forall x, ~ P x) -> filter P l = [].
Proof.
  intros Hnone. induction l as [|x l IH]; [done|].
  rewrite filter_cons. by destruct (decide (P x)) as [?%Hnone|].
Qed.

Lemma images_of_flight_no_files t date date_path flight_folder :
  no_files t -> images_of_flight t date date_path flight_folder = inr [].
Proof.
  intros Hnone. unfold images_of_flight.
  destruct (Fs.path_isdir t _) eqn:Hdir; [|done].
  apply listdir_isdir in Hdir as [names ->].
  rewrite filter_none; [done|]. intros name. by rewrite path_isfile_no_files.
Qed.

Lemma images_of_date_no_files t flight_id date date_path folders :
  no_files t -> images_of_date t flight_id date date_path folders = inr [].
Proof.
  intros Hnone. induction folders as [|folder rest IH]; [done|]. simpl.
  destruct (_ && _); [done|]. by rewrite images_of_flight_no_files, IH.
Qed.

Lemma path_exists_no_files t p :
  no_files t -> Fs.path_exists t p = true -> Fs.path_isdir t p = true.
Proof.
  intros Hnone. unfold Fs.path_exists, Fs.path_isdir, Fs.present.
  destruct (Fs.resolve t p) as [e|k]; [done|]. by rewrite Hnone, orb_false_r.
Qed.

(** With no file in the store, every listing of images is answered
    with status 404. *)
Lemma list_images_no_files t flight_id date simple :
  no_files t ->
  exists detail, list_images flight_id date simple t = HTTPException 404 detail.
Proof.
  intros Hnone. unfold list_images. destruct (truthy date).
  - destruct (Fs.path_exists t _) eqn:Hexists; simpl; [|eauto].
    apply path_exists_no_files, listdir_isdir in Hexists as [folders ->]; [|done].
    rewrite images_of_date_no_files by done. eauto.
  - rewrite walked_files_no_files by done. simpl. eauto.
Qed.



Lemma fresh_store_no_files : no_files fresh_store.
Proof.
  intros k. unfold Fs.is_file, fresh_store.
  destruct (decide ([IMAGE_DIR] = k)) as [<-|Hi]; [by rewrite lookup_insert_eq|].
  rewrite lookup_insert_ne by done.
  destruct (decide ([METADATA_DIR] = k)) as [<-|Hm]; [by rewrite lookup_insert_eq|].
  rewrite lookup_insert_ne by done.
  destruct (decide ([LOGS_DIR] = k)) as [<-|Hl]; [by rewrite lookup_insert_eq|].
  by rewrite lookup_insert_ne, lookup_empty.
Qed.

Lemma fresh_store_valid_names : valid_names fresh_store.
Proof.
  intros k n. unfold fresh_store.
  destruct (decide ([IMAGE_DIR] = k)) as [<-|Hi].
  { intros _. by repeat constructor. }
  rewrite lookup_insert_ne by done.
  destruct (decide ([METADATA_DIR] = k)) as [<-|Hm].
  { intros _. by repeat constructor. }
  rewrite lookup_insert_ne by done.
  destruct (decide ([LOGS_DIR] = k)) as [<-|Hl].
  { intros _. by repeat constructor. }
  by rewrite lookup_insert_ne, lookup_empty.
Qed.

(** The names of the store are valid in every world that the server
    reaches. *)
Lemma reachable_valid_names w : reachable w -> valid_names (files w).
Proof.
  induction 1 as [w Hstart|rq w _ IH|rq w _ IH|w w' _ IH Hsame].
  - rewrite Hstart. apply fresh_store_valid_names.
  - by apply upload_image_valid_names.
  - by apply upload_batch_valid_names.
  - by rewrite Hsame.
Qed.

(** ** The names that an upload makes *)

Lemma all_chars_append ok s t :
  all_chars ok (s +:+ t) = all_chars ok s && all_chars ok t.
Proof.
  induction s as [|c s IH]; [done|].
  rewrite append_cons. cbn [all_chars]. by rewrite IH, andb_assoc.
Qed.

Lemma all_chars_no_char ok c s :
  ok c = false -> all_chars ok s = true -> Str.has_char c s = false.
Proof.
  intros Hc. induction s as [|a s IH]; [done|]. cbn [all_chars Str.has_char].
  intros [Ha Hs]%andb_prop. rewrite IH, orb_false_r by done.
  destruct (Ascii.eqb_spec a c) as [->|]; [congruence|done].
Qed.

Lemma all_chars_substring ok i n s :
  all_chars ok s = true -> all_chars ok (String.substring i n s) = true.
Proof.
  revert i n. induction s as [|c s IH]; intros i n Hs.
  - by destruct i, n.
  - cbn [all_chars] in Hs. apply andb_prop in Hs as [Hc Hs].
    destruct i as [|i]; destruct n as [|n]; simpl; try done.
    + by rewrite Hc, IH.
    + by apply IH.
    + by apply IH.
Qed.

Lemma length_substring_prefix n s :
  n <= String.length s -> String.length (String.substring 0 n s) = n.
Proof.
  revert n. induction s as [|c s IH]; intros [|n] Hn; simpl in *; try done; try lia.
  rewrite IH; lia.
Qed.

Lemma stamp_digits_uint d : all_chars stamp_char (NilEmpty.string_of_uint d) = true.
Proof. induction d; simpl; try done. Qed.

Lemma stamp_digits n : all_chars stamp_char (Datetime.digits n) = true.
Proof.
  unfold Datetime.digits, NilZero.string_of_uint.
  destruct (N.to_uint n); try done; apply (stamp_digits_uint (_ _)).
Qed.

Lemma stamp_zeros n : all_chars stamp_char (Datetime.zeros n) = true.
Proof. by induction n. Qed.

Lemma stamp_zfill w n : all_chars stamp_char (Datetime.zfill w n) = true.
Proof. unfold Datetime.zfill. by rewrite all_chars_append, stamp_zeros, stamp_digits. Qed.

Lemma length_zeros n : String.length (Datetime.zeros n) = n.
Proof. induction n; [done|]. simpl. by rewrite IHn. Qed.

Lemma length_zfill w n : w <= String.length (Datetime.zfill w n).
Proof. unfold Datetime.zfill. rewrite length_append, length_zeros. lia. Qed.

Lemma stamp_date t0 : all_chars stamp_char (Datetime.strftime_date t0) = true.
Proof.
  unfold Datetime.strftime_date. by rewrite !all_chars_append, !stamp_zfill.
Qed.

Lemma stamp_seconds t0 : all_chars stamp_char (Datetime.strftime_seconds t0) = true.
Proof.
  unfold Datetime.strftime_seconds. by rewrite !all_chars_append, !stamp_zfill.
Qed.

Lemma stamp_micros t0 : all_chars stamp_char (Datetime.strftime_micros t0) = true.
Proof.
  unfold Datetime.strftime_micros. by rewrite !all_chars_append, stamp_seconds, stamp_zfill.
Qed.

Lemma has_other_append s t : has_other (s +:+ t) = has_other s || has_other t.
Proof.
  induction s as [|c s IH]; [done|].
  rewrite append_cons. cbn [has_other]. by rewrite IH, orb_assoc.
Qed.

Lemma has_other_plain s :
  Str.has_char Str.slash s = false -> has_other s = true -> plain s.
Proof.
  intros Hslash Hother. split; [done|].
  repeat split; intros ->; discriminate.
Qed.

Lemma stamp_has_other c s :
  stamp_char c = true -> has_other (String c s) = true.
Proof.
  intros Hc. cbn [has_other]. destruct (Ascii.eqb_spec c ".") as [->|]; [discriminate|done].
Qed.

Lemma stamp_plain s :
  s <> "" -> all_chars stamp_char s = true -> plain s.
Proof.
  intros Hne Hs. apply has_other_plain.
  - by apply (all_chars_no_char stamp_char).
  - destruct s as [|c s]; [done|]. cbn [all_chars] in Hs.
    apply andb_prop in Hs as [Hc _]. by apply stamp_has_other.
Qed.

Lemma length_not_empty s : 0 < String.length s -> s <> "".
Proof. by destruct s; [simpl; lia|]. Qed.

Lemma plain_date t0 : plain (Datetime.strftime_date t0).
Proof.
  apply stamp_plain; [|apply stamp_date]. apply length_not_empty.
  unfold Datetime.strftime_date. rewrite length_append.
  pose proof (length_zfill 4 (Datetime.year t0)). lia.
Qed.

(** *** The extension *)

Lemma rsplit_tail_no_slash p : Str.has_char Str.slash (snd (Path.rsplit p)) = false.
Proof.
  induction p as [|c p IH]; [done|]. cbn [Path.rsplit].
  destruct (Path.rsplit p) as [h t]. simpl in IH.
  destruct (Ascii.eqb c Str.slash) eqn:Hc; [done|].
  destruct h; [|done]. cbn [snd Str.has_char]. by rewrite Hc, IH.
Qed.

Lemma rpartition_tail c s h t :
  Path.rpartition c s = Some (h, t) ->
  (exists t', t = String c t') /\
  forall x, Str.has_char x s = false -> Str.has_char x t = false.
Proof.
  revert h t. induction s as [|a s IH]; intros h t; [done|]. cbn [Path.rpartition].
  destruct (Path.rpartition c s) as [[h' t']|] eqn:Hs.
  - intros [= <- <-]. destruct (IH _ _ eq_refl) as [Hhead Hsub]. split; [done|].
    intros x. cbn [Str.has_char]. intros [_ Hx]%orb_false_elim. by apply Hsub.
  - destruct (Ascii.eqb_spec a c) as [->|]; [|done]. intros [= <- <-]. eauto.
Qed.

(** The extension of a path has no slash in it, and starts with a dot
    when there is one. *)
Lemma splitext_ext p :
  Str.has_char Str.slash (snd (Path.splitext p)) = false /\
  (snd (Path.splitext p) = "" \/ exists e, snd (Path.splitext p) = String Str.dot e).
Proof.
  unfold Path.splitext. pose proof (rsplit_tail_no_slash p) as Hb.
  destruct (Path.rsplit p) as [h b]. simpl in Hb.
  destruct (Path.rpartition Str.dot b) as [[stem ext]|] eqn:Hdot; [|by auto].
  destruct (Path.all_dots stem); [by auto|].
  apply rpartition_tail in Hdot as [[e ->] Hsub]. cbn [snd]. split; [by apply Hsub|eauto].
Qed.

(** *** The folder, the name, the path *)

Lemma named_plain s : named s -> plain s.
Proof. intros [Hs Ho]. by apply has_other_plain. Qed.

Lemma named_stamp s : s <> "" -> all_chars stamp_char s = true -> named s.
Proof.
  intros Hne Hs. split; [by apply (all_chars_no_char stamp_char)|].
  destruct s as [|c s]; [done|]. cbn [all_chars] in Hs.
  apply andb_prop in Hs as [Hc _]. by apply stamp_has_other.
Qed.

Lemma named_date t0 : named (Datetime.strftime_date t0).
Proof.
  apply named_stamp; [|apply stamp_date]. apply length_not_empty.
  unfold Datetime.strftime_date. rewrite length_append.
  pose proof (length_zfill 4 (Datetime.year t0)). lia.
Qed.

Lemma named_folder flight_id t0 :
  single_name flight_id -> named (planned_folder flight_id t0).
Proof.
  intros Hid. unfold planned_folder. destruct (truthy flight_id) eqn:Htruthy.
  - destruct flight_id as [id|]; [|done]. simpl. split.
    + rewrite has_char_append. by rewrite (Hid id).
    + by rewrite has_other_append.
  - split.
    + rewrite has_char_append.
      by rewrite (all_chars_no_char stamp_char Str.slash _ eq_refl (stamp_seconds t0)).
    + by rewrite has_other_append.
Qed.

Lemma named_stored_name original_filename w :
  named (planned_name original_filename w).
Proof.
  unfold planned_name, Str.drop_last.
  set (stamp := Datetime.strftime_micros _).
  destruct (splitext_ext original_filename) as [Hext _].
  assert (4 <= String.length stamp) as Hlen.
  { unfold stamp, Datetime.strftime_micros, Datetime.strftime_seconds.
    rewrite !length_append.
    pose proof (length_zfill 4 (Datetime.year (clock w (S (ticks w))))). lia. }
  assert (named (String.substring 0 (String.length stamp - 3) stamp)) as [Hs Ho].
  { apply named_stamp.
    - apply length_not_empty. rewrite length_substring_prefix; lia.
    - apply all_chars_substring, stamp_micros. }
  split.
  - by rewrite has_char_append, Hs, Hext.
  - by rewrite has_other_append, Ho.
Qed.

Lemma path_from_not_empty first rest : first <> "" -> path_from first rest <> "".
Proof.
  revert first. induction rest as [|c rest IH]; intros first Hne; [done|].
  apply IH. by apply append_not_empty.
Qed.

Lemma split_path_from first rest :
  Forall (fun name => Str.has_char Str.slash name = false) rest ->
  Str.split Str.slash (path_from first rest) = (Str.split Str.slash first ++ rest)%list.
Proof.
  intros Hrest. revert first. induction Hrest as [|c rest Hc _ IH]; intros first; simpl.
  - by rewrite app_nil_r.
  - unfold path_from in IH. rewrite IH, split_join_name by done. by rewrite <- app_assoc.
Qed.

Lemma joins_path_from first rest :
  first <> "" -> Str.ends_with_char Str.slash first = false -> Forall plain rest ->
  foldl Path.join first rest = path_from first rest.
Proof.
  intros Hne Hend Hrest. revert first Hne Hend.
  induction Hrest as [|c rest Hc _ IH]; intros first Hne Hend; [done|]. simpl.
  rewrite join_name by (done || apply Hc). apply IH.
  - by apply append_not_empty.
  - by apply join_name_end.
Qed.

(** A path of plain names is, when it is found at all, found at the
    key made of its names. *)
Lemma resolve_path_from t first rest k :
  plain first -> Forall plain rest ->
  Fs.resolve t (path_from first rest) = inr k -> k = first :: rest.
Proof.
  intros Hfirst Hrest. unfold Fs.resolve.
  destruct (path_from first rest) eqn:Hpath.
  { apply path_from_not_empty in Hpath; [done|apply Hfirst]. }
  rewrite <- Hpath, split_path_from.
  - rewrite (split_no_char _ first) by apply Hfirst.
    intros Hk. by apply (walk_plain_key t []) in Hk; [|constructor].
  - eapply Forall_impl; [done|]. by intros name [? _].
Qed.

Lemma planned_path_form flight_id original_filename w :
  single_name flight_id ->
  planned_path flight_id original_filename w
  = path_from IMAGE_DIR [planned_date w;
                         planned_folder flight_id (clock w (ticks w));
                         planned_name original_filename w].
Proof.
  intros Hid. unfold planned_path, planned_dir, Path.join3.
  apply (joins_path_from IMAGE_DIR [_; _; _]); [done|done|].
  apply Forall_cons. split; [apply named_plain, named_date|].
  apply Forall_cons. split; [by apply named_plain, named_folder|].
  apply Forall_cons. split; [apply named_plain, named_stored_name|constructor].
Qed.

(** *** Replacements within a path *)

Lemma startswith_before_slash old x b :
  Str.has_char Str.slash old = false ->
  Str.startswith old (x +:+ String Str.slash b) = Str.startswith old x.
Proof.
  revert x. induction old as [|o old IH]; intros x Hold; [by destruct x|].
  cbn [Str.has_char] in Hold. apply orb_false_elim in Hold as [Ho Hold].
  destruct x as [|c x].
  - rewrite append_nil_l. cbn [Str.startswith]. by rewrite Ho.
  - rewrite append_cons. cbn [Str.startswith]. by rewrite IH.
Qed.

Lemma startswith_length old x :
  Str.startswith old x = true -> String.length old <= String.length x.
Proof.
  revert x. induction old as [|o old IH]; intros x; [simpl; lia|].
  destruct x as [|c x]; [done|]. cbn [Str.startswith].
  destruct (Ascii.eqb o c); [|done]. intros Hrest%IH. simpl. lia.
Qed.

(** A pattern without a slash is replaced on either side of a slash
    as if the other side were not there. *)
Lemma replace_from_slash old new k a b :
  old <> "" -> Str.has_char Str.slash old = false -> k <= String.length a ->
  Str.replace_from old new k (a +:+ String Str.slash b)
  = Str.replace_from old new k a +:+ String Str.slash (Str.replace_from old new 0 b).
Proof.
  intros Hne Hold. revert k. induction a as [|c a IH]; intros k Hk.
  - assert (k = 0) as -> by (simpl in Hk; lia).
    rewrite append_nil_l. cbn [Str.replace_from].
    destruct old as [|o old]; [done|]. cbn [Str.startswith Str.has_char] in *.
    apply orb_false_elim in Hold as [Ho _]. by rewrite Ho.
  - rewrite append_cons. cbn [Str.replace_from]. destruct k as [|k].
    + assert (Str.startswith old (String c (a +:+ String Str.slash b))
              = Str.startswith old (String c a)) as ->.
      { rewrite <- append_cons. by apply startswith_before_slash. }
      destruct (Str.startswith old (String c a)) eqn:Hhere.
      * apply startswith_length in Hhere. rewrite IH by (simpl in Hhere; lia).
        by rewrite append_assoc.
      * by rewrite IH, append_cons by (simpl; lia).
    + apply IH. simpl in Hk. lia.
Qed.

Lemma replace_from_path old new first rest :
  old <> "" -> Str.has_char Str.slash old = false ->
  Str.replace_from old new 0 (path_from first rest)
  = path_from (Str.replace_from old new 0 first) (map (Str.replace_from old new 0) rest).
Proof.
  intros Hne Hold. revert first. induction rest as [|c rest IH]; intros first; [done|].
  simpl. unfold path_from in IH. rewrite IH. by rewrite replace_from_slash by (done || lia).
Qed.

Lemma spread_slash new a b :
  spread new (a +:+ String Str.slash b) = spread new a +:+ String Str.slash (spread new b).
Proof.
  unfold spread. rewrite append_assoc. f_equal.
  induction a as [|c a IH]; [done|].
  rewrite !append_cons. cbn [Str.insert_after_each]. rewrite IH.
  by rewrite append_cons, append_assoc.
Qed.

Lemma spread_path new first rest :
  spread new (path_from first rest) = path_from (spread new first) (map (spread new) rest).
Proof.
  revert first. induction rest as [|c rest IH]; intros first; [done|].
  simpl. unfold path_from in IH. by rewrite IH, spread_slash.
Qed.

Lemma has_char_replace_from c old new k x :
  Str.has_char c new = false -> Str.has_char c x = false ->
  Str.has_char c (Str.replace_from old new k x) = false.
Proof.
  intros Hnew. revert k. induction x as [|a x IH]; intros k Hx; [done|].
  cbn [Str.has_char] in Hx. apply orb_false_elim in Hx as [Ha Hx].
  cbn [Str.replace_from]. destruct k as [|k]; [|by apply IH].
  destruct (Str.startswith old (String a x)).
  - by rewrite has_char_append, Hnew, IH.
  - cbn [Str.has_char]. by rewrite Ha, IH.
Qed.

Lemma has_other_replace_from old new x :
  has_other new = true -> has_other x = true ->
  has_other (Str.replace_from old new 0 x) = true.
Proof.
  intros Hnew. induction x as [|a x IH]; [done|]. cbn [has_other Str.replace_from].
  destruct (Str.startswith old (String a x)).
  - intros _. by rewrite has_other_append, Hnew.
  - cbn [has_other]. intros [->|Hx%IH]%orb_prop; [done|]. by rewrite Hx, orb_true_r.
Qed.

Lemma named_replace_from old new x :
  named new -> named x -> named (Str.replace_from old new 0 x).
Proof.
  intros [Hns Hno] [Hxs Hxo]. split.
  - by apply has_char_replace_from.
  - by apply has_other_replace_from.
Qed.

Lemma has_char_insert_after_each c new x :
  Str.has_char c new = false -> Str.has_char c x = false ->
  Str.has_char c (Str.insert_after_each new x) = false.
Proof.
  intros Hnew. induction x as [|a x IH]; [done|]. cbn [Str.has_char Str.insert_after_each].
  intros [Ha Hx]%orb_false_elim. by rewrite Ha, has_char_append, Hnew, IH.
Qed.

Lemma named_spread new x : named new -> named x -> named (spread new x).
Proof.
  intros [Hns Hno] [Hxs Hxo]. unfold spread. split.
  - by rewrite has_char_append, Hns, has_char_insert_after_each.
  - by rewrite has_other_append, Hno.
Qed.

(** *** Where the record and the log go *)

(** The path of the record of an image stored under names: a path of
    as many names, the first of them not the image root. *)
Lemma metadata_path_names rest :
  Forall named rest ->
  exists first rest',
    metadata_path (path_from IMAGE_DIR rest) = path_from first rest' /\
    named first /\ Forall named rest' /\ first <> IMAGE_DIR.
Proof.
  intros Hrest. unfold metadata_path.
  destruct (splitext_ext (path_from IMAGE_DIR rest)) as [Hslash Hext].
  assert (Str.replace IMAGE_DIR METADATA_DIR (path_from IMAGE_DIR rest)
          = path_from METADATA_DIR (map (Str.replace_from IMAGE_DIR METADATA_DIR 0) rest))
    as ->.
  { unfold Str.replace. cbn [IMAGE_DIR]. by rewrite replace_from_path. }
  assert (Forall named (map (Str.replace_from IMAGE_DIR METADATA_DIR 0) rest)) as Hrest1.
  { apply Forall_map. eapply Forall_impl; [done|].
    intros x Hx. by apply named_replace_from. }
  destruct Hext as [->|[e He]].
  - exists (spread ".json" METADATA_DIR), (map (spread ".json") (map (Str.replace_from IMAGE_DIR METADATA_DIR 0) rest)).
    split; [apply spread_path|]. split; [by apply named_spread|]. split; [|done].
    apply Forall_map. eapply Forall_impl; [done|].
    intros x Hx. by apply named_spread.
  - rewrite He in *. unfold Str.replace.
    rewrite replace_from_path by done.
    eexists _, _. split; [reflexivity|].
    split; [by apply named_replace_from|]. split.
    + apply Forall_map. eapply Forall_impl; [done|].
      intros x Hx. by apply named_replace_from.
    + cbn. discriminate.
Qed.

(** The record is never at the key of the image. *)
Lemma record_is_not_the_image t flight_id original_filename w kp km :
  single_name flight_id ->
  let p := planned_path flight_id original_filename w in
  Fs.resolve t p = inr kp -> Fs.resolve t (metadata_path p) = inr km -> km <> kp.
Proof.
  intros Hid p Hkp Hkm. unfold p in *. rewrite planned_path_form in Hkp, Hkm by done.
  assert (Forall named [planned_date w; planned_folder flight_id (clock w (ticks w));
                        planned_name original_filename w]) as Hnames.
  { apply Forall_cons. split; [apply named_date|].
    apply Forall_cons. split; [by apply named_folder|].
    apply Forall_cons. split; [apply named_stored_name|constructor]. }
  destruct (metadata_path_names _ Hnames) as (first & rest' & Hm & Hfirst & Hrest' & Hne).
  rewrite Hm in Hkm.
  apply resolve_path_from in Hkp;
    [|apply plain_image_dir|by eapply Forall_impl; [done|apply named_plain]].
  apply resolve_path_from in Hkm;
    [|by apply named_plain|by eapply Forall_impl; [done|apply named_plain]].
  subst. by intros [= ?].
Qed.

(** Nor is the log. *)
Lemma log_is_not_the_image t flight_id original_filename w t0 kp kl :
  single_name flight_id ->
  Fs.resolve t (planned_path flight_id original_filename w) = inr kp ->
  Fs.resolve t (log_file_of t0) = inr kl -> kl <> kp.
Proof.
  intros Hid Hkp Hkl. rewrite planned_path_form in Hkp by done.
  assert (named ("uploads_" +:+ Datetime.strftime_date t0 +:+ ".log")) as Hlog.
  { destruct (named_date t0) as [Hs Ho]. split.
    - by rewrite !has_char_append, Hs.
    - by rewrite has_other_append. }
  unfold log_file_of in Hkl.
  pose proof (joins_path_from LOGS_DIR ["uploads_" +:+ Datetime.strftime_date t0 +:+ ".log"])
    as Hjoin.
  cbn [foldl] in Hjoin. rewrite Hjoin in Hkl;
    [|done|done|by repeat constructor; apply named_plain].
  apply resolve_path_from in Hkl;
    [|by repeat split|by repeat constructor; apply named_plain].
  apply resolve_path_from in Hkp; [|apply plain_image_dir|].
  - subst. by intros [= ?].
  - apply Forall_cons. split; [apply named_plain, named_date|].
    apply Forall_cons. split; [by apply named_plain, named_folder|].
    apply Forall_cons. split; [apply named_plain, named_stored_name|constructor].
Qed.

(** ** Round trip *)

(** The fixed table of content types, with its default. *)
Lemma content_type_table ext :
  get_or ext "image/jpeg" content_type_map
  = if bool_decide (ext = ".png") then "image/png"
    else if bool_decide (ext = ".tiff") || bool_decide (ext = ".tif") then "image/tiff"
    else "image/jpeg".
Proof.
  unfold content_type_map, get_or.
  repeat case_bool_decide; subst; try done.
Qed.

Lemma path_exists_file t p k :
  Fs.resolve t p = inr k -> Fs.is_file t k = true -> Fs.path_exists t p = true.
Proof.
  intros Hres Hfile. unfold Fs.path_exists, Fs.present. by rewrite Hres, Hfile, orb_true_r.
Qed.

(** C4, as amended: after an upload that succeeds, into a flight that
    is a single name, the path returned is that of the stored name in the folder
    of the flight under the date; the image asked for under that date,
    folder and name is found, with the content type that the table
    gives for the extension of the stored name, in lower case, and
    image/jpeg by default; and what is served is the uploaded bytes. *)
Theorem upload_then_get_image_round_trip
    (rq : upload_form) (w : world) (r : upload_result) (w' : world) :
  single_name (form_flight_id rq) ->
  upload_image rq w = (Ok r, w') ->
  let date := planned_date w in
  let folder := planned_folder (form_flight_id rq) (clock w (ticks w)) in
  let ext := Str.lower (snd (Path.splitext (res_filename r))) in
  let found :=
    {| fr_path := res_path r;
       fr_media_type :=
         if bool_decide (ext = ".png") then "image/png"
         else if bool_decide (ext = ".tiff") || bool_decide (ext = ".tif") then "image/tiff"
         else "image/jpeg" |} in
  exists content,
    upload_read (form_file rq) = inr content /\
    res_path r = Path.join4 IMAGE_DIR date folder (res_filename r) /\
    res_flight_id r = or_else (form_flight_id rq) folder /\
    get_image date folder (res_filename r) (files w') = Ok found /\
    served (files w') found = inr (Fs.Bytes content).
Proof.
  intros Hid Hrun date folder ext found. unfold upload_image in Hrun.
  destruct (upload_image_try rq w) as [[r'|e] w1] eqn:Htry; [|done].
  injection Hrun as -> ->. rewrite upload_image_try_split in Htry.
  apply bind_run in Htry as [(stored & w2 & Hstore & Hfinish)|(e & _ & [=])].
  destruct stored as [[[[filename image_path] flight_folder] metadata_file] metadata].
  apply upload_image_store_run in Hstore
    as (_ & _ & -> & -> & -> & -> & _ & content & Hcontent & kp & Hkp & Hfile & Himage).
  unfold upload_image_finish in Hfinish.
  apply bind_run in Hfinish as [(u & w3 & Hlog & Hret)|(e & _ & [=])].
  injection Hret as <- <-.
  apply log_upload_run in Hlog as (_ & [Hg Hkeep] & _).
  set (p := planned_path (form_flight_id rq) (upload_filename (form_file rq)) w) in *.
  assert (files w2 !! kp = Some (Fs.File (Fs.Bytes content))) as Hbytes.
  { destruct Himage as [Hbytes|Hrecord]; [done|].
    by destruct (record_is_not_the_image _ _ _ _ _ _ Hid Hkp Hrecord). }
  assert (Fs.resolve (files w3) p = inr kp) as Hkp3 by apply (resolve_grows _ _ _ _ Hg Hkp).
  assert (files w3 !! kp = Some (Fs.File (Fs.Bytes content))) as Hbytes3.
  { destruct (Hkeep _ _ Hbytes) as [Hsame|Hlog]; [done|].
    by destruct (log_is_not_the_image _ _ _ _ _ _ _ Hid Hkp3 Hlog). }
  exists content. simpl. split; [done|]. split; [done|]. split; [done|].
  assert (Path.join4 IMAGE_DIR date folder
            (planned_name (upload_filename (form_file rq)) w) = p) as Hp by done.
  split.
  - unfold get_image. rewrite Hp.
    rewrite (path_exists_file _ _ kp) by (done || (unfold Fs.is_file; by rewrite Hbytes3)).
    cbn [negb]. cbv zeta. by rewrite content_type_table.
  - unfold served, found. cbn [fr_path]. by eapply read_file_at.
Qed.

Lemma upload_then_get_image_round_trip_witness :
  single_name (Some "X") /\
  exists found,
    get_image "2025-03-09" "flight_X" "20250309_140507_250.jpg"
      (files (upload_image (plain_form (jpeg_file "a.jpg" "bytes") (Some "X") None)
                           (quiet_world fresh_store frozen_clock)).2) = Ok found /\
    served (files (upload_image (plain_form (jpeg_file "a.jpg" "bytes") (Some "X") None)
                                (quiet_world fresh_store frozen_clock)).2) found
    = inr (Fs.Bytes "bytes").
Proof.
  assert (single_name (Some "X")) as Hid by (by intros id [= <-]).
  split; [exact Hid|].
  edestruct (upload_then_get_image_round_trip
               (plain_form (jpeg_file "a.jpg" "bytes") (Some "X") None)
               (quiet_world fresh_store frozen_clock)) as (content & Hread & _ & _ & Hget & Hserved).
  - exact Hid.
  - apply upload_image_pair. vm_compute. reflexivity.
  - injection Hread as <-. eexists. split; [exact Hget|exact Hserved].
Defined.

(** C4, as stated, fails: a flight that is a path can lead the image
    and its record to one file.  With the flight [a/../../../shared]
    and a file named [x.json], the upload is answered with success, the
    paths of the image and of the record differ only in their roots
    and both name the file [shared/20250309_140507_250.json], where the
    record is written over the image: what [get_image] serves at the
    date, folder and name of the answer is the record, not the bytes
    uploaded. *)
Lemma round_trip_fails_for_a_flight_that_is_a_path :
  let w' := upload_to_a_path_as_flight.2 in
  exists r found record,
    upload_to_a_path_as_flight.1 = Ok r /\
    res_flight_id r = "a/../../../shared" /\
    res_path r = "images/2025-03-09/flight_a/../../../shared/20250309_140507_250.json" /\
    res_metadata_file r
    = "metadata/2025-03-09/flight_a/../../../shared/20250309_140507_250.json" /\
    Fs.resolve (files w') (res_path r) = inr ["shared"; "20250309_140507_250.json"] /\
    Fs.resolve (files w') (res_metadata_file r) = inr ["shared"; "20250309_140507_250.json"] /\
    get_image "2025-03-09" "flight_a/../../../shared" (res_filename r) (files w') = Ok found /\
    fr_path found = res_path r /\
    served (files w') found = inr (Fs.Document (Json.Dict record) "") /\
    served (files w') found <> inr (Fs.Bytes "bytes").
Proof.
  vm_compute. eexists _, _, _. repeat (split; [reflexivity|]). discriminate.
Qed.

(** ** The folder of a file, from its path *)

Lemma rsplit_no_slash b :
  Str.has_char Str.slash b = false -> Path.rsplit b = ("", b).
Proof.
  induction b as [|c b IH]; [done|]. cbn [Str.has_char Path.rsplit].
  intros [Hc Hb]%orb_false_elim. by rewrite IH, Hc.
Qed.

Lemma rsplit_name a b :
  Str.has_char Str.slash b = false ->
  Path.rsplit (a +:+ String Str.slash b) = (a +:+ String Str.slash "", b).
Proof.
  intros Hb. induction a as [|c a IH].
  - rewrite !append_nil_l. cbn [Path.rsplit]. by rewrite rsplit_no_slash, Ascii.eqb_refl.
  - rewrite !append_cons. cbn [Path.rsplit]. rewrite IH.
    destruct (Ascii.eqb c Str.slash); [done|]. by destruct a.
Qed.

Lemma rstrip_slash a : Path.rstrip (a +:+ String Str.slash "") = Path.rstrip a.
Proof.
  induction a as [|c a IH]; [done|].
  rewrite append_cons. cbn [Path.rstrip]. by rewrite IH.
Qed.

Lemma rstrip_id a : Str.ends_with_char Str.slash a = false -> Path.rstrip a = a.
Proof.
  induction a as [|c a IH]; [done|]. cbn [Str.ends_with_char Path.rstrip].
  destruct a as [|x a].
  - intros ->. done.
  - intros Hend. by rewrite IH.
Qed.

Lemma dirname_name a b :
  a <> "" -> Str.ends_with_char Str.slash a = false ->
  Str.has_char Str.slash b = false ->
  Path.dirname (a +:+ String Str.slash b) = a.
Proof.
  intros Hne Hend Hb. unfold Path.dirname.
  rewrite rsplit_name by done. cbn [fst].
  rewrite rstrip_slash, rstrip_id by done. by destruct a.
Qed.

Lemma path_from_snoc first rest name :
  path_from first (rest ++ [name]) = path_from first rest +:+ String Str.slash name.
Proof. unfold path_from. by rewrite foldl_app. Qed.

Lemma path_from_end first rest :
  first <> "" -> Str.ends_with_char Str.slash first = false -> Forall plain rest ->
  path_from first rest <> "" /\ Str.ends_with_char Str.slash (path_from first rest) = false.
Proof.
  intros Hne Hend Hrest.
  rewrite <- joins_path_from by done.
  by destruct (walk_root_split first rest Hne Hend Hrest) as (? & ? & _).
Qed.

(** The last name of a path of names. *)
Lemma basename_path_from first rest :
  Str.has_char Str.slash first = false -> Forall plain rest ->
  Path.basename (path_from first rest) = default first (last rest).
Proof.
  intros Hfirst Hrest. unfold Path.basename.
  destruct rest as [|c rest _] using rev_ind.
  - simpl. by rewrite rsplit_no_slash.
  - apply Forall_app in Hrest as [_ Hc]. apply Forall_inv in Hc as [Hc _].
    rewrite path_from_snoc, rsplit_name, last_snoc by done. done.
Qed.

(** The folder that the statistics take the flight from is the
    directory that the file lies in. *)
Lemma stats_folder_walked rest name :
  Forall plain rest -> plain name ->
  stats_folder (foldl Path.join IMAGE_DIR rest) name = default IMAGE_DIR (last rest).
Proof.
  intros Hrest Hname. unfold stats_folder.
  rewrite joins_path_from by done.
  destruct (path_from_end IMAGE_DIR rest) as [Hne Hend]; try done.
  rewrite join_name by (done || apply Hname).
  rewrite dirname_name by (done || apply Hname).
  by apply basename_path_from.
Qed.

Lemma normpath_plain comps acc :
  Forall plain comps ->
  fold_left (Path.norm_step true) comps acc = (rev comps ++ acc)%list.
Proof.
  intros Hplain. revert acc. induction Hplain as [|c comps Hc _ IH]; intros acc; [done|].
  simpl. rewrite IH. unfold Path.norm_step.
  destruct Hc as (_ & Hne & Hdot & Hup). rewrite !bool_decide_eq_false_2 by done.
  simpl. by rewrite <- app_assoc.
Qed.

Lemma path_from_append a b rest : path_from (a +:+ b) rest = a +:+ path_from b rest.
Proof.
  revert b. induction rest as [|c rest IH]; intros b; [done|].
  simpl. unfold path_from in IH. by rewrite <- IH, append_assoc.
Qed.

Lemma join_cons sep a b rest :
  Str.join sep (a :: b :: rest) = a +:+ sep +:+ Str.join sep (b :: rest).
Proof. reflexivity. Qed.

Lemma join_path_from first rest : Str.join "/" (first :: rest) = path_from first rest.
Proof.
  revert first. induction rest as [|c rest IH]; intros first; [done|].
  rewrite join_cons, IH.
  change (path_from first (c :: rest)) with (path_from (first +:+ String Str.slash c) rest).
  rewrite path_from_append. change (String Str.slash c) with ("/" +:+ c).
  by rewrite path_from_append.
Qed.

(** The path of a walked file below the image root. *)
Lemma relpath_walked rest name :
  Forall plain rest -> plain name ->
  Path.relpath (Path.join (foldl Path.join IMAGE_DIR rest) name) IMAGE_DIR
  = Str.join "/" (rest ++ [name]).
Proof.
  intros Hrest Hname. unfold Path.relpath, Path.abs_components.
  destruct (walk_root_split IMAGE_DIR rest) as (Hne & Hend & Hsplit); try done.
  rewrite join_name by (done || apply Hname).
  rewrite split_join_name, Hsplit by apply Hname.
  change (Str.split Str.slash IMAGE_DIR) with [IMAGE_DIR].
  assert (Forall plain [IMAGE_DIR]) as Htop
    by (repeat constructor; apply plain_image_dir).
  assert (Forall plain (([IMAGE_DIR] ++ rest) ++ [name])%list) as Hall.
  { apply Forall_app. split; [by apply Forall_app|]. by apply Forall_cons. }
  rewrite (normpath_plain [IMAGE_DIR]), (normpath_plain (([IMAGE_DIR] ++ rest) ++ [name]))
    by done.
  rewrite !app_nil_r, !rev_involutive. cbn [app Path.strip_common].
  rewrite bool_decide_eq_true_2 by done. cbn [Path.strip_common map app].
  destruct (rest ++ [name])%list eqn:Hnil; [by destruct rest|done].
Qed.

(** The folder that the listing of the whole tree takes the flight
    from is the directory that the file lies in, and the empty string
    for a file that lies in the image root itself. *)
Lemma listing_folder_walked rest name :
  Forall plain rest -> plain name ->
  Path.basename
    (Path.dirname (Path.relpath (Path.join (foldl Path.join IMAGE_DIR rest) name) IMAGE_DIR))
  = default "" (last rest).
Proof.
  intros Hrest Hname. rewrite relpath_walked by done.
  destruct rest as [|first rest].
  - simpl. unfold Path.dirname, Path.basename.
    by rewrite (rsplit_no_slash name) by apply Hname.
  - apply Forall_cons in Hrest as [Hfirst Hrest].
    change ((first :: rest) ++ [name])%list with (first :: (rest ++ [name]))%list.
    rewrite join_path_from, path_from_snoc.
    destruct (path_from_end first rest) as [Hne Hend]; try done.
    { apply Hfirst. }
    { apply ends_with_char_no_char, Hfirst. }
    rewrite dirname_name by (done || apply Hname).
    rewrite basename_path_from by (done || apply Hfirst).
    destruct rest as [|second rest] using rev_ind; [done|].
    by rewrite app_comm_cons, !last_snoc.
Qed.

(** ** The flight of a listed image, in the tree *)

Lemma walked_record_in_tree t r : valid_names t -> walked_record t r -> walked_in_tree t r.
Proof.
  intros Hvalid (root & Hin & _ & Hflight).
  apply list_elem_of_In, elem_of_walked_files in Hin as (rest & d & -> & _ & _ & Hfile).
  apply Hvalid in Hfile as Hplain.
  apply Forall_cons in Hplain as [_ Hplain]. apply Forall_app in Hplain as [Hrest Hname].
  apply Forall_inv in Hname.
  exists rest, d. split; [done|]. by rewrite listing_folder_walked in Hflight.
Qed.

(** How the listings come to the flight of an image: [replace] deletes
    [flight_] from the name of the folder wherever it occurs, not only
    the prefix that [get_timestamped_path] put there; a folder
    [flight_<id>] gives back [<id>] exactly when [<id>] itself has no
    [flight_] in it. *)
Theorem listed_flight_deletes_every_marker
    (t : Fs.tree) (flight_id date : option string) (total : nat) (images : list image_info) :
  list_images flight_id date false t = Ok (FullListing total images) ->
  Forall (fun r => if truthy date then dated_record t (default "" date) r
                   else walked_record t r /\ (valid_names t -> walked_in_tree t r)) images /\
  (forall id, flight_of ("flight_" +:+ id) = flight_of id) /\
  (forall id, flight_of ("flight_" +:+ id) = id <-> Str.contains "flight_" id = false).
Proof.
  intros Hlist. split; [|split; [apply flight_of_folder|apply flight_of_folder_is_id]].
  unfold list_images in Hlist. destruct (truthy date) eqn:Hdate.
  - destruct (negb _); [done|].
    destruct (Fs.listdir t _) as [e|folders]; [done|].
    destruct (images_of_date t flight_id _ _ folders) as [e|found] eqn:Hfound; [done|].
    apply images_of_date_records in Hfound.
    destruct found as [|r found]; [done|]. by injection Hlist as _ <-.
  - pose proof (walked_records t) as Hall.
    destruct (map _ (walked_files t)) as [|r found]; [done|]. injection Hlist as _ <-.
    eapply Forall_impl; [done|]. intros r' Hr'. split; [done|].
    intros Hvalid. by apply walked_record_in_tree.
Qed.

Lemma listed_flight_deletes_every_marker_witness :
  exists r,
    list_images None None false (files store_of_flight_flight_7) = Ok (FullListing 1 [r]) /\
    walked_record (files store_of_flight_flight_7) r.
Proof.
  eexists. split; [vm_compute; reflexivity|].
  eapply (proj1 (Forall_inv (proj1 (listed_flight_deletes_every_marker
    (files store_of_flight_flight_7) None None 1 _ ltac:(vm_compute; reflexivity))))).
Defined.

(** C9: the flight of a listed image is meant to be the name of its
    folder without the prefix [flight_], and is not for the flight
    [flight_7].  Its upload is answered with the flight [flight_7] and
    stored in the folder [flight_flight_7], the record of the image
    names the flight [flight_7], and the listing of the date finds the
    image when asked for the flight [flight_7] and nothing when asked
    for [7]; yet the listings, of the date and of the whole tree, and
    the listing of flights give its flight as [7]. *)
Theorem listed_flight_is_not_the_prefix_stripped :
  let rq := plain_form (jpeg_file "a.jpg" "bytes") (Some "flight_7") None in
  let t := files store_of_flight_flight_7 in
  let image := {| img_filename := "20250309_140507_250.jpg";
                  img_path := "2025-03-09/flight_flight_7/20250309_140507_250.jpg";
                  img_flight_id := Some "7" |} in
  (exists r, (upload_image rq (quiet_world fresh_store frozen_clock)).1 = Ok r /\
             res_flight_id r = "flight_7" /\
             res_path r = "images/2025-03-09/flight_flight_7/20250309_140507_250.jpg") /\
  Fs.listdir t "images/2025-03-09/flight_flight_7" = inr ["20250309_140507_250.jpg"] /\
  (exists md, get_metadata "2025-03-09" "flight_flight_7" "20250309_140507_250.jpg" t
              = Ok (Json.Dict md) /\
              dict_get "flight_id" md = Some (Json.Str "flight_7")) /\
  list_images (Some "flight_7") (Some "2025-03-09") false t = Ok (FullListing 1 [image]) /\
  list_images (Some "7") (Some "2025-03-09") false t = HTTPException 404 "No images found" /\
  list_images None (Some "2025-03-09") false t = Ok (FullListing 1 [image]) /\
  list_images None None false t = Ok (FullListing 1 [image]) /\
  img_flight_id image <> Some "flight_7" /\
  list_flights t
  = Ok (1, [{| fl_date := "2025-03-09"; fl_flight_id := "7";
               fl_path := "2025-03-09/flight_flight_7"; fl_image_count := 1 |}]).
Proof.
  vm_compute. split; [eexists; repeat split; reflexivity|]. split; [reflexivity|].
  split; [eexists; split; reflexivity|].
  repeat (split; [reflexivity|]). split; [discriminate|reflexivity].
Qed.

(** ** The counts per flight, in the tree *)

Lemma walked_files_in_tree t :
  valid_names t -> Forall (counted_in_tree t) (walked_files t).
Proof.
  intros Hvalid. apply Forall_forall. intros [root name] Hin.
  apply elem_of_walked_files in Hin as (rest & d & -> & _ & _ & Hfile).
  apply Hvalid in Hfile as Hplain.
  apply Forall_cons in Hplain as [_ Hplain]. apply Forall_app in Hplain as [Hrest Hname].
  apply Forall_inv in Hname.
  exists rest, d. split; [done|]. by apply stats_folder_walked.
Qed.

(** *** The walk meets every file once *)

Lemma NoDup_omap_key {K V B} (f : K * V -> option B) (key : B -> K) (l : list (K * V)) :
  NoDup l.*1 -> (forall x b, f x = Some b -> key b = x.1) -> NoDup (key <$> omap f l).
Proof.
  intros Hnodup Hkey. induction l as [|x l IH]; [constructor|].
  apply NoDup_cons in Hnodup as [Hx Hl]. cbn [omap list_omap].
  destruct (f x) as [b|] eqn:Hfx; [|by apply IH].
  rewrite fmap_cons. apply NoDup_cons. split; [|by apply IH].
  intros Hin. apply list_elem_of_fmap in Hin as (b' & Hb' & Hin).
  apply list_elem_of_omap in Hin as (y & Hy & Hfy).
  apply Hx. apply list_elem_of_fmap. exists y. split; [|done].
  by rewrite <- (Hkey x b Hfx), Hb', (Hkey y b' Hfy).
Qed.

Lemma NoDup_children t k : NoDup (Fs.children t k).*1.
Proof.
  apply (NoDup_fmap_1 (fun name => (k ++ [name])%list)).
  rewrite <- list_fmap_compose. unfold Fs.children.
  apply NoDup_omap_key; [apply NoDup_fst_map_to_list|].
  intros [k' n] [name n'] Hsome. simpl.
  destruct (Fs.split_last k') as [[d name']|] eqn:Hlast; [|done].
  case_bool_decide; [|done]. injection Hsome as <- <-. subst d.
  by apply split_last_key in Hlast.
Qed.

Lemma NoDup_file_names t k : NoDup (Fs.file_names t k).
Proof.
  unfold Fs.file_names. eapply sublist_NoDup; [apply (NoDup_children t k)|].
  apply fmap_sublist, sublist_filter.
Qed.

Lemma NoDup_subdirs t k0 : NoDup (Fs.subdirs t k0).
Proof.
  apply (NoDup_fmap_1 (fun rest => (k0 ++ rest)%list)). unfold Fs.subdirs.
  apply NoDup_omap_key; [apply NoDup_fst_map_to_list|].
  intros [k n] rest Hsome. simpl.
  destruct (Fs.below k0 k) as [[|c more]|] eqn:Hbelow; try done.
  destruct (Fs.dirs_along t k0 (c :: more)); [|done].
  injection Hsome as <-. by apply below_key in Hbelow.
Qed.

Lemma dirs_along_is_dir t cur rest :
  Fs.dirs_along t cur rest = true -> Fs.is_dir t (cur ++ rest) = true.
Proof.
  revert cur. induction rest as [|c rest IH]; intros cur; cbn [Fs.dirs_along].
  - rewrite app_nil_r. by intros [? _]%andb_prop.
  - intros [_ Hrest]%andb_prop. apply IH in Hrest. by rewrite <- app_assoc in Hrest.
Qed.

Lemma subdirs_complete t k0 rest :
  rest <> [] -> Fs.dirs_along t k0 rest = true -> rest ∈ Fs.subdirs t k0.
Proof.
  intros Hrest Hdirs. apply dirs_along_is_dir in Hdirs as Hdir.
  unfold Fs.is_dir in Hdir.
  destruct (k0 ++ rest)%list as [|c k] eqn:Hk; [by apply app_eq_nil in Hk as [_ ?]|].
  destruct (t !! (c :: k)) as [n|] eqn:Hlook; [|done].
  unfold Fs.subdirs. apply list_elem_of_omap. exists (c :: k, n).
  split; [by apply elem_of_map_to_list|]. rewrite <- Hk.
  rewrite (proj2 (below_key k0 (k0 ++ rest) rest) eq_refl).
  destruct rest; [done|]. by rewrite Hdirs.
Qed.

Lemma elem_of_image_keys t k : k ∈ image_keys t <-> stored_image t k.
Proof.
  unfold image_keys, stored_image. split.
  - destruct (Fs.is_dir t [IMAGE_DIR]) eqn:Hroot; [|by intros ?%elem_of_nil].
    intros Hin. apply list_elem_of_In, in_flat_map in Hin as (rest & Hrest & Hin).
    apply in_map_iff in Hin as (name & <- & Hname).
    apply list_elem_of_In, elem_of_file_names in Hname as [d Hfile].
    exists rest, name, d. split; [done|]. split; [|done].
    apply list_elem_of_In, elem_of_cons in Hrest as [->|Hsub].
    + cbn [Fs.dirs_along]. by rewrite Hroot.
    + by apply elem_of_subdirs in Hsub as (_ & _ & Hdirs).
  - intros (rest & name & d & -> & Hdirs & Hfile).
    assert (Fs.is_dir t [IMAGE_DIR] = true) as ->.
    { destruct rest; cbn [Fs.dirs_along] in Hdirs; by apply andb_prop in Hdirs as [? _]. }
    apply list_elem_of_In, in_flat_map. exists rest. split.
    + apply list_elem_of_In. destruct rest as [|c rest]; [by left|right].
      by apply subdirs_complete.
    + apply in_map_iff. exists name. split; [done|].
      apply list_elem_of_In, elem_of_file_names. eauto.
Qed.

Lemma NoDup_image_keys t : NoDup (image_keys t).
Proof.
  unfold image_keys. destruct (Fs.is_dir t [IMAGE_DIR]); [|constructor].
  apply (NoDup_bind _ ([] :: Fs.subdirs t [IMAGE_DIR])).
  - intros rest1 rest2 k _ _ Hin1 Hin2.
    apply list_elem_of_fmap in Hin1 as (name1 & -> & _).
    apply list_elem_of_fmap in Hin2 as (name2 & Heq & _).
    injection Heq as Heq. by apply app_inj_tail in Heq as [? _].
  - intros rest _. apply NoDup_fmap_2; [|apply NoDup_file_names].
    intros name1 name2 Heq. injection Heq as Heq. by apply app_inj_tail in Heq as [_ ?].
  - apply NoDup_cons. split; [|apply NoDup_subdirs].
    by intros (? & _)%elem_of_subdirs.
Qed.

Lemma length_walked_files t : length (walked_files t) = length (image_keys t).
Proof.
  unfold walked_files, image_keys, Fs.walk. rewrite resolve_image_dir.
  destruct (Fs.is_dir t [IMAGE_DIR]); [|done].
  induction ([] :: Fs.subdirs t [IMAGE_DIR]) as [|rest l IH]; [done|].
  cbn [map flat_map]. by rewrite !length_app, !length_map, IH.
Qed.

Lemma count_files_sizes json_len t acc todo acc' :
  count_files json_len t acc todo = inr acc' ->
  exists sizes, sizes_of json_len t todo sizes /\
                tally_size acc' = tally_size acc + sum_list sizes.
Proof.
  revert acc. induction todo as [|[root filename] rest IH]; intros acc; simpl.
  - intros [= <-]. exists []. split; [constructor|]. simpl. lia.
  - unfold count_file.
    destruct (getsize json_len t (Path.join root filename)) as [e|size] eqn:Hsize; [done|].
    intros Hrest. apply IH in Hrest as (sizes & Hsizes & Htotal). simpl in Htotal.
    exists (size :: sizes). split; [by constructor|]. simpl. lia.
Qed.

(** C10: the statistics count every file below the image root, each
    once, wherever it lies: the total is the number of the files that
    the walk of the image root meets, which are the files of the tree
    below the root, and the size reported is that of the sum of their
    sizes.  A file is counted under a flight only when the name of the
    folder it lies in contains [flight_]; the counts per flight
    therefore add up to at most the total, and to the total exactly
    when every file lies in such a folder.  On a tree of valid names
    the folder of each file met is the directory that it lies in. *)
Theorem per_flight_counts_bounded (w : world) (st : stats) (w' : world) :
  get_stats w = (Ok st, w') ->
  total_images st = length (walked_files (files w)) /\
  (exists keys, NoDup keys /\ (forall k, k ∈ keys <-> stored_image (files w) k) /\
                total_images st = length keys) /\
  (exists sizes, sizes_of (json_length w) (files w) (walked_files (files w)) sizes /\
                 total_size_gb st = size_gb (sum_list sizes)) /\
  sum_counts (images_per_flight st)
  = length (filter (fun e => in_flight e = true) (walked_files (files w))) /\
  sum_counts (images_per_flight st) <= total_images st /\
  (sum_counts (images_per_flight st) = total_images st
   <-> Forall (fun e => in_flight e = true) (walked_files (files w))) /\
  (valid_names (files w) -> Forall (counted_in_tree (files w)) (walked_files (files w))).
Proof.
  unfold get_stats. intros Hstats.
  destruct (count_files _ _ tally0 _) as [e|acc] eqn:Hcount; [done|].
  injection Hstats as <- _. simpl.
  apply count_files_sizes in Hcount as Hsizes.
  apply count_files_tally in Hcount as [Himages Hflights].
  simpl in *. rewrite sum_counts_empty in Hflights. simpl in Hflights.
  rewrite Himages, Hflights.
  pose proof (length_filter (fun e => in_flight e = true) (walked_files (files w))).
  split; [done|]. split.
  { exists (image_keys (files w)). split; [apply NoDup_image_keys|].
    split; [apply elem_of_image_keys|apply length_walked_files]. }
  split.
  { destruct Hsizes as (sizes & Hsizes & ->). by exists sizes. }
  split; [done|]. split; [done|]. split; [by apply filter_length_all|].
  apply walked_files_in_tree.
Qed.

Lemma per_flight_counts_bounded_witness :
  exists st,
    (get_stats (two_uploads "0123456789" "abcdefghijklmnopqrst")).1 = Ok st /\
    sum_counts (images_per_flight st) <= total_images st.
Proof.
  destruct (get_stats (two_uploads "0123456789" "abcdefghijklmnopqrst"))
    as [answer w'] eqn:Hstats.
  assert (exists st, answer = Ok st) as [st ->].
  { apply (f_equal fst) in Hstats. vm_compute in Hstats. subst answer. eauto. }
  exists st. split; [reflexivity|].
  apply (per_flight_counts_bounded _ st w' Hstats).
Defined.

(** * Further properties of the handlers *)

(** ** What uploads leave in place *)

(** X1: an upload, single or batch, answered with success or not,
    removes nothing: every directory of the store is still a directory
    and every file still a file afterwards, and whatever it adds it adds
    under names that are names of entries. *)
Theorem uploads_only_add (w : world) :
  (forall rq, grows (files w) (files (upload_image rq w).2)) /\
  (forall rq, grows (files w) (files (upload_batch rq w).2)).
Proof.
  split; intros rq.
  - destruct (upload_image rq w) as [answer w'] eqn:Hrun.
    by apply upload_image_grows in Hrun as [_ Hg].
  - destruct (upload_batch rq w) as [answer w'] eqn:Hrun.
    by apply upload_batch_grows in Hrun as [_ Hg].
Qed.

(** X2: in every world that the server reaches from its start by
    uploads, failed or not, the statistics are answered with a body:
    [get_stats] never raises. *)
Theorem stats_answer_in_every_reachable_world (w : world) :
  reachable w -> exists st, get_stats w = (Ok st, tick w).
Proof. intros Hreach. by apply get_stats_total, reachable_valid_names. Qed.

Lemma stats_answer_in_every_reachable_world_witness :
  exists st, get_stats upload_with_bad_settings.2 = (Ok st, tick upload_with_bad_settings.2).
Proof.
  apply stats_answer_in_every_reachable_world.
  apply reach_upload, reach_start. reflexivity.
Defined.

(** ** Listings *)

(** X3: the short form of a listing is the full form with only the
    names: the same files in the same order, and the same error when
    there is one. *)
Theorem simple_listing_is_the_names_of_the_full_one
    (flight_id date : option string) (t : Fs.tree) :
  match list_images flight_id date false t with
  | Ok (FullListing total images) =>
      total = length images /\ images <> [] /\
      list_images flight_id date true t = Ok (SimpleListing (map img_filename images))
  | Ok (SimpleListing _) => False
  | HTTPException code detail =>
      list_images flight_id date true t = HTTPException code detail
  | Uncaught e => list_images flight_id date true t = Uncaught e
  end.
Proof.
  unfold list_images. cbv zeta.
  destruct (if truthy date then _ else _) as [[|r found]|code detail|e]; done.
Qed.

(** X4: without a date the flight filter is not looked at: the listing
    is that of the whole tree, whatever the flight asked for, and its
    total is the number of images that the statistics count. *)
Theorem undated_listing_ignores_the_flight
    (w : world) (flight_id : option string) (simple : bool) (st : stats) (w' : world) :
  get_stats w = (Ok st, w') ->
  list_images flight_id None simple (files w) = list_images None None simple (files w) /\
  forall total images,
    list_images flight_id None false (files w) = Ok (FullListing total images) ->
    total = total_images st /\ map img_filename images = map snd (walked_files (files w)).
Proof.
  intros Hstats. split; [done|]. intros total images.
  unfold get_stats in Hstats.
  destruct (count_files _ _ tally0 _) as [e|acc] eqn:Hcount; [done|].
  injection Hstats as <- _. apply count_files_tally in Hcount as [Himages _].
  unfold list_images. cbv zeta. cbn [truthy total_images]. rewrite Himages.
  cbn [tally_images tally0].
  destruct (map _ (walked_files (files w))) as [|r found] eqn:Hmap; [done|].
  intros Hlist.
  assert (total = length (r :: found) /\ images = r :: found) as [-> ->]
    by (by injection Hlist).
  rewrite <- Hmap, length_map. split; [lia|].
  rewrite map_map. apply map_ext. by intros [root' name'].
Qed.

Lemma undated_listing_ignores_the_flight_witness :
  list_images (Some "Y") None true (files (two_uploads "a" "b"))
  = list_images None None true (files (two_uploads "a" "b")).
Proof.
  destruct (get_stats (two_uploads "a" "b")) as [answer w'] eqn:Hstats.
  assert (exists st, answer = Ok st) as [st ->].
  { apply (f_equal fst) in Hstats. vm_compute in Hstats. subst answer. eauto. }
  apply (undated_listing_ignores_the_flight _ (Some "Y") true st w' Hstats).
Defined.

(** X5: a date that names something of the store that is not a
    directory, the file of an image for one, is found to exist and then
    listed: the listing fails with the [NotADirectoryError] of
    [os.listdir], which no handler catches. *)
Theorem dated_listing_of_a_file_raises
    (t : Fs.tree) (flight_id : option string) (date : string) (simple : bool) :
  date <> "" ->
  Fs.path_exists t (Path.join IMAGE_DIR date) = true ->
  Fs.path_isdir t (Path.join IMAGE_DIR date) = false ->
  list_images flight_id (Some date) simple t
  = Uncaught (OSError ENOTDIR (Path.join IMAGE_DIR date)).
Proof.
  intros Hdate Hexists Hnodir. unfold list_images. cbv zeta.
  assert (truthy (Some date) = true) as -> by by destruct date.
  change (default "" (Some date)) with date. rewrite Hexists. cbn [negb].
  unfold Fs.path_exists, Fs.present in Hexists. unfold Fs.path_isdir in Hnodir.
  unfold Fs.listdir.
  destruct (Fs.resolve t (Path.join IMAGE_DIR date)) as [e|k]; [done|].
  rewrite Hnodir in *. cbn [orb] in Hexists. by rewrite Hexists.
Qed.

Lemma dated_listing_of_a_file_raises_witness :
  list_images None (Some "2025-03-09/flight_flight_7/20250309_140507_250.jpg") false
              (files store_of_flight_flight_7)
  = Uncaught (OSError ENOTDIR "images/2025-03-09/flight_flight_7/20250309_140507_250.jpg").
Proof.
  apply (dated_listing_of_a_file_raises (files store_of_flight_flight_7) None
           "2025-03-09/flight_flight_7/20250309_140507_250.jpg" false).
  - discriminate.
  - vm_compute. reflexivity.
  - vm_compute. reflexivity.
Defined.

(** ** Images by name alone *)

Lemma find_image_some name walked p :
  find_image name walked = Some p ->
  exists root dirs names,
    In (root, dirs, names) walked /\ name ∈ names /\ p = Path.join root name.
Proof.
  induction walked as [|[[root dirs] names] walked IH]; [done|]. cbn [find_image].
  case_bool_decide as Hin.
  - intros [= <-]. exists root, dirs, names. split; [by left|done].
  - intros (root' & dirs' & names' & Hentry & Hrest)%IH.
    exists root', dirs', names'. split; [by right|done].
Qed.

Lemma find_image_none name walked root dirs names :
  find_image name walked = None -> In (root, dirs, names) walked -> name ∉ names.
Proof.
  induction walked as [|[[root' dirs'] names'] walked IH]; [done|]. cbn [find_image].
  case_bool_decide as Hin; [done|]. intros Hnone [[= -> -> ->]|Hrest]; [done|by apply IH].
Qed.

(** X6: asked for an image by its name alone, the server answers with
    a file of that name below the image root, served with the content
    type of the table, whenever the store has one, and with status 404
    exactly when no file below the image root has the name. *)
Theorem image_by_filename_found_iff_stored (t : Fs.tree) (filename : string) :
  valid_names t ->
  match get_image_by_filename filename t with
  | Ok found =>
      fr_media_type found
      = get_or (Str.lower (snd (Path.splitext filename))) "image/jpeg" content_type_map /\
      exists rest d,
        Fs.resolve t (fr_path found) = inr (IMAGE_DIR :: rest ++ [filename])%list /\
        t !! (IMAGE_DIR :: rest ++ [filename])%list = Some (Fs.File d) /\
        served t found = inr d
  | HTTPException code detail =>
      code = 404 /\ detail = "Image not found" /\
      forall k, stored_image t k -> last k <> Some filename
  | Uncaught _ => False
  end.
Proof.
  intros Hvalid. unfold get_image_by_filename.
  destruct (find_image filename (Fs.walk t IMAGE_DIR)) as [p|] eqn:Hfind.
  - split; [done|].
    apply find_image_some in Hfind as (root & dirs & names & Hentry & Hname & ->).
    assert ((root, filename) ∈ walked_files t) as Hin.
    { apply list_elem_of_In, in_flat_map. exists (root, dirs, names). split; [done|].
      apply in_map_iff. exists filename. split; [done|]. by apply list_elem_of_In. }
    apply elem_of_walked_files in Hin as (rest & d & -> & Hdirs & _ & Hfile).
    apply Hvalid in Hfile as Hplain.
    apply Forall_cons in Hplain as [_ Hplain]. apply Forall_app in Hplain as [Hrest Hplain].
    apply Forall_inv in Hplain.
    pose proof (walked_file_resolves t rest filename Hrest Hplain Hdirs) as Hres.
    exists rest, d. split; [done|]. split; [done|].
    unfold served. cbn [fr_path]. by eapply read_file_at.
  - split; [done|]. split; [done|].
    intros k (rest & name & d & -> & Hdirs & Hfile) Hlast.
    rewrite app_comm_cons, last_snoc in Hlast. injection Hlast as ->.
    assert (Fs.is_dir t [IMAGE_DIR] = true) as Hroot.
    { destruct rest; cbn [Fs.dirs_along] in Hdirs; by apply andb_prop in Hdirs as [? _]. }
    eapply (find_image_none _ _ (foldl Path.join IMAGE_DIR rest)
              (Fs.dir_names t ([IMAGE_DIR] ++ rest)) (Fs.file_names t ([IMAGE_DIR] ++ rest)));
      [done| |].
    + unfold Fs.walk. rewrite resolve_image_dir, Hroot.
      apply in_map_iff. exists rest. split; [done|].
      apply list_elem_of_In. destruct rest as [|c rest]; [by left|right].
      by apply subdirs_complete.
    + apply elem_of_file_names. eauto.
Qed.

Lemma image_by_filename_found_iff_stored_witness :
  exists found,
    get_image_by_filename "20250309_140507_250.jpg" (files store_of_flight_flight_7) = Ok found /\
    served (files store_of_flight_flight_7) found = inr (Fs.Bytes "bytes").
Proof.
  assert (valid_names (files store_of_flight_flight_7)) as Hvalid.
  { apply reachable_valid_names, reach_upload, reach_start. reflexivity. }
  pose proof (image_by_filename_found_iff_stored
                (files store_of_flight_flight_7) "20250309_140507_250.jpg" Hvalid) as Hfound.
  destruct (get_image_by_filename _ _) as [found| |] eqn:Hget.
  - exists found. split; [done|]. vm_compute in Hget. injection Hget as <-.
    vm_compute. reflexivity.
  - vm_compute in Hget. discriminate Hget.
  - destruct Hfound.
Defined.

(** ** The stored name *)

Lemma rpartition_none c s : Str.has_char c s = false <-> Path.rpartition c s = None.
Proof.
  induction s as [|a s IH]; [done|]. cbn [Str.has_char Path.rpartition]. split.
  - intros [Ha Hs]%orb_false_elim. apply IH in Hs. by rewrite Hs, Ha.
  - destruct (Path.rpartition c s) as [[h t]|]; [done|].
    destruct (Ascii.eqb a c); [done|]. intros _. by apply IH.
Qed.

Lemma rpartition_last c s h t :
  Path.rpartition c s = Some (h, t) -> exists t', t = String c t' /\ Str.has_char c t' = false.
Proof.
  revert h t. induction s as [|a s IH]; intros h t; [done|]. cbn [Path.rpartition].
  destruct (Path.rpartition c s) as [[h' t']|] eqn:Hs.
  - intros [= <- <-]. by eapply IH.
  - destruct (Ascii.eqb_spec a c) as [->|]; [|done]. intros [= <- <-].
    exists s. split; [done|]. by apply rpartition_none.
Qed.

Lemma rpartition_app c s e :
  Str.has_char c e = false -> Path.rpartition c (s +:+ String c e) = Some (s, String c e).
Proof.
  intros He. induction s as [|a s IH].
  - rewrite append_nil_l. cbn [Path.rpartition].
    apply rpartition_none in He. by rewrite He, Ascii.eqb_refl.
  - rewrite append_cons. cbn [Path.rpartition]. by rewrite IH.
Qed.

(** The extension of a path is empty, or a dot and what follows the
    last dot. *)
Lemma splitext_ext_last p :
  snd (Path.splitext p) = "" \/
  exists e, snd (Path.splitext p) = String Str.dot e /\ Str.has_char Str.dot e = false.
Proof.
  unfold Path.splitext. destruct (Path.rsplit p) as [h b].
  destruct (Path.rpartition Str.dot b) as [[stem ext]|] eqn:Hdot; [|by auto].
  destruct (Path.all_dots stem); [by auto|].
  apply rpartition_last in Hdot as (e & -> & He). eauto.
Qed.

Lemma splitext_stamp stamp ext :
  stamp <> "" -> all_chars stamp_char stamp = true ->
  Str.has_char Str.slash ext = false ->
  (ext = "" \/ exists e, ext = String Str.dot e /\ Str.has_char Str.dot e = false) ->
  Path.splitext (stamp +:+ ext) = (stamp, ext).
Proof.
  intros Hne Hstamp Hslash Hext. unfold Path.splitext.
  rewrite rsplit_no_slash.
  2:{ by rewrite has_char_append, (all_chars_no_char stamp_char Str.slash stamp), Hslash. }
  assert (Path.all_dots stamp = false) as Hdots.
  { destruct stamp as [|c s]; [done|]. cbn [all_chars] in Hstamp.
    apply andb_prop in Hstamp as [Hc _]. cbn [Path.all_dots].
    destruct (Ascii.eqb_spec c Str.dot) as [->|]; [discriminate|done]. }
  destruct Hext as [->|(e & -> & He)].
  - rewrite append_nil_r.
    assert (Path.rpartition Str.dot stamp = None) as ->; [|done].
    by apply rpartition_none, (all_chars_no_char stamp_char).
  - by rewrite rpartition_app, Hdots.
Qed.

(** X7: the stored name is a time stamp, made of digits and
    underscores, followed by the extension of the original name and
    nothing else of it: it has no slash whatever the original name, and
    its extension is the original one, as sent. *)
Theorem stored_name_keeps_only_the_extension (original_filename : string) (w : world) :
  exists stamp,
    generate_filename original_filename w
    = (Return (stamp +:+ snd (Path.splitext original_filename)), tick w) /\
    stamp <> "" /\ all_chars stamp_char stamp = true /\
    Path.splitext (stamp +:+ snd (Path.splitext original_filename))
    = (stamp, snd (Path.splitext original_filename)) /\
    Str.has_char Str.slash (stamp +:+ snd (Path.splitext original_filename)) = false.
Proof.
  eexists. split; [reflexivity|].
  set (stamp := Datetime.strftime_micros _).
  assert (4 <= String.length stamp) as Hlen.
  { unfold stamp, Datetime.strftime_micros, Datetime.strftime_seconds.
    rewrite !length_append.
    pose proof (length_zfill 4 (Datetime.year (clock w (ticks w)))). lia. }
  assert (Str.drop_last 3 stamp <> "") as Hne.
  { apply length_not_empty. unfold Str.drop_last. rewrite length_substring_prefix; lia. }
  assert (all_chars stamp_char (Str.drop_last 3 stamp) = true) as Hstamp.
  { apply all_chars_substring, stamp_micros. }
  destruct (splitext_ext original_filename) as [Hslash _].
  split; [done|]. split; [done|]. split.
  - apply splitext_stamp; [done..|apply splitext_ext_last].
  - by rewrite has_char_append, (all_chars_no_char stamp_char Str.slash), Hslash.
Qed.

(** ** The counts of the flights *)

Lemma count_flight_lookup folder flights id :
  default 0 (count_flight folder flights !! id)
  = default 0 (flights !! id)
    + (if Str.contains "flight_" folder && bool_decide (flight_of folder = id) then 1 else 0).
Proof.
  unfold count_flight, flight_of. destruct (Str.contains "flight_" folder); cbn [andb]; [|lia].
  set (fid := Str.replace "flight_" "" folder).
  case_bool_decide as Hid.
  - subst id. rewrite lookup_insert_eq. cbn [default from_option id].
    destruct (flights !! fid) as [n|] eqn:Hfid; [by rewrite Hfid|].
    by rewrite lookup_insert_eq.
  - rewrite lookup_insert_ne by done.
    destruct (flights !! fid) as [n|]; [lia|]. rewrite lookup_insert_ne by done. lia.
Qed.

Lemma count_flight_positive folder flights :
  map_Forall (fun _ n => 1 <= n) flights ->
  map_Forall (fun _ n => 1 <= n) (count_flight folder flights).
Proof.
  intros Hall. unfold count_flight. destruct (Str.contains "flight_" folder); [|done].
  set (fid := Str.replace "flight_" "" folder).
  intros id n. destruct (decide (fid = id)) as [<-|Hne].
  - rewrite lookup_insert_eq. intros [= <-]. lia.
  - rewrite lookup_insert_ne by done.
    destruct (flights !! fid); [apply Hall|]. rewrite lookup_insert_ne by done. apply Hall.
Qed.

Lemma size_le_sum_counts (flights : gmap string nat) :
  map_Forall (fun _ n => 1 <= n) flights -> size flights <= sum_counts flights.
Proof.
  induction flights as [|id n flights Hfresh IH] using map_ind.
  - intros _. by rewrite map_size_empty.
  - intros [Hn Hall]%map_Forall_insert; [|done].
    rewrite map_size_insert_None, sum_counts_insert_fresh by done.
    specialize (IH Hall). lia.
Qed.

Lemma count_files_flights json_len t acc todo acc' :
  count_files json_len t acc todo = inr acc' ->
  (map_Forall (fun _ n => 1 <= n) (tally_flights acc) ->
   map_Forall (fun _ n => 1 <= n) (tally_flights acc')) /\
  forall id,
    default 0 (tally_flights acc' !! id)
    = default 0 (tally_flights acc !! id)
      + length (filter (fun e => counted_for id e = true) todo).
Proof.
  revert acc. induction todo as [|[root filename] rest IH]; intros acc; simpl.
  - intros [= <-]. split; [done|]. intros id. lia.
  - unfold count_file.
    destruct (getsize json_len t (Path.join root filename)) as [e|size]; [done|].
    intros Hrest. apply IH in Hrest as [Hpos Hcount]. cbn [tally_flights] in *. split.
    + intros Hall. by apply Hpos, count_flight_positive.
    + intros id. rewrite Hcount, count_flight_lookup, filter_cons.
      change (Str.contains "flight_" _ && bool_decide _)
        with (counted_for id (root, filename)).
      destruct (counted_for id (root, filename)) eqn:Hhere.
      * rewrite decide_True by done. simpl. lia.
      * rewrite decide_False by done. lia.
Qed.

(** X8: in the statistics the count of a flight is the number of the
    files met whose folder has a name with [flight_] in it that is the
    flight's id once every [flight_] is deleted: the folders of one
    flight on different dates, and folders whose names differ only by
    [flight_], are counted together.  No flight is reported with a
    count of zero, and the number of flights is at most the number of
    the files counted for flights. *)
Theorem flight_counts_are_the_files_per_id (w : world) (st : stats) (w' : world) :
  get_stats w = (Ok st, w') ->
  (forall id,
     default 0 (images_per_flight st !! id)
     = length (filter (fun e => counted_for id e = true) (walked_files (files w)))) /\
  map_Forall (fun _ n => 1 <= n) (images_per_flight st) /\
  total_flights st = size (images_per_flight st) /\
  total_flights st <= sum_counts (images_per_flight st).
Proof.
  unfold get_stats. intros Hstats.
  destruct (count_files _ _ tally0 _) as [e|acc] eqn:Hcount; [done|].
  injection Hstats as <- _. cbn [images_per_flight total_flights].
  apply count_files_flights in Hcount as [Hpos Hcount].
  assert (map_Forall (fun _ n => 1 <= n) (tally_flights acc)) as Hall.
  { apply Hpos. cbn [tally0 tally_flights]. apply map_Forall_empty. }
  split; [|split; [done|split; [done|by apply size_le_sum_counts]]].
  intros id. rewrite Hcount. cbn [tally0 tally_flights]. by rewrite lookup_empty.
Qed.

Lemma flight_counts_are_the_files_per_id_witness :
  exists st,
    (get_stats (two_uploads "0123456789" "abcdefghijklmnopqrst")).1 = Ok st /\
    map_Forall (fun _ n => 1 <= n) (images_per_flight st).
Proof.
  destruct (get_stats (two_uploads "0123456789" "abcdefghijklmnopqrst"))
    as [answer w'] eqn:Hstats.
  assert (exists st, answer = Ok st) as [st ->].
  { apply (f_equal fst) in Hstats. vm_compute in Hstats. subst answer. eauto. }
  exists st. split; [reflexivity|].
  apply (flight_counts_are_the_files_per_id _ st w' Hstats).
Defined.

(** ** The listing of one flight of one date *)

Lemma images_of_date_filtered t id date date_path folders found :
  id <> "" -> NoDup folders ->
  images_of_date t (Some id) date date_path folders = inr found ->
  found = [] \/ images_of_flight t date date_path ("flight_" +:+ id) = inr found.
Proof.
  intros Hid Hnodup. assert (truthy (Some id) = true) as Htruthy by by destruct id.
  revert found. induction Hnodup as [|folder rest Hfresh _ IH]; intros found; cbn [images_of_date].
  - intros [= <-]. by left.
  - rewrite Htruthy. cbn [andb default from_option]. case_bool_decide as Hfolder; cbn [negb].
    + subst folder.
      destruct (images_of_flight t date date_path _) as [e|here] eqn:Hhere; [done|].
      destruct (images_of_date t (Some id) date date_path rest) as [e|more] eqn:Hmore; [done|].
      intros [= <-]. right.
      assert (more = []) as ->; [|by rewrite app_nil_r].
      clear IH Hhere. revert more Hmore.
      induction rest as [|other rest IH]; intros more; cbn [images_of_date]; [by intros [= <-]|].
      rewrite Htruthy. cbn [andb default from_option].
      apply not_elem_of_cons in Hfresh as [Hne Hfresh].
      rewrite bool_decide_eq_false_2 by done. cbn [negb]. by apply IH.
    + apply IH.
Qed.

(** X9: with a date and a flight, the listing is that of the one
    folder [flight_<id>] of the date and of no other, a folder whose
    name only contains the id being left out: its records are the files
    of that folder, in the order of [os.listdir], each with the folder's
    flight. *)
Theorem dated_listing_is_of_the_one_folder
    (t : Fs.tree) (id date : string) (total : nat) (images : list image_info) :
  id <> "" -> date <> "" ->
  list_images (Some id) (Some date) false t = Ok (FullListing total images) ->
  let folder := "flight_" +:+ id in
  let flight_path := Path.join (Path.join IMAGE_DIR date) folder in
  exists names,
    Fs.listdir t flight_path = inr names /\
    images
    = map (fun filename =>
             {| img_filename := filename;
                img_path := date +:+ "/" +:+ folder +:+ "/" +:+ filename;
                img_flight_id := Some (flight_of folder) |})
          (filter (fun filename => Fs.path_isfile t (Path.join flight_path filename) = true)
                  names).
Proof.
  intros Hid Hdate Hlist folder flight_path. unfold list_images in Hlist. cbv zeta in Hlist.
  assert (truthy (Some date) = true) as Htruthy by by destruct date.
  rewrite Htruthy in Hlist. change (default "" (Some date)) with date in Hlist.
  destruct (negb _); [done|].
  destruct (Fs.listdir t (Path.join IMAGE_DIR date)) as [e|folders] eqn:Hfolders; [done|].
  destruct (images_of_date t (Some id) date _ folders) as [e|found] eqn:Hfound; [done|].
  destruct found as [|r found]; [done|].
  assert (images = r :: found) as -> by (by injection Hlist).
  apply images_of_date_filtered in Hfound as [[=]|Hflight]; [|done|].
  - unfold images_of_flight in Hflight. fold folder flight_path in Hflight.
    destruct (Fs.path_isdir t flight_path); [|done].
    destruct (Fs.listdir t flight_path) as [e|names]; [done|].
    exists names. split; [done|]. by injection Hflight as <-.
  - unfold Fs.listdir in Hfolders. destruct (Fs.resolve t _) as [e|k]; [done|].
    destruct (Fs.is_dir t k); [|done]. injection Hfolders as <-. apply NoDup_children.
Qed.

Lemma dated_listing_is_of_the_one_folder_witness :
  exists names,
    Fs.listdir (files (two_uploads "a" "b")) "images/2025-03-09/flight_X" = inr names /\
    length names = 2.
Proof.
  edestruct (dated_listing_is_of_the_one_folder (files (two_uploads "a" "b")) "X" "2025-03-09")
    as (names & Hnames & _).
  - discriminate.
  - discriminate.
  - vm_compute. reflexivity.
  - exists names. split; [exact Hnames|].
    vm_compute in Hnames. injection Hnames as <-. reflexivity.
Defined.

(** ** The record of an upload *)

Lemma save_metadata_record image_path metadata flight_id w file md w' :
  save_metadata image_path metadata flight_id w = (Return (file, md), w') ->
  file = metadata_path image_path /\
  md = dict_set "metadata_file" (Json.Str (metadata_path image_path))
         (dict_set "image_path" (Json.Str image_path)
            (dict_set "server_timestamp"
               (Json.Str (Datetime.isoformat (clock w (ticks w)))) metadata)) /\
  exists km,
    Fs.resolve (files w') file = inr km /\
    files w' !! km = Some (Fs.File (Fs.Document (Json.Dict md) "")).
Proof.
  unfold save_metadata. set (m := metadata_path image_path). cbv zeta.
  remember (Return (file, md)) as out eqn:Hout. intros H.
  advance H as u w1 Hmk; [|done].
  apply io_run in Hmk as (Hticks1 & (Hclock1 & _) & _).
  tick H as t0 w2 Hnow.
  apply now_run in Hnow as ([= ->] & _ & _ & _).
  rewrite Hticks1, Hclock1 in H.
  advance H as f w3 Hopen; [|done].
  apply io_run in Hopen as (_ & _ & [(e & [=] & _)|(f' & [= <-] & Hopen)]).
  apply open_write_run in Hopen as (Hres & Hnodir & Hw3 & Hg3).
  assert (Fs.resolve (files w3) m = inr f) as Hres3 by by eapply resolve_grows.
  assert (Fs.is_dir (files w3) f = false) as Hnodir3.
  { rewrite Hw3. by apply is_dir_insert_file. }
  advance H as u' w4 Hwrite; [|done].
  apply io_run in Hwrite as (_ & _ & [(e & [=] & _)|(u'' & _ & Hwrite)]).
  destruct u''. apply write_run in Hwrite.
  match type of Hwrite with
  | _ = <[_ := Fs.File ?d]> _ =>
      pose proof (grows_insert_file (files w3) f d Hnodir3 (resolve_plain_key _ _ _ Hres3)) as Hg4
  end.
  rewrite <- Hwrite in Hg4.
  injection H as <- <-. injection Hout as Hfile Hmd. subst file md.
  split; [done|]. split; [done|]. exists f.
  split; [by eapply resolve_grows|]. rewrite Hwrite. apply lookup_insert_eq.
Qed.

Lemma upload_image_store_saves rq w filename image_path flight_folder metadata_file md w' :
  upload_image_store rq w
  = (Return (filename, image_path, flight_folder, metadata_file, md), w') ->
  exists content uploaded camera w7,
    upload_read (form_file rq) = inr content /\
    save_metadata image_path
      [ ("original_filename", Json.Str (upload_filename (form_file rq)));
        ("stored_filename", Json.Str filename);
        ("upload_timestamp", Json.Str (Datetime.isoformat uploaded));
        ("flight_id", Json.of_opt_str (form_flight_id rq));
        ("gps", Json.Dict [ ("latitude", Json.of_opt_float (form_gps_latitude rq));
                            ("longitude", Json.of_opt_float (form_gps_longitude rq)) ]);
        ("altitude", Json.of_opt_float (form_altitude rq));
        ("camera_settings", camera);
        ("notes", Json.of_opt_str (form_notes rq));
        ("file_size", Json.Int (Z.of_nat (String.length content)));
        ("content_type", Json.of_opt_str (upload_content_type (form_file rq))) ]
      (form_flight_id rq) w7
    = (Return (metadata_file, md), w').
Proof.
  unfold upload_image_store. cbv zeta.
  remember (Return (filename, image_path, flight_folder, metadata_file, md)) as out eqn:Hout.
  intros H.
  advance H as dirs w1 Hdirs; [|done]. destruct dirs as [[full_path date_folder] folder].
  advance H as name w2 Hname; [|done].
  advance H as content w3 Hread; [|done].
  unfold read_upload in Hread.
  destruct (upload_read (form_file rq)) as [msg|content'] eqn:Hcontent; [done|].
  injection Hread as -> ->.
  advance H as kp w4 Hopen; [|done].
  advance H as u w5 Hwrite; [|done].
  advance H as uploaded w6 Hnow; [|done].
  advance H as camera w7 Hcamera; [|done].
  advance H as saved w8 Hsave; [|done]. destruct saved as [file record].
  injection H as <- <-. injection Hout as Hname' Hpath Hfolder Hfile Hmd. subst.
  exists content, uploaded, camera, w7. done.
Qed.

Lemma metadata_path_shape rest :
  Forall named rest ->
  exists first rest',
    metadata_path (path_from IMAGE_DIR rest) = path_from first rest' /\
    named first /\ Forall named rest' /\ length rest' = length rest.
Proof.
  intros Hrest. unfold metadata_path.
  destruct (splitext_ext (path_from IMAGE_DIR rest)) as [Hslash Hext].
  assert (Str.replace IMAGE_DIR METADATA_DIR (path_from IMAGE_DIR rest)
          = path_from METADATA_DIR (map (Str.replace_from IMAGE_DIR METADATA_DIR 0) rest))
    as ->.
  { unfold Str.replace. cbn [IMAGE_DIR]. by rewrite replace_from_path. }
  assert (Forall named (map (Str.replace_from IMAGE_DIR METADATA_DIR 0) rest)) as Hrest1.
  { apply Forall_map. eapply Forall_impl; [done|].
    intros x Hx. by apply named_replace_from. }
  destruct Hext as [->|[e He]].
  - exists (spread ".json" METADATA_DIR),
      (map (spread ".json") (map (Str.replace_from IMAGE_DIR METADATA_DIR 0) rest)).
    split; [apply spread_path|]. split; [by apply named_spread|]. split.
    + apply Forall_map. eapply Forall_impl; [done|].
      intros x Hx. by apply named_spread.
    + by rewrite !length_map.
  - rewrite He in *. unfold Str.replace.
    rewrite replace_from_path by done.
    eexists _, _. split; [reflexivity|].
    split; [by apply named_replace_from|]. split.
    + apply Forall_map. eapply Forall_impl; [done|].
      intros x Hx. by apply named_replace_from.
    + by rewrite !length_map.
Qed.

(** The log is never at the key of the record. *)
Lemma log_is_not_the_record t flight_id original_filename w t0 km kl :
  single_name flight_id ->
  Fs.resolve t (metadata_path (planned_path flight_id original_filename w)) = inr km ->
  Fs.resolve t (log_file_of t0) = inr kl -> kl <> km.
Proof.
  intros Hid Hkm Hkl. rewrite planned_path_form in Hkm by done.
  assert (Forall named [planned_date w; planned_folder flight_id (clock w (ticks w));
                        planned_name original_filename w]) as Hnames.
  { apply Forall_cons. split; [apply named_date|].
    apply Forall_cons. split; [by apply named_folder|].
    apply Forall_cons. split; [apply named_stored_name|constructor]. }
  destruct (metadata_path_shape _ Hnames) as (first & rest' & Hm & Hfirst & Hrest' & Hlen).
  rewrite Hm in Hkm.
  apply resolve_path_from in Hkm;
    [|by apply named_plain|by eapply Forall_impl; [done|apply named_plain]].
  assert (named ("uploads_" +:+ Datetime.strftime_date t0 +:+ ".log")) as Hlog.
  { destruct (named_date t0) as [Hs Ho]. split.
    - by rewrite !has_char_append, Hs.
    - by rewrite has_other_append. }
  unfold log_file_of in Hkl.
  pose proof (joins_path_from LOGS_DIR ["uploads_" +:+ Datetime.strftime_date t0 +:+ ".log"])
    as Hjoin.
  cbn [foldl] in Hjoin. rewrite Hjoin in Hkl;
    [|done|done|by repeat constructor; apply named_plain].
  apply resolve_path_from in Hkl;
    [|by repeat split|by repeat constructor; apply named_plain].
  subst. intros Heq. apply (f_equal length) in Heq. simpl in Heq, Hlen. lia.
Qed.

(** X10: after an upload that succeeds, into a flight that is a single
    name, the record asked for under the date, the folder and the
    stored name of the answer is found and is the one written for the
    image: it names the original file and the stored one, gives the
    size of the uploaded bytes and the time of the answer, and points
    to the image and to itself by the paths of the answer. *)
Theorem upload_then_get_metadata_round_trip
    (rq : upload_form) (w : world) (r : upload_result) (w' : world) :
  single_name (form_flight_id rq) ->
  upload_image rq w = (Ok r, w') ->
  let date := planned_date w in
  let folder := planned_folder (form_flight_id rq) (clock w (ticks w)) in
  exists content md,
    upload_read (form_file rq) = inr content /\
    get_metadata date folder (res_filename r) (files w') = Ok (Json.Dict md) /\
    dict_get "original_filename" md = Some (Json.Str (upload_filename (form_file rq))) /\
    dict_get "stored_filename" md = Some (Json.Str (res_filename r)) /\
    dict_get "upload_timestamp" md = Some (Json.Str (res_uploaded_at r)) /\
    dict_get "flight_id" md = Some (Json.of_opt_str (form_flight_id rq)) /\
    dict_get "file_size" md = Some (Json.Int (Z.of_nat (String.length content))) /\
    dict_get "image_path" md = Some (Json.Str (res_path r)) /\
    dict_get "metadata_file" md = Some (Json.Str (res_metadata_file r)).
Proof.
  intros Hid Hrun date folder. unfold upload_image in Hrun.
  destruct (upload_image_try rq w) as [[r'|e] w1] eqn:Htry; [|done].
  injection Hrun as -> ->. rewrite upload_image_try_split in Htry.
  apply bind_run in Htry as [(stored & w2 & Hstore & Hfinish)|(e & _ & [=])].
  destruct stored as [[[[filename image_path] flight_folder] metadata_file] metadata].
  apply upload_image_store_saves in Hstore as Hsaves.
  destruct Hsaves as (content & uploaded & camera & w7 & Hcontent & Hsave).
  apply upload_image_store_run in Hstore as (_ & _ & -> & -> & -> & Hfile & _).
  apply save_metadata_record in Hsave as (_ & -> & km & Hkm & Hrecord).
  unfold upload_image_finish in Hfinish.
  apply bind_run in Hfinish as [(u & w3 & Hlog & Hret)|(e & _ & [=])].
  injection Hret as <- <-.
  apply log_upload_run in Hlog as (_ & [Hg Hkeep] & _).
  set (p := planned_path (form_flight_id rq) (upload_filename (form_file rq)) w) in *.
  subst metadata_file.
  assert (Fs.resolve (files w3) (metadata_path p) = inr km) as Hkm3
    by apply (resolve_grows _ _ _ _ Hg Hkm).
  match type of Hrecord with
  | _ = Some (Fs.File (Fs.Document (Json.Dict ?d) _)) => set (md := d) in *
  end.
  assert (files w3 !! km = Some (Fs.File (Fs.Document (Json.Dict md) ""))) as Hrecord3.
  { destruct (Hkeep _ _ Hrecord) as [Hsame|Hlog]; [done|].
    by destruct (log_is_not_the_record _ _ _ _ _ _ _ Hid Hkm3 Hlog). }
  exists content, md. split; [done|]. split.
  - unfold get_metadata. cbv zeta.
    change (Path.join4 IMAGE_DIR date folder _) with p.
    rewrite (path_exists_file _ _ km) by (done || (unfold Fs.is_file; by rewrite Hrecord3)).
    cbn [negb]. by rewrite (read_file_at _ _ _ _ Hkm3 Hrecord3).
  - repeat split; reflexivity.
Qed.

Lemma upload_then_get_metadata_round_trip_witness :
  single_name (Some "X") /\
  exists md,
    get_metadata "2025-03-09" "flight_X" "20250309_140507_250.jpg"
      (files (upload_image (plain_form (jpeg_file "a.jpg" "bytes") (Some "X") None)
                           (quiet_world fresh_store frozen_clock)).2) = Ok (Json.Dict md) /\
    dict_get "file_size" md = Some (Json.Int 5).
Proof.
  assert (single_name (Some "X")) as Hid by (by intros id [= <-]).
  split; [exact Hid|].
  edestruct (upload_then_get_metadata_round_trip
               (plain_form (jpeg_file "a.jpg" "bytes") (Some "X") None)
               (quiet_world fresh_store frozen_clock))
    as (content & md & Hread & Hget & _ & _ & _ & _ & Hsize & _).
  - exact Hid.
  - apply upload_image_pair. vm_compute. reflexivity.
  - injection Hread as <-. exists md. split; [exact Hget|exact Hsize].
Defined.

(** ** An uploaded image, in the listings and the statistics *)

Lemma walk_plain_dirs_inv t cur comps name k :
  Forall plain comps -> plain name ->
  foldl (enter_from t) (inr cur) (comps ++ [name]) = inr k ->
  Fs.dirs_along t cur comps = true.
Proof.
  intros Hplain Hname. revert cur.
  induction Hplain as [|c comps Hc _ IH]; intros cur; simpl.
  - rewrite enter_plain by done. by destruct (Fs.is_dir t cur).
  - rewrite enter_plain by done. destruct (Fs.is_dir t cur); [|by rewrite walk_from_error].
    apply IH.
Qed.

Lemma resolve_path_from_dirs t first dirs name k :
  plain first -> Forall plain dirs -> plain name ->
  Fs.resolve t (path_from first (dirs ++ [name])) = inr k ->
  Fs.dirs_along t [first] dirs = true.
Proof.
  intros Hfirst Hdirs Hname. unfold Fs.resolve.
  destruct (path_from first (dirs ++ [name])) eqn:Hpath.
  { apply path_from_not_empty in Hpath; [done|apply Hfirst]. }
  rewrite <- Hpath, split_path_from.
  - rewrite (split_no_char _ first) by apply Hfirst.
    unfold Fs.walk_to. cbn [app foldl]. rewrite enter_plain by done. cbn [Fs.is_dir app].
    apply walk_plain_dirs_inv; done.
  - apply Forall_app. split; [|by repeat constructor; apply Hname].
    eapply Forall_impl; [done|]. by intros x [? _].
Qed.

Lemma walked_files_complete t rest name d :
  Fs.dirs_along t [IMAGE_DIR] rest = true ->
  t !! (IMAGE_DIR :: rest ++ [name])%list = Some (Fs.File d) ->
  (foldl Path.join IMAGE_DIR rest, name) ∈ walked_files t.
Proof.
  intros Hdirs Hfile.
  assert (Fs.is_dir t [IMAGE_DIR] = true) as Hroot.
  { destruct rest; cbn [Fs.dirs_along] in Hdirs; by apply andb_prop in Hdirs as [? _]. }
  unfold walked_files, Fs.walk. rewrite resolve_image_dir, Hroot.
  apply list_elem_of_In, in_flat_map.
  exists (foldl Path.join IMAGE_DIR rest,
          Fs.dir_names t ([IMAGE_DIR] ++ rest), Fs.file_names t ([IMAGE_DIR] ++ rest)).
  split.
  - apply in_map_iff. exists rest. split; [done|].
    apply list_elem_of_In. destruct rest as [|c rest]; [by left|right].
    by apply subdirs_complete.
  - apply in_map_iff. exists name. split; [done|].
    apply list_elem_of_In, elem_of_file_names. eauto.
Qed.

(** Where a successful upload leaves the image: in the folder of the
    flight, in the directory of the date, below the image root. *)
Lemma uploaded_image_in_tree rq w r w' :
  single_name (form_flight_id rq) ->
  upload_image rq w = (Ok r, w') ->
  let date := planned_date w in
  let folder := planned_folder (form_flight_id rq) (clock w (ticks w)) in
  Forall plain [date; folder; res_filename r] /\
  Fs.dirs_along (files w') [IMAGE_DIR] [date; folder] = true /\
  exists content,
    upload_read (form_file rq) = inr content /\
    files w' !! [IMAGE_DIR; date; folder; res_filename r]
    = Some (Fs.File (Fs.Bytes content)).
Proof.
  intros Hid Hrun date folder. unfold upload_image in Hrun.
  destruct (upload_image_try rq w) as [[r'|e] w1] eqn:Htry; [|done].
  injection Hrun as -> ->. rewrite upload_image_try_split in Htry.
  apply bind_run in Htry as [(stored & w2 & Hstore & Hfinish)|(e & _ & [=])].
  destruct stored as [[[[filename image_path] flight_folder] metadata_file] metadata].
  apply upload_image_store_run in Hstore
    as (_ & _ & -> & -> & -> & -> & _ & content & Hcontent & kp & Hkp & Hfile & Himage).
  unfold upload_image_finish in Hfinish.
  apply bind_run in Hfinish as [(u & w3 & Hlog & Hret)|(e & _ & [=])].
  injection Hret as <- <-. cbn [res_filename].
  apply log_upload_run in Hlog as (_ & [Hg Hkeep] & _).
  set (p := planned_path (form_flight_id rq) (upload_filename (form_file rq)) w) in *.
  set (name := planned_name (upload_filename (form_file rq)) w) in *.
  assert (files w2 !! kp = Some (Fs.File (Fs.Bytes content))) as Hbytes.
  { destruct Himage as [Hbytes|Hrecord]; [done|].
    by destruct (record_is_not_the_image _ _ _ _ _ _ Hid Hkp Hrecord). }
  assert (Fs.resolve (files w3) p = inr kp) as Hkp3 by apply (resolve_grows _ _ _ _ Hg Hkp).
  assert (files w3 !! kp = Some (Fs.File (Fs.Bytes content))) as Hbytes3.
  { destruct (Hkeep _ _ Hbytes) as [Hsame|Hlog]; [done|].
    by destruct (log_is_not_the_image _ _ _ _ _ _ _ Hid Hkp3 Hlog). }
  assert (Forall plain [date; folder; name]) as Hplain.
  { apply Forall_cons. split; [apply named_plain, named_date|].
    apply Forall_cons. split; [by apply named_plain, named_folder|].
    apply Forall_cons. split; [apply named_plain, named_stored_name|constructor]. }
  unfold p in Hkp3. rewrite planned_path_form in Hkp3 by done. fold date folder name in Hkp3.
  split; [done|]. split.
  - apply Forall_cons in Hplain as [Hd Hplain]. apply Forall_cons in Hplain as [Hf Hplain].
    apply Forall_inv in Hplain.
    apply (resolve_path_from_dirs _ IMAGE_DIR [date; folder] name kp);
      [apply plain_image_dir| |done|done].
    apply Forall_cons. split; [done|]. apply Forall_cons. split; [done|constructor].
  - exists content. split; [done|].
    apply resolve_path_from in Hkp3; [|apply plain_image_dir|done]. by subst kp.
Qed.

Lemma startswith_append p s : Str.startswith p (p +:+ s) = true.
Proof.
  induction p as [|c p IH]; [done|]. rewrite append_cons. simpl. by rewrite Ascii.eqb_refl.
Qed.

Lemma contains_prefix p s : Str.contains p (p +:+ s) = true.
Proof.
  destruct (p +:+ s) eqn:Hps; simpl; rewrite <- Hps, startswith_append; done.
Qed.

Lemma planned_folder_marked flight_id t0 :
  Str.contains "flight_" (planned_folder flight_id t0) = true.
Proof. unfold planned_folder. destruct (truthy flight_id); apply contains_prefix. Qed.

Lemma uploaded_image_is_walked rq w r w' :
  single_name (form_flight_id rq) ->
  upload_image rq w = (Ok r, w') ->
  let date := planned_date w in
  let folder := planned_folder (form_flight_id rq) (clock w (ticks w)) in
  (foldl Path.join IMAGE_DIR [date; folder], res_filename r) ∈ walked_files (files w').
Proof.
  intros Hid Hrun date folder.
  destruct (uploaded_image_in_tree rq w r w' Hid Hrun) as (_ & Hdirs & content & _ & Hfile).
  by apply (walked_files_complete _ [date; folder] _ (Fs.Bytes content)).
Qed.

(** X11: an image uploaded with success, into a flight that is a
    single name, is in the listing of all images from then on, under
    its stored name, with the path of its date, folder and name, in
    which every backslash is turned into a slash, and with the flight
    of its folder. *)
Theorem uploaded_image_is_listed
    (rq : upload_form) (w : world) (r : upload_result) (w' : world) :
  single_name (form_flight_id rq) ->
  upload_image rq w = (Ok r, w') ->
  let date := planned_date w in
  let folder := planned_folder (form_flight_id rq) (clock w (ticks w)) in
  exists total images,
    list_images None None false (files w') = Ok (FullListing total images) /\
    {| img_filename := res_filename r;
       img_path := Str.replace "\" "/" (date +:+ "/" +:+ folder +:+ "/" +:+ res_filename r);
       img_flight_id := Some (flight_of folder) |} ∈ images.
Proof.
  intros Hid Hrun date folder.
  pose proof (uploaded_image_is_walked rq w r w' Hid Hrun) as Hin.
  destruct (uploaded_image_in_tree rq w r w' Hid Hrun) as (Hplain & _).
  apply Forall_cons in Hplain as [Hd Hplain]. apply Forall_cons in Hplain as [Hf Hplain].
  apply Forall_inv in Hplain. fold date folder in Hin, Hd, Hf.
  assert (Forall plain [date; folder]) as Hrest.
  { apply Forall_cons. split; [done|]. apply Forall_cons. split; [done|constructor]. }
  unfold list_images. cbv zeta. cbn [truthy].
  set (records := map _ (walked_files (files w'))).
  assert ({| img_filename := res_filename r;
             img_path := Str.replace "\" "/"
                           (date +:+ "/" +:+ folder +:+ "/" +:+ res_filename r);
             img_flight_id := Some (flight_of folder) |} ∈ records) as Hrecord.
  { unfold records. apply list_elem_of_fmap.
    exists (foldl Path.join IMAGE_DIR [date; folder], res_filename r). split; [|done].
    unfold image_of_walk. cbv zeta.
    rewrite (listing_folder_walked [date; folder]) by done.
    rewrite (relpath_walked [date; folder]) by done.
    change (default "" (last [date; folder])) with folder.
    assert (Str.contains "flight_" folder = true) as -> by apply planned_folder_marked.
    done. }
  destruct records as [|first more]; [by apply elem_of_nil in Hrecord|].
  eexists _, _. split; [reflexivity|done].
Qed.

Lemma uploaded_image_is_listed_witness :
  single_name (Some "X") /\
  exists total images,
    list_images None None false
      (files (upload_image (plain_form (jpeg_file "a.jpg" "bytes") (Some "X") None)
                           (quiet_world fresh_store frozen_clock)).2)
    = Ok (FullListing total images) /\
    {| img_filename := "20250309_140507_250.jpg";
       img_path := "2025-03-09/flight_X/20250309_140507_250.jpg";
       img_flight_id := Some "X" |} ∈ images.
Proof.
  assert (single_name (Some "X")) as Hid by (by intros id [= <-]).
  split; [exact Hid|].
  apply (uploaded_image_is_listed
           (plain_form (jpeg_file "a.jpg" "bytes") (Some "X") None)
           (quiet_world fresh_store frozen_clock)
           {| res_filename := "20250309_140507_250.jpg"; res_status := "success";
              res_path := "images/2025-03-09/flight_X/20250309_140507_250.jpg";
              res_metadata_file := "metadata/2025-03-09/flight_X/20250309_140507_250.json";
              res_flight_id := "X"; res_uploaded_at := "2025-03-09T14:05:07.250000" |}).
  - exact Hid.
  - apply upload_image_pair. vm_compute. reflexivity.
Defined.

Lemma filter_length_elem {A} (P : A -> Prop) `{!forall x, Decision (P x)} (l : list A) x :
  x ∈ l -> P x -> 1 <= length (filter P l).
Proof.
  intros Hin Hx. assert (x ∈ filter P l) as Hfound by by apply list_elem_of_filter.
  destruct (filter P l); [by apply elem_of_nil in Hfound|simpl; lia].
Qed.

(** X12: an image uploaded with success, into a flight that is a
    single name and a store of valid names, is counted by the
    statistics from then on: they are answered, with at least one
    image in all and at least one for what the folder of the upload
    gives as its flight. *)
Theorem uploaded_image_is_counted
    (rq : upload_form) (w : world) (r : upload_result) (w' : world) :
  single_name (form_flight_id rq) ->
  valid_names (files w) ->
  upload_image rq w = (Ok r, w') ->
  let folder := planned_folder (form_flight_id rq) (clock w (ticks w)) in
  exists st n,
    get_stats w' = (Ok st, tick w') /\
    1 <= total_images st /\
    images_per_flight st !! flight_of folder = Some n /\ 1 <= n.
Proof.
  intros Hid Hvalid Hrun folder.
  pose proof (uploaded_image_is_walked rq w r w' Hid Hrun) as Hin. cbv zeta in Hin.
  destruct (uploaded_image_in_tree rq w r w' Hid Hrun) as (Hplain & _).
  apply Forall_cons in Hplain as [Hd Hplain]. apply Forall_cons in Hplain as [Hf Hplain].
  apply Forall_inv in Hplain. fold folder in Hin, Hf.
  assert (valid_names (files w')) as Hvalid'.
  { apply upload_image_grows in Hrun as [_ Hg]. by eapply grows_valid_names. }
  destruct (get_stats_total w' Hvalid') as [st Hstats]. exists st.
  pose proof Hstats as Hanswer. unfold get_stats in Hstats.
  destruct (count_files _ _ tally0 _) as [e|acc] eqn:Hcount; [done|].
  injection Hstats as <-.
  apply count_files_flights in Hcount as Hflights. destruct Hflights as [_ Hflights].
  apply count_files_tally in Hcount as [Himages _].
  specialize (Hflights (flight_of folder)). cbn [tally0 tally_flights] in Hflights.
  rewrite lookup_empty in Hflights. cbn [default from_option] in Hflights.
  set (e := (foldl Path.join IMAGE_DIR [planned_date w; folder], res_filename r)) in *.
  assert (counted_for (flight_of folder) e = true) as Hcounted.
  { unfold counted_for, in_flight, e. cbn [fst snd].
    rewrite (stats_folder_walked [planned_date w; folder]).
    - change (default IMAGE_DIR (last [planned_date w; folder])) with folder.
      unfold folder at 1. rewrite planned_folder_marked. by rewrite bool_decide_eq_true_2.
    - apply Forall_cons. split; [done|]. apply Forall_cons. split; [done|constructor].
    - done. }
  pose proof (filter_length_elem (fun e => counted_for (flight_of folder) e = true)
                _ e Hin Hcounted) as Hsome.
  assert (1 <= length (walked_files (files w'))) as Hany.
  { destruct (walked_files (files w')); [by apply elem_of_nil in Hin|simpl; lia]. }
  cbn [images_per_flight total_images tally0 tally_images] in *.
  destruct (tally_flights acc !! flight_of folder) as [n|] eqn:Hn.
  - exists n. split; [exact Hanswer|]. split; [lia|]. split; [done|].
    simpl in Hflights. lia.
  - simpl in Hflights. lia.
Qed.

Lemma uploaded_image_is_counted_witness :
  exists st n,
    get_stats store_of_flight_flight_7 = (Ok st, tick store_of_flight_flight_7) /\
    images_per_flight st !! "7" = Some n.
Proof.
  edestruct (uploaded_image_is_counted
               (plain_form (jpeg_file "a.jpg" "bytes") (Some "flight_7") None)
               (quiet_world fresh_store frozen_clock))
    as (st & n & Hstats & _ & Hn & _).
  - by intros id [= <-].
  - apply fresh_store_valid_names.
  - apply upload_image_pair. vm_compute. reflexivity.
  - exists st, n. split; [exact Hstats|exact Hn].
Defined.

(** ** The listing of flights *)

Lemma flights_of_date_total t date_folder date_path folders :
  exists found, flights_of_date t date_folder date_path folders = inr found.
Proof.
  induction folders as [|folder rest [more IH]]; cbn [flights_of_date]; [by eauto|].
  destruct (Fs.path_isdir t _ && Str.contains "flight_" folder) eqn:Hflight; [|by eauto].
  apply andb_prop in Hflight as [Hdir _].
  apply listdir_isdir in Hdir as [names ->]. rewrite IH. eauto.
Qed.

Lemma flights_of_dates_total t date_folders :
  exists found, flights_of_dates t date_folders = inr found.
Proof.
  induction date_folders as [|date_folder rest [more IH]]; cbn [flights_of_dates]; [by eauto|].
  rewrite IH. destruct (Fs.path_isdir t _) eqn:Hdir; [|by eauto].
  apply listdir_isdir in Hdir as [folders ->].
  destruct (flights_of_date_total t date_folder (Path.join IMAGE_DIR date_folder) folders)
    as [found ->]. eauto.
Qed.

Lemma flights_of_date_elem t date_folder date_path folders found folder :
  flights_of_date t date_folder date_path folders = inr found ->
  folder ∈ folders ->
  Fs.path_isdir t (Path.join date_path folder) = true ->
  Str.contains "flight_" folder = true ->
  exists names,
    Fs.listdir t (Path.join date_path folder) = inr names /\
    {| fl_date := date_folder;
       fl_flight_id := flight_of folder;
       fl_path := date_folder +:+ "/" +:+ folder;
       fl_image_count :=
         length (filter (fun f => Fs.path_isfile t (Path.join (Path.join date_path folder) f)
                                  = true) names) |} ∈ found.
Proof.
  intros Hfound Hin Hdir Hmarked. revert found Hfound.
  induction folders as [|other rest IH]; intros found; [by apply elem_of_nil in Hin|].
  cbn [flights_of_date]. apply elem_of_cons in Hin as [<-|Hin].
  - rewrite Hdir, Hmarked. cbn [andb].
    destruct (Fs.listdir t (Path.join date_path folder)) as [e|names]; [done|].
    destruct (flights_of_date t date_folder date_path rest) as [e|more]; [done|].
    intros [= <-]. exists names. split; [done|]. by left.
  - destruct (Fs.path_isdir t (Path.join date_path other) && Str.contains "flight_" other);
      [|by apply IH].
    destruct (Fs.listdir t (Path.join date_path other)) as [e|names']; [done|].
    destruct (flights_of_date t date_folder date_path rest) as [e|more]; [done|].
    intros [= <-]. destruct (IH Hin more eq_refl) as (names & Hnames & Hfl).
    exists names. split; [done|]. by right.
Qed.

Lemma flights_of_dates_elem t date_folders found date_folder folders here fl :
  flights_of_dates t date_folders = inr found ->
  date_folder ∈ date_folders ->
  Fs.path_isdir t (Path.join IMAGE_DIR date_folder) = true ->
  Fs.listdir t (Path.join IMAGE_DIR date_folder) = inr folders ->
  flights_of_date t date_folder (Path.join IMAGE_DIR date_folder) folders = inr here ->
  fl ∈ here -> fl ∈ found.
Proof.
  intros Hfound Hin Hdir Hfolders Hhere Hfl. revert found Hfound.
  induction date_folders as [|other rest IH]; intros found; [by apply elem_of_nil in Hin|].
  cbn [flights_of_dates]. apply elem_of_cons in Hin as [<-|Hin].
  - rewrite Hdir, Hfolders, Hhere.
    destruct (flights_of_dates t rest) as [e|more]; [done|].
    intros [= <-]. apply elem_of_app. by left.
  - match goal with
    | |- context [if ?c then ?a else ?b] => destruct (if c then a else b) as [e|l]
    end; [done|].
    destruct (flights_of_dates t rest) as [e|more]; [done|].
    intros [= <-]. apply elem_of_app. right. by apply IH.
Qed.

Lemma listdir_dir t p k :
  Fs.resolve t p = inr k -> Fs.is_dir t k = true ->
  Fs.path_isdir t p = true /\ Fs.listdir t p = inr (map fst (Fs.children t k)).
Proof. intros Hres Hdir. unfold Fs.path_isdir, Fs.listdir. by rewrite Hres, Hdir. Qed.

Lemma elem_of_listing t k name n :
  t !! (k ++ [name])%list = Some n -> name ∈ map fst (Fs.children t k).
Proof.
  intros Hk. apply list_elem_of_fmap. exists (name, n). split; [done|].
  by apply elem_of_children.
Qed.

Lemma is_dir_lookup t k c : Fs.is_dir t (k ++ [c]) = true -> t !! (k ++ [c])%list = Some Fs.Dir.
Proof.
  unfold Fs.is_dir. destruct (k ++ [c])%list eqn:Hk; [by apply app_eq_nil in Hk as [_ ?]|].
  by destruct (t !! _) as [[]|].
Qed.

(** X13: after an upload that succeeds, into a flight that is a single
    name, the listing of flights is answered and has the folder of the
    upload under its date, with what the folder gives as its flight and
    a count of at least one image. *)
Theorem uploaded_flight_is_listed
    (rq : upload_form) (w : world) (r : upload_result) (w' : world) :
  single_name (form_flight_id rq) ->
  upload_image rq w = (Ok r, w') ->
  let date := planned_date w in
  let folder := planned_folder (form_flight_id rq) (clock w (ticks w)) in
  exists total flights count,
    list_flights (files w') = Ok (total, flights) /\
    total = length flights /\
    {| fl_date := date; fl_flight_id := flight_of folder;
       fl_path := date +:+ "/" +:+ folder; fl_image_count := count |} ∈ flights /\
    1 <= count.
Proof.
  intros Hid Hrun date folder.
  destruct (uploaded_image_in_tree rq w r w' Hid Hrun)
    as (Hplain & Hdirs & content & _ & Hfile).
  fold date folder in Hplain, Hdirs, Hfile. set (t := files w') in *.
  set (name := res_filename r) in *.
  apply Forall_cons in Hplain as [Hd Hplain]. apply Forall_cons in Hplain as [Hf Hplain].
  apply Forall_inv in Hplain.
  cbn [Fs.dirs_along app] in Hdirs.
  apply andb_prop in Hdirs as [Hroot Hdirs]. apply andb_prop in Hdirs as [Hdate Hdirs].
  apply andb_prop in Hdirs as [Hfolder _].
  assert (Fs.resolve t (Path.join IMAGE_DIR date) = inr [IMAGE_DIR; date]) as Hrdate.
  { apply (walked_file_resolves t [] date); [constructor|done|].
    cbn [Fs.dirs_along]. by rewrite Hroot. }
  assert (Fs.resolve t (Path.join (Path.join IMAGE_DIR date) folder)
          = inr [IMAGE_DIR; date; folder]) as Hrfolder.
  { apply (walked_file_resolves t [date] folder); [|done|].
    - apply Forall_cons. split; [done|constructor].
    - cbn [Fs.dirs_along app]. by rewrite Hroot, Hdate. }
  assert (Fs.resolve t (Path.join (Path.join (Path.join IMAGE_DIR date) folder) name)
          = inr [IMAGE_DIR; date; folder; name]) as Hrname.
  { apply (walked_file_resolves t [date; folder] name); [|done|].
    - apply Forall_cons. split; [done|]. apply Forall_cons. split; [done|constructor].
    - cbn [Fs.dirs_along app]. by rewrite Hroot, Hdate, Hfolder. }
  destruct (listdir_dir t _ _ (resolve_image_dir t) Hroot) as [_ Hdates].
  destruct (listdir_dir t _ _ Hrdate Hdate) as [Hisdate Hfolders].
  destruct (listdir_dir t _ _ Hrfolder Hfolder) as [Hisfolder Hnames].
  destruct (flights_of_dates_total t (map fst (Fs.children t [IMAGE_DIR]))) as [found Hfound].
  destruct (flights_of_date_total t date (Path.join IMAGE_DIR date)
              (map fst (Fs.children t [IMAGE_DIR; date]))) as [here Hhere].
  destruct (flights_of_date_elem _ _ _ _ _ folder Hhere) as (names & Hnames' & Hfl);
    [|done|apply planned_folder_marked|].
  { apply (elem_of_listing t [IMAGE_DIR; date] folder Fs.Dir).
    by apply (is_dir_lookup t [IMAGE_DIR; date] folder). }
  rewrite Hnames in Hnames'. injection Hnames' as <-.
  match type of Hfl with
  | ?fl ∈ _ => assert (fl ∈ found) as Hall
  end.
  { eapply (flights_of_dates_elem t _ found date _ here);
      [exact Hfound| |exact Hisdate|exact Hfolders|exact Hhere|exact Hfl].
    apply (elem_of_listing t [IMAGE_DIR] date Fs.Dir).
    by apply (is_dir_lookup t [IMAGE_DIR] date). }
  unfold list_flights. rewrite Hdates, Hfound.
  destruct found as [|first more]; [by apply elem_of_nil in Hall|].
  eexists _, _, _. split; [reflexivity|]. split; [done|]. split; [exact Hall|].
  apply (filter_length_elem _ _ name).
  - by apply (elem_of_listing t [IMAGE_DIR; date; folder] name (Fs.File (Fs.Bytes content))).
  - unfold Fs.path_isfile. rewrite Hrname. unfold Fs.is_file. by rewrite Hfile.
Qed.

Lemma uploaded_flight_is_listed_witness :
  exists total flights count,
    list_flights (files store_of_flight_flight_7) = Ok (total, flights) /\
    {| fl_date := "2025-03-09"; fl_flight_id := "7";
       fl_path := "2025-03-09/flight_flight_7"; fl_image_count := count |} ∈ flights.
Proof.
  edestruct (uploaded_flight_is_listed
               (plain_form (jpeg_file "a.jpg" "bytes") (Some "flight_7") None)
               (quiet_world fresh_store frozen_clock))
    as (total & flights & count & Hlist & _ & Hin & _).
  - by intros id [= <-].
  - apply upload_image_pair. vm_compute. reflexivity.
  - exists total, flights, count. split; [exact Hlist|exact Hin].
Defined.

Lemma flights_of_date_records t date_folder folders found :
  flights_of_date t date_folder (Path.join IMAGE_DIR date_folder) folders = inr found ->
  Forall (flight_record t) found.
Proof.
  revert found. induction folders as [|folder rest IH]; intros found; cbn [flights_of_date].
  - intros [= <-]. constructor.
  - destruct (Fs.path_isdir t _ && Str.contains "flight_" folder) eqn:Hflight; [|apply IH].
    apply andb_prop in Hflight as [Hdir Hmarked].
    destruct (Fs.listdir t _) as [e|names] eqn:Hnames; [done|].
    destruct (flights_of_date t date_folder _ rest) as [e|more]; [done|].
    intros [= <-]. constructor; [|by apply IH].
    exists folder, names. cbn [fl_date fl_path fl_flight_id fl_image_count]. done.
Qed.

Lemma flights_of_dates_records t date_folders found :
  flights_of_dates t date_folders = inr found -> Forall (flight_record t) found.
Proof.
  revert found. induction date_folders as [|date_folder rest IH]; intros found;
    cbn [flights_of_dates].
  - intros [= <-]. constructor.
  - destruct (Fs.path_isdir t _).
    + destruct (Fs.listdir t _) as [e|folders]; [done|].
      destruct (flights_of_date t date_folder _ folders) as [e|here] eqn:Hhere; [done|].
      destruct (flights_of_dates t rest) as [e|more]; [done|].
      intros [= <-]. apply Forall_app. split; [|by apply IH].
      by eapply flights_of_date_records.
    + destruct (flights_of_dates t rest) as [e|more]; [done|].
      intros [= <-]. by apply IH.
Qed.

(** X14: the listing of flights is answered whenever the image root is
    a directory, with status 404 when it finds no flight, and fails
    with an exception that no handler catches when the root is not
    one.  Its records are the directories two levels below the root
    whose names have [flight_] in them, each with the number of the
    files it holds, which can be none. *)
Theorem list_flights_answers (t : Fs.tree) :
  (Fs.path_isdir t IMAGE_DIR = true ->
   match list_flights t with
   | Ok (total, flights) =>
       total = length flights /\ flights <> [] /\ Forall (flight_record t) flights
   | HTTPException code detail => code = 404 /\ detail = "No flights found"
   | Uncaught _ => False
   end) /\
  (Fs.path_isdir t IMAGE_DIR = false ->
   exists e, list_flights t = Uncaught (OSError e IMAGE_DIR)).
Proof.
  unfold list_flights. split; intros Hroot.
  - apply listdir_isdir in Hroot as [date_folders ->].
    destruct (flights_of_dates_total t date_folders) as [found Hfound]. rewrite Hfound.
    apply flights_of_dates_records in Hfound.
    destruct found as [|first more]; done.
  - unfold Fs.path_isdir in Hroot. unfold Fs.listdir.
    destruct (Fs.resolve t IMAGE_DIR) as [e|k]; [by eauto|]. rewrite Hroot. eauto.
Qed.

Lemma list_flights_answers_witness :
  list_flights fresh_store = HTTPException 404 "No flights found" /\
  exists e, list_flights ∅ = Uncaught (OSError e IMAGE_DIR).
Proof.
  destruct (list_flights_answers fresh_store) as [Hdir _].
  destruct (list_flights_answers ∅) as [_ Hnone].
  split.
  - specialize (Hdir eq_refl).
    destruct (list_flights fresh_store) as [[total flights]|code detail|e] eqn:Hlist.
    + vm_compute in Hlist. discriminate Hlist.
    + by destruct Hdir as [-> ->].
    + destruct Hdir.
  - apply Hnone. reflexivity.
Defined.

(** ** The log of uploads *)

(** X15: a call of [log_upload] that returns has appended one line to
    the log of the day and done nothing else: the log holds what it
    held before, or nothing if it was not there, followed by the time,
    the flight, [N/A] when there is none, and the stored name; every
    other entry of the store is as it was.  The day of the file is that
    of a first reading of the clock, the time of the line that of a
    second. *)
Theorem log_upload_appends_one_line
    (filename : string) (flight_id : option string) (w w' : world) :
  log_upload filename flight_id w = (Return tt, w') ->
  let log := log_file_of (clock w (ticks w)) in
  let line := Datetime.isoformat (clock w (S (ticks w))) +:+ " | Flight: " +:+
              or_else flight_id "N/A" +:+ " | Image: " +:+ filename +:+ newline in
  exists k,
    Fs.resolve (files w) log = inr k /\
    Fs.is_dir (files w) k = false /\
    files w'
    = <[k := Fs.File (Fs.extend (match files w !! k with
                                 | Some (Fs.File d) => d
                                 | _ => Fs.Bytes ""
                                 end) line)]> (files w) /\
    ticks w' = S (S (ticks w)).
Proof.
  remember (Return tt) as out eqn:Hout. intros H log line. unfold log_upload in H.
  tick H as today w1 Hnow.
  apply now_run in Hnow as ([= ->] & Hfiles1 & Hticks1 & (Hclock1 & _)).
  cbv zeta in H. fold (log_file_of (clock w (ticks w))) in H. fold log in H.
  advance H as f w2 Hopen; [|done].
  apply io_run in Hopen as (Hticks2 & (Hclock2 & _) & [(e & [=] & _)|(f' & [= <-] & Hopen)]).
  rewrite Hfiles1 in Hopen.
  tick H as t1 w3 Hnow.
  apply now_run in Hnow as ([= ->] & Hfiles3 & Hticks3 & _).
  apply io_run in H as (Hticks4 & _ & [(e & -> & _)|(u & _ & Happ)]); [done|].
  destruct u. rewrite Hfiles3 in Happ.
  rewrite Hclock2, Hclock1, Hticks2, Hticks1 in Happ. fold line in Happ.
  exists f. unfold Fs.open_append in Hopen.
  destruct (Fs.resolve (files w) log) as [e|k] eqn:Hres; [done|].
  destruct (Fs.is_dir (files w) k) eqn:Hdir; [done|].
  split; [by destruct (files w !! k); injection Hopen as <- _|].
  assert (ticks w' = S (S (ticks w))) as Hticks by congruence.
  unfold Fs.append in Happ.
  destruct (files w !! k) as [n|] eqn:Hk; injection Hopen as <- Hw2; rewrite <- Hw2 in Happ.
  - split; [done|]. split; [|done]. rewrite ?Hk in *.
    destruct n as [d|]; [by injection Happ as <-|].
    unfold Fs.is_dir in Hdir. rewrite Hk in Hdir. by destruct k.
  - split; [done|]. split; [|done]. rewrite ?Hk in *. rewrite lookup_insert_eq in Happ.
    injection Happ as <-. by rewrite insert_insert_eq.
Qed.

Lemma log_upload_appends_one_line_witness :
  exists k w',
    log_upload "a.jpg" None (quiet_world fresh_store frozen_clock) = (Return tt, w') /\
    files w' !! k
    = Some (Fs.File (Fs.Bytes ("2025-03-09T14:05:07.250000 | Flight: N/A | Image: a.jpg"
                               +:+ newline))).
Proof.
  edestruct (log_upload_appends_one_line "a.jpg" None (quiet_world fresh_store frozen_clock))
    as (k & Hres & _ & Hfiles & _).
  - apply run_pair. vm_compute. reflexivity.
  - eexists k, _. split; [apply run_pair; vm_compute; reflexivity|].
    rewrite Hfiles, lookup_insert_eq. vm_compute in Hres. injection Hres as <-.
    vm_compute. reflexivity.
Defined.

(** ** The folder of an upload *)

Lemma make_all_enters comps t cur t1 k t' :
  Forall (fun comp => Str.has_char Str.slash comp = false) comps -> Forall plain cur ->
  foldl make_from (inr (t, cur)) comps = inr (t1, k) ->
  grows t1 t' ->
  foldl (enter_from t') (inr cur) comps = inr k.
Proof.
  intros Hcomps. revert t cur.
  induction Hcomps as [|comp comps Hc Hcomps IH]; intros t cur Hcur; cbn [foldl make_from].
  - by intros [= <- <-].
  - destruct (Fs.make (t, cur) comp) as [e|[t2 cur2]] eqn:Hmake; [by rewrite make_from_error|].
    intros Hrest Hg1.
    pose proof (make_grows _ _ _ _ _ Hcur Hc Hmake) as (Hg & _ & Hcur2).
    pose proof (make_all_grows _ _ _ _ _ Hcomps Hcur2 Hrest) as [Hg2 _].
    assert (Fs.enter t' cur comp = inr cur2) as Henter.
    { unfold Fs.make in Hmake. unfold Fs.enter.
      destruct (Fs.is_dir t cur) eqn:Hdir; [|done].
      assert (grows t t') as Hgt.
      { eapply grows_trans; [exact Hg|]. eapply grows_trans; [exact Hg2|exact Hg1]. }
      rewrite (grows_is_dir _ _ _ Hgt Hdir).
      destruct (Fs.special comp); [by injection Hmake as _ <-|].
      destruct (bool_decide (comp = "..")); [by injection Hmake as _ <-|].
      by destruct (t !! (cur ++ [comp])%list); injection Hmake as _ <-. }
    cbn [enter_from]. rewrite Henter. by eapply IH.
Qed.

Lemma makedirs_isdir p t t' :
  Fs.makedirs p t = inr (tt, t') -> Fs.path_isdir t' p = true.
Proof.
  unfold Fs.makedirs, Fs.path_isdir, Fs.resolve. destruct p as [|c p]; [done|].
  match goal with
  | |- context [foldl ?f ?a ?l] => change (foldl f a l) with (foldl make_from a l)
  end.
  destruct (foldl make_from _ _) as [e|[t1 k]] eqn:Hfold; [done|].
  destruct (Fs.is_dir t1 k) eqn:Hdir; [|done]. intros [= <-].
  apply (make_all_enters _ _ _ _ _ t1) in Hfold;
    [|apply split_no_slash|constructor|apply grows_refl].
  unfold Fs.walk_to.
  match goal with
  | |- context [foldl ?f ?a ?l] => change (foldl f a l) with (foldl (enter_from t1) a l)
  end.
  by rewrite Hfold.
Qed.






(** ** What the answer of an upload points to *)

(** X17: the paths in the answer of an upload that succeeded are files
    of the store, whatever the flight asked for: the image in the
    folder that [get_timestamped_path] made, under the stored name, and
    the record at the path that [get_metadata] computes from it. *)
Theorem answered_paths_are_files
    (rq : upload_form) (w : world) (r : upload_result) (w' : world) :
  upload_image rq w = (Ok r, w') ->
  res_status r = "success" /\
  res_path r = Path.join (planned_dir (form_flight_id rq) w) (res_filename r) /\
  res_metadata_file r = metadata_path (res_path r) /\
  res_flight_id r
  = or_else (form_flight_id rq) (planned_folder (form_flight_id rq) (clock w (ticks w))) /\
  Fs.path_isfile (files w') (res_path r) = true /\
  Fs.path_isfile (files w') (res_metadata_file r) = true.
Proof.
  intros Hrun. unfold upload_image in Hrun.
  destruct (upload_image_try rq w) as [[r'|e] w1] eqn:Htry; [|done].
  injection Hrun as -> ->. rewrite upload_image_try_split in Htry.
  apply bind_run in Htry as [(stored & w2 & Hstore & Hfinish)|(e & _ & [=])].
  destruct stored as [[[[filename image_path] flight_folder] metadata_file] metadata].
  apply upload_image_store_run in Hstore
    as (_ & _ & -> & -> & -> & -> & Hrecord & content & _ & Himage).
  apply image_stored_isfile in Himage.
  unfold upload_image_finish in Hfinish.
  apply bind_run in Hfinish as [(u & w3 & Hlog & Hret)|(e & _ & [=])].
  injection Hret as <- <-. cbn [res_status res_path res_metadata_file res_flight_id res_filename].
  apply log_upload_run in Hlog as (_ & [Hg _] & _).
  split; [done|]. split; [done|]. split; [done|]. split; [done|].
  split; by eapply path_isfile_grows.
Qed.

Lemma answered_paths_are_files_witness :
  exists r,
    extensionless_upload.1 = Ok r /\
    Fs.path_isfile (files extensionless_upload.2) (res_metadata_file r) = true.
Proof.
  destruct extensionless_upload as [answer w'] eqn:Hrun.
  assert (exists r, answer = Ok r) as [r ->].
  { apply (f_equal fst) in Hrun. vm_compute in Hrun. subst answer. eauto. }
  exists r. split; [reflexivity|].
  apply (answered_paths_are_files _ _ r w' Hrun).
Defined.

Lemma get_timestamped_path_isdir flight_id w made w' :
  get_timestamped_path flight_id w = (Return made, w') ->
  Fs.path_isdir (files w') (planned_dir flight_id w) = true.
Proof.
  remember (Return made) as out eqn:Hout. intros Hrun. unfold get_timestamped_path in Hrun.
  tick Hrun as t0 w1 Hnow. apply now_run in Hnow as ([= ->] & Hfiles1 & _ & _).
  cbv zeta in Hrun. fold (planned_date w) (planned_folder flight_id (clock w (ticks w))) in Hrun.
  fold (planned_dir flight_id w) in Hrun.
  advance Hrun as u w2 Hmk; [|done].
  apply io_run in Hmk as (_ & _ & [(e & [=] & _)|(u' & _ & Hmk)]). destruct u'.
  injection Hrun as _ <-. by eapply makedirs_isdir.
Qed.

(** X18: an upload whose body cannot be read is answered with status
    500 and writes no file; when the folder of the flight could be
    made, the detail is the message of the failed read, and the folder
    stays in the store, empty if it was new. *)
Theorem unreadable_upload_writes_no_file (rq : upload_form) (w : world) (msg : string) :
  upload_read (form_file rq) = inl msg ->
  exists detail w',
    upload_image rq w = (HTTPException 500 ("Upload failed: " +:+ detail), w') /\
    same_files (files w) (files w') /\
    match (get_timestamped_path (form_flight_id rq) w).1 with
    | Return _ =>
        detail = msg /\
        Fs.path_isdir (files w') (planned_dir (form_flight_id rq) w) = true
    | Raise e => detail = str_exn e
    end.
Proof.
  intros Hread. unfold upload_image.
  destruct (upload_image_try rq w) as [out w1] eqn:Htry.
  unfold upload_image_try in Htry. cbv zeta in Htry.
  advance Htry as dirs w2 Hdirs.
  - rewrite Hdirs. cbn [fst].
    pose proof (get_timestamped_path_isdir _ _ _ _ Hdirs) as Hdir.
    apply get_timestamped_path_run in Hdirs as (_ & _ & _ & Hs & ->).
    advance Htry as filename w3 Hname; [|by apply generate_filename_run in Hname as ([=] & _)].
    apply generate_filename_run in Hname as (_ & Hfiles3 & _).
    advance Htry as content w4 Hcontent.
    + unfold read_upload in Hcontent. by rewrite Hread in Hcontent.
    + unfold read_upload in Hcontent. rewrite Hread in Hcontent.
      injection Hcontent as <- <-. rewrite <- Hfiles3 in Hs, Hdir.
      eexists _, _. split; [reflexivity|]. done.
  - rewrite Hdirs. cbn [fst].
    apply get_timestamped_path_run in Hdirs as (_ & _ & _ & Hs & _).
    eexists _, _. split; [reflexivity|]. done.
Qed.

Lemma unreadable_upload_writes_no_file_witness :
  exists w',
    upload_image (plain_form {| upload_filename := "a.jpg"; upload_content_type := None;
                                upload_read := inl "connection lost" |} (Some "X") None)
                 (quiet_world fresh_store frozen_clock)
    = (HTTPException 500 "Upload failed: connection lost", w') /\
    Fs.listdir (files w') "images/2025-03-09/flight_X" = inr [].
Proof.
  edestruct (unreadable_upload_writes_no_file
               (plain_form {| upload_filename := "a.jpg"; upload_content_type := None;
                              upload_read := inl "connection lost" |} (Some "X") None)
               (quiet_world fresh_store frozen_clock) "connection lost")
    as (detail & w' & Hrun & _ & _).
  - reflexivity.
  - exists w'. apply (f_equal snd) in Hrun as Hworld. cbn [snd] in Hworld. subst w'.
    split; [apply upload_image_pair|]; vm_compute; reflexivity.
Defined.

(** ** What a batch reports as stored *)

Lemma upload_batch_try_stored rq file w stored path w' :
  upload_batch_try rq file w = (Return (BatchSuccess stored path), w') ->
  stored = planned_name (upload_filename file) w /\
  path = Path.join (planned_dir (batch_flight_id rq) w) stored /\
  Fs.path_isfile (files w') path = true.
Proof.
  unfold upload_batch_try. cbv zeta.
  remember (Return (BatchSuccess stored path)) as out eqn:Hout. intros H.
  advance H as dirs w1 Hdirs; [|done].
  apply get_timestamped_path_run in Hdirs as (Hticks1 & Henv1 & _ & _ & ->).
  advance H as filename w2 Hname; [|done].
  apply generate_filename_run in Hname as ([= ->] & Hfiles2 & _ & _).
  destruct Henv1 as (Hclock1 & _). rewrite Hticks1, Hclock1 in H.
  fold (planned_name (upload_filename file) w) in H.
  set (name := planned_name (upload_filename file) w) in *.
  set (p := Path.join (planned_dir (batch_flight_id rq) w) name) in *.
  advance H as content w3 Hread; [|done].
  advance H as kp w4 Hopen; [|done].
  apply io_run in Hopen as (_ & _ & [(e & [=] & _)|(kp' & [= <-] & Hopen)]).
  apply open_write_run in Hopen as (Hres & Hnodir & Hw4 & Hg4).
  assert (Fs.resolve (files w4) p = inr kp) as Hres4
    by apply (resolve_grows _ _ _ _ Hg4 Hres).
  assert (Fs.path_isfile (files w4) p = true) as Hfile4.
  { unfold Fs.path_isfile. rewrite Hres4, Hw4. apply is_file_insert. }
  assert (Fs.is_dir (files w4) kp = false) as Hnodir4.
  { rewrite Hw4. by apply is_dir_insert_file. }
  advance H as u w5 Hwrite; [|done].
  apply io_run in Hwrite as (_ & _ & [(e & [=] & _)|(u' & _ & Hwrite)]).
  destruct u'. apply write_run in Hwrite.
  pose proof (grows_insert_file (files w4) kp (Fs.Bytes content) Hnodir4
                (resolve_plain_key _ _ _ Hres4)) as Hg5.
  rewrite <- Hwrite in Hg5.
  pose proof (path_isfile_grows _ _ _ Hg5 Hfile4) as Hfile5.
  tick H as uploaded w6 Hnow.
  apply now_run in Hnow as (_ & Hfiles6 & _ & _). rewrite <- Hfiles6 in Hfile5.
  advance H as saved w7 Hsave; [|done].
  apply save_metadata_run in Hsave as (_ & [Hg7 _] & _).
  pose proof (path_isfile_grows _ _ _ Hg7 Hfile5) as Hfile7.
  advance H as u' w8 Hlog; [|done].
  apply log_upload_run in Hlog as (_ & [Hg8 _] & _).
  pose proof (path_isfile_grows _ _ _ Hg8 Hfile7) as Hfile8.
  injection H as <- <-. injection Hout as Hstored Hpath. subst stored path. done.
Qed.

Lemma ends_with_char_split c a :
  Str.ends_with_char c a = true -> exists a', a = a' +:+ String c "".
Proof.
  induction a as [|x a IH]; [done|]. cbn [Str.ends_with_char]. destruct a as [|y a].
  - intros ->%Ascii.eqb_eq. by exists "".
  - intros [a' ->]%IH. by exists (String x a').
Qed.

Lemma basename_join a b :
  a <> "" -> Str.has_char Str.slash b = false -> Path.basename (Path.join a b) = b.
Proof.
  intros Ha Hb. unfold Path.join, Path.basename.
  rewrite startswith_slash_no_slash by done. destruct a as [|x a]; [done|].
  destruct (Str.ends_with_char Str.slash (String x a)) eqn:Hend.
  - apply ends_with_char_split in Hend as [a' ->].
    rewrite append_assoc. change (String Str.slash "" +:+ b) with (String Str.slash b).
    by rewrite rsplit_name.
  - change (String x a +:+ "/" +:+ b) with (String x a +:+ String Str.slash b).
    by rewrite rsplit_name.
Qed.

Lemma join_not_empty a b : b <> "" -> Path.join a b <> "".
Proof.
  intros Hb. unfold Path.join. destruct (Str.startswith "/" b); [done|].
  destruct a as [|x a]; [done|]. by destruct (Str.ends_with_char Str.slash (String x a)).
Qed.

Lemma planned_dir_not_empty flight_id w : planned_dir flight_id w <> "".
Proof.
  unfold planned_dir, Path.join3. apply join_not_empty.
  unfold planned_folder. by destruct (truthy flight_id).
Qed.

Lemma entry_stored_grows t t' entry : grows t t' -> entry_stored t entry -> entry_stored t' entry.
Proof.
  intros Hg. destruct entry as [stored path|name error]; [|done].
  intros [Hfile Hname]. split; [by eapply path_isfile_grows|done].
Qed.

Lemma upload_batch_loop_stored rq todo acc w results w' :
  upload_batch_loop rq todo acc w = (results, w') ->
  Forall (entry_stored (files w)) acc -> Forall (entry_stored (files w')) results.
Proof.
  revert acc w. induction todo as [|file rest IH]; intros acc w; cbn [upload_batch_loop].
  - by intros [= <- <-].
  - unfold upload_batch_step.
    destruct (upload_batch_try rq file w) as [[entry|e] w1] eqn:Htry;
      intros Hloop Hacc; apply (IH _ _ Hloop);
      apply upload_batch_try_grows in Htry as Hgrows; destruct Hgrows as [_ Hg];
      (apply Forall_app; split;
         [by eapply Forall_impl; [done|]; intros ?; apply entry_stored_grows|]);
      (apply Forall_cons; split; [|constructor]); [|done].
    destruct entry as [stored path|name error]; [|done].
    apply upload_batch_try_stored in Htry as (-> & -> & Hfile). split; [done|].
    apply basename_join; [apply planned_dir_not_empty|apply named_stored_name].
Qed.

(** X19: every file that a batch reports as stored is a file of the
    store when the batch is answered, under the stored name that the
    entry gives, whatever happened to the entries that followed it;
    the bytes may be those of a later entry of the same name. *)
Theorem batch_successes_are_stored (rq : batch_form) (w : world) :
  exists r w',
    upload_batch rq w = (Ok r, w') /\
    Forall (entry_stored (files w')) (batch_results r).
Proof.
  unfold upload_batch.
  destruct (upload_batch_loop rq (batch_files rq) [] w) as [results w'] eqn:Hloop.
  eexists _, _. split; [reflexivity|]. cbn [batch_results].
  by apply (upload_batch_loop_stored _ _ _ _ _ _ Hloop).
Qed.

(** ** Paths that leave the image root *)

(** X20: [get_image] does not keep the path it builds below the image
    root: called with [..] as the date, it finds and serves the file
    [b] of any directory [a] that lies beside the image root, the log
    of uploads for one, as an image. *)
Theorem get_image_is_not_confined (t : Fs.tree) (a b : string) (d : Fs.data) :
  plain a -> plain b ->
  Fs.is_dir t [IMAGE_DIR] = true -> Fs.is_dir t [a] = true ->
  t !! [a; b] = Some (Fs.File d) ->
  exists found, get_image ".." a b t = Ok found /\ served t found = inr d.
Proof.
  intros Ha Hb Hroot Hdir Hfile. unfold get_image. cbv zeta.
  assert (Path.join4 IMAGE_DIR ".." a b = path_from "images/.." [a; b]) as Hpath.
  { unfold Path.join4, Path.join3. change (Path.join IMAGE_DIR "..") with "images/..".
    apply (joins_path_from "images/.." [a; b]); [done|done|].
    apply Forall_cons. split; [done|]. apply Forall_cons. split; [done|constructor]. }
  assert (Fs.resolve t (Path.join4 IMAGE_DIR ".." a b) = inr [a; b]) as Hres.
  { rewrite Hpath. unfold Fs.resolve.
    destruct (path_from "images/.." [a; b]) eqn:Hp; [by apply path_from_not_empty in Hp|].
    rewrite <- Hp, split_path_from.
    2:{ apply Forall_cons. split; [apply Ha|]. apply Forall_cons. split; [apply Hb|constructor]. }
    change (Str.split Str.slash "images/..") with ["images"; ".."].
    unfold Fs.walk_to. cbn [app].
    match goal with
    | |- context [foldl ?f ?x ?l] => change (foldl f x l) with (foldl (enter_from t) x l)
    end.
    cbn [foldl enter_from].
    assert (Fs.enter t [] "images" = inr [IMAGE_DIR]) as -> by reflexivity.
    cbn [enter_from].
    assert (Fs.enter t [IMAGE_DIR] ".." = inr []) as ->.
    { unfold Fs.enter. by rewrite Hroot. }
    cbn [enter_from]. rewrite (enter_plain t [] a) by done. cbn [Fs.is_dir app enter_from].
    rewrite enter_plain by done. by rewrite Hdir. }
  rewrite (path_exists_file _ _ [a; b]) by (done || (unfold Fs.is_file; by rewrite Hfile)).
  cbn [negb]. eexists. split; [reflexivity|].
  unfold served. cbn [fr_path]. by eapply read_file_at.
Qed.

Lemma get_image_is_not_confined_witness :
  exists found d,
    get_image ".." "logs" "uploads_2025-03-09.log" (files store_of_flight_flight_7) = Ok found /\
    served (files store_of_flight_flight_7) found = inr d.
Proof.
  assert (exists d, files store_of_flight_flight_7 !! ["logs"; "uploads_2025-03-09.log"]
                    = Some (Fs.File d)) as [d Hd].
  { vm_compute. eauto. }
  destruct (get_image_is_not_confined (files store_of_flight_flight_7)
              "logs" "uploads_2025-03-09.log" d) as (found & Hget & Hserved).
  - by repeat split.
  - by repeat split.
  - vm_compute. reflexivity.
  - vm_compute. reflexivity.
  - exact Hd.
  - exists found, d. split; [exact Hget|exact Hserved].
Defined.

(** ** An uploaded image, in the listing of its date *)

Lemma images_of_flight_total t date date_path folder :
  exists found, images_of_flight t date date_path folder = inr found.
Proof.
  unfold images_of_flight. destruct (Fs.path_isdir t _) eqn:Hdir; [|by eauto].
  apply listdir_isdir in Hdir as [names ->]. eauto.
Qed.

Lemma images_of_date_total t flight_id date date_path folders :
  exists found, images_of_date t flight_id date date_path folders = inr found.
Proof.
  induction folders as [|folder rest [more IH]]; cbn [images_of_date]; [by eauto|].
  destruct (truthy flight_id && negb _); [by eauto|].
  destruct (images_of_flight_total t date date_path folder) as [here ->]. rewrite IH. eauto.
Qed.

Lemma images_of_date_elem t flight_id date date_path folders found folder here r :
  images_of_date t flight_id date date_path folders = inr found ->
  folder ∈ folders ->
  (truthy flight_id = true -> "flight_" +:+ default "" flight_id = folder) ->
  images_of_flight t date date_path folder = inr here ->
  r ∈ here -> r ∈ found.
Proof.
  intros Hfound Hin Hmatch Hhere Hr. revert found Hfound.
  induction folders as [|other rest IH]; intros found; [by apply elem_of_nil in Hin|].
  cbn [images_of_date]. apply elem_of_cons in Hin as [<-|Hin].
  - assert (truthy flight_id && negb (bool_decide ("flight_" +:+ default "" flight_id = folder))
            = false) as ->.
    { destruct (truthy flight_id); [|done]. by rewrite bool_decide_eq_true_2 by auto. }
    rewrite Hhere.
    destruct (images_of_date t flight_id date date_path rest) as [e|more]; [done|].
    intros [= <-]. apply elem_of_app. by left.
  - destruct (truthy flight_id && negb _); [by apply IH|].
    destruct (images_of_flight t date date_path other) as [e|there]; [done|].
    destruct (images_of_date t flight_id date date_path rest) as [e|more]; [done|].
    intros [= <-]. apply elem_of_app. right. by apply IH.
Qed.

(** X21: an image uploaded with success, into a flight that is a
    single name, is in the listing of its date, asked for with the
    flight of the upload or with none, with the path of its date,
    folder and stored name. *)
Theorem uploaded_image_is_listed_by_date
    (rq : upload_form) (w : world) (r : upload_result) (w' : world) (flight_id : option string) :
  single_name (form_flight_id rq) ->
  upload_image rq w = (Ok r, w') ->
  flight_id = form_flight_id rq \/ flight_id = None ->
  let date := planned_date w in
  let folder := planned_folder (form_flight_id rq) (clock w (ticks w)) in
  exists total images,
    list_images flight_id (Some date) false (files w') = Ok (FullListing total images) /\
    {| img_filename := res_filename r;
       img_path := date +:+ "/" +:+ folder +:+ "/" +:+ res_filename r;
       img_flight_id := Some (flight_of folder) |} ∈ images.
Proof.
  intros Hid Hrun Hfilter date folder.
  destruct (uploaded_image_in_tree rq w r w' Hid Hrun)
    as (Hplain & Hdirs & content & _ & Hfile).
  fold date folder in Hplain, Hdirs, Hfile. set (t := files w') in *.
  set (name := res_filename r) in *.
  apply Forall_cons in Hplain as [Hd Hplain]. apply Forall_cons in Hplain as [Hf Hplain].
  apply Forall_inv in Hplain.
  cbn [Fs.dirs_along app] in Hdirs.
  apply andb_prop in Hdirs as [Hroot Hdirs]. apply andb_prop in Hdirs as [Hdate Hdirs].
  apply andb_prop in Hdirs as [Hfolder _].
  assert (Fs.resolve t (Path.join IMAGE_DIR date) = inr [IMAGE_DIR; date]) as Hrdate.
  { apply (walked_file_resolves t [] date); [constructor|done|].
    cbn [Fs.dirs_along]. by rewrite Hroot. }
  assert (Fs.resolve t (Path.join (Path.join IMAGE_DIR date) folder)
          = inr [IMAGE_DIR; date; folder]) as Hrfolder.
  { apply (walked_file_resolves t [date] folder); [|done|].
    - apply Forall_cons. split; [done|constructor].
    - cbn [Fs.dirs_along app]. by rewrite Hroot, Hdate. }
  assert (Fs.resolve t (Path.join (Path.join (Path.join IMAGE_DIR date) folder) name)
          = inr [IMAGE_DIR; date; folder; name]) as Hrname.
  { apply (walked_file_resolves t [date; folder] name); [|done|].
    - apply Forall_cons. split; [done|]. apply Forall_cons. split; [done|constructor].
    - cbn [Fs.dirs_along app]. by rewrite Hroot, Hdate, Hfolder. }
  destruct (listdir_dir t _ _ Hrdate Hdate) as [Hisdate Hfolders].
  destruct (listdir_dir t _ _ Hrfolder Hfolder) as [Hisfolder Hnames].
  set (record := {| img_filename := name;
                    img_path := date +:+ "/" +:+ folder +:+ "/" +:+ name;
                    img_flight_id := Some (flight_of folder) |}).
  assert (exists here, images_of_flight t date (Path.join IMAGE_DIR date) folder = inr here /\
                       record ∈ here) as (here & Hhere & Hrecord).
  { unfold images_of_flight. rewrite Hisfolder, Hnames. eexists. split; [reflexivity|].
    apply list_elem_of_fmap. exists name. split; [done|].
    apply list_elem_of_filter. split.
    - unfold Fs.path_isfile. rewrite Hrname. unfold Fs.is_file. by rewrite Hfile.
    - by apply (elem_of_listing t [IMAGE_DIR; date; folder] name (Fs.File (Fs.Bytes content))). }
  destruct (images_of_date_total t flight_id date (Path.join IMAGE_DIR date)
              (map fst (Fs.children t [IMAGE_DIR; date]))) as [found Hfound].
  assert (record ∈ found) as Hin.
  { eapply (images_of_date_elem _ _ _ _ _ _ folder here); [exact Hfound| | |exact Hhere|done].
    - apply (elem_of_listing t [IMAGE_DIR; date] folder Fs.Dir).
      by apply (is_dir_lookup t [IMAGE_DIR; date] folder).
    - destruct Hfilter as [->| ->]; [|done]. unfold folder, planned_folder. by intros ->. }
  unfold list_images. cbv zeta.
  assert (truthy (Some date) = true) as ->.
  { destruct date eqn:Hdate'; [by destruct Hd as (_ & ? & _)|done]. }
  change (default "" (Some date)) with date.
  assert (Fs.path_exists t (Path.join IMAGE_DIR date) = true) as ->.
  { unfold Fs.path_exists, Fs.present. by rewrite Hrdate, Hdate. }
  cbn [negb]. rewrite Hfolders, Hfound.
  destruct found as [|first more]; [by apply elem_of_nil in Hin|].
  eexists _, _. split; [reflexivity|done].
Qed.

Lemma uploaded_image_is_listed_by_date_witness :
  exists total images,
    list_images (Some "X") (Some "2025-03-09") false
      (files (upload_image (plain_form (jpeg_file "a.jpg" "bytes") (Some "X") None)
                           (quiet_world fresh_store frozen_clock)).2)
    = Ok (FullListing total images) /\
    {| img_filename := "20250309_140507_250.jpg";
       img_path := "2025-03-09/flight_X/20250309_140507_250.jpg";
       img_flight_id := Some "X" |} ∈ images.
Proof.
  apply (uploaded_image_is_listed_by_date
           (plain_form (jpeg_file "a.jpg" "bytes") (Some "X") None)
           (quiet_world fresh_store frozen_clock)
           {| res_filename := "20250309_140507_250.jpg"; res_status := "success";
              res_path := "images/2025-03-09/flight_X/20250309_140507_250.jpg";
              res_metadata_file := "metadata/2025-03-09/flight_X/20250309_140507_250.json";
              res_flight_id := "X"; res_uploaded_at := "2025-03-09T14:05:07.250000" |}
           _ (Some "X")).
  - by intros id [= <-].
  - apply upload_image_pair. vm_compute. reflexivity.
  - by left.
Defined.

(** ** The files that an upload writes *)

Lemma touches_refl ps t : touches ps t t.
Proof. split; [apply grows_refl|]. auto. Qed.

Lemma touches_trans ps t1 t2 t3 : touches ps t1 t2 -> touches ps t2 t3 -> touches ps t1 t3.
Proof.
  intros [Hg12 Hk12] [Hg23 Hk23]. split; [by eapply grows_trans|].
  intros k d Hk. destruct (Hk12 k d Hk) as [Hsame|(p & Hp & Hres)].
  - by apply Hk23.
  - right. exists p. split; [done|]. by eapply resolve_grows.
Qed.

Lemma writes_at_touches p ps t t' : p ∈ ps -> writes_at p t t' -> touches ps t t'.
Proof.
  intros Hp [Hg Hk]. split; [done|]. intros k d Hkd.
  destruct (Hk k d Hkd) as [Hsame|Hres]; [by left|]. right. by exists p.
Qed.

Lemma touches_more ps ps' t t' : ps ⊆ ps' -> touches ps t t' -> touches ps' t t'.
Proof.
  intros Hsub [Hg Hk]. split; [done|]. intros k d Hkd.
  destruct (Hk k d Hkd) as [Hsame|(p & Hp & Hres)]; [by left|]. right. exists p. auto.
Qed.

Lemma same_files_touches ps t t' : grows t t' -> same_files t t' -> touches ps t t'.
Proof.
  intros Hg Hs. split; [done|]. intros k d Hk. left.
  pose proof (grows_is_file _ _ k Hg) as Hfile.
  unfold Fs.is_file in Hfile. rewrite Hk in Hfile. specialize (Hfile eq_refl).
  destruct (t' !! k) as [[d'|]|] eqn:Hk'; try done.
  by rewrite (Hs k d' Hk') in Hk.
Qed.

Lemma upload_image_store_touches rq w out w' :
  upload_image_store rq w = (out, w') ->
  let p := planned_path (form_flight_id rq) (upload_filename (form_file rq)) w in
  touches [p; metadata_path p] (files w) (files w').
Proof.
  unfold upload_image_store. cbv zeta. intros H.
  advance H as dirs w1 Hdirs.
  2:{ apply get_timestamped_path_run in Hdirs as (_ & _ & Hg & Hs & _).
      by apply same_files_touches. }
  apply get_timestamped_path_run in Hdirs as (Hticks1 & Henv1 & Hg1 & Hs1 & ->).
  advance H as filename w2 Hname; [|by apply generate_filename_run in Hname as ([=] & _)].
  apply generate_filename_run in Hname as ([= ->] & Hfiles2 & _ & _).
  destruct Henv1 as (Hclock1 & _). rewrite Hticks1, Hclock1 in H.
  fold (planned_name (upload_filename (form_file rq)) w) in H.
  fold (planned_path (form_flight_id rq) (upload_filename (form_file rq)) w) in H.
  set (p := planned_path (form_flight_id rq) (upload_filename (form_file rq)) w) in *.
  assert (touches [p; metadata_path p] (files w) (files w2)) as Ht2.
  { rewrite Hfiles2. by apply same_files_touches. }
  assert (p ∈ [p; metadata_path p]) as Hp by (by left).
  assert (metadata_path p ∈ [p; metadata_path p]) as Hm by (right; by left).
  advance H as content w3 Hread.
  2:{ unfold read_upload in Hread. destruct (upload_read (form_file rq)); [|done].
      by injection Hread as _ <-. }
  unfold read_upload in Hread. destruct (upload_read (form_file rq)); [done|].
  injection Hread as -> ->.
  advance H as kp w4 Hopen.
  2:{ apply io_run in Hopen as (_ & _ & [(e' & _ & Hsame)|(u & [=] & _)]). by rewrite Hsame. }
  apply io_run in Hopen as (_ & _ & [(e & [=] & _)|(kp' & [= <-] & Hopen)]).
  apply open_write_run in Hopen as (Hres & Hnodir & Hw4 & Hg4).
  pose proof (writes_at_insert p _ _ (Fs.Bytes "") Hres Hnodir) as Hw34. rewrite <- Hw4 in Hw34.
  assert (touches [p; metadata_path p] (files w) (files w4)) as Ht4.
  { eapply touches_trans; [exact Ht2|]. apply (writes_at_touches p); [exact Hp|exact Hw34]. }
  assert (Fs.resolve (files w4) p = inr kp) as Hres4
    by apply (resolve_grows _ _ _ _ Hg4 Hres).
  assert (Fs.is_dir (files w4) kp = false) as Hnodir4.
  { rewrite Hw4. by apply is_dir_insert_file. }
  advance H as u w5 Hwrite.
  2:{ apply io_run in Hwrite as (_ & _ & [(e' & _ & Hsame)|(u & [=] & _)]). by rewrite Hsame. }
  apply io_run in Hwrite as (_ & _ & [(e & [=] & _)|(u' & _ & Hwrite)]).
  destruct u'. apply write_run in Hwrite.
  pose proof (writes_at_insert p _ _ (Fs.Bytes content) Hres4 Hnodir4) as Hw45.
  rewrite <- Hwrite in Hw45.
  assert (touches [p; metadata_path p] (files w) (files w5)) as Ht5.
  { eapply touches_trans; [exact Ht4|]. apply (writes_at_touches p); [exact Hp|exact Hw45]. }
  tick H as uploaded w6 Hnow.
  apply now_run in Hnow as (_ & Hfiles6 & _ & _). rewrite <- Hfiles6 in Ht5.
  advance H as camera w7 Hcamera.
  2:{ destruct (truthy (form_camera_settings rq)); [|done].
      by apply lift_run in Hcamera as [-> _]. }
  assert (w7 = w6) as ->.
  { destruct (truthy (form_camera_settings rq)).
    - by apply lift_run in Hcamera as [-> _].
    - by injection Hcamera as _ <-. }
  advance H as saved w8 Hsave.
  2:{ apply save_metadata_run in Hsave as (_ & Hw & _).
      eapply touches_trans; [exact Ht5|].
      apply (writes_at_touches (metadata_path p)); [exact Hm|exact Hw]. }
  destruct saved as [metadata_file metadata].
  apply save_metadata_run in Hsave as (_ & Hw & _). injection H as _ <-.
  eapply touches_trans; [exact Ht5|].
  apply (writes_at_touches (metadata_path p)); [exact Hm|exact Hw].
Qed.

Lemma two_of_three (a b c : string) : [a; b] ⊆ [a; b; c].
Proof.
  intros x Hx. apply elem_of_cons in Hx as [->|Hx]; [by left|].
  apply elem_of_cons in Hx as [->|Hx]; [right; by left|by apply elem_of_nil in Hx].
Qed.

(** X22: an upload, answered with success or not, writes through three
    paths at most, that of the image, that of its record and that of
    the log of a day: every other file of the store keeps its content,
    the images of earlier uploads among them when their paths are
    others. *)
Theorem upload_writes_three_files_at_most (rq : upload_form) (w : world) :
  let p := planned_path (form_flight_id rq) (upload_filename (form_file rq)) w in
  exists t0,
    touches [p; metadata_path p; log_file_of t0] (files w) (files (upload_image rq w).2).
Proof.
  intros p. unfold upload_image. rewrite upload_image_try_split.
  destruct (bind _ _ w) as [out w'] eqn:Htry.
  assert (exists t0, touches [p; metadata_path p; log_file_of t0] (files w) (files w'))
    as [t0 Ht]; [|exists t0; by destruct out].
  advance Htry as stored w1 Hstore.
  - apply upload_image_store_touches in Hstore. fold p in Hstore.
    destruct stored as [[[[filename image_path] flight_folder] metadata_file] metadata].
    unfold upload_image_finish in Htry.
    assert (exists out', log_upload filename (form_flight_id rq) w1 = (out', w'))
      as [out' Hlog].
    { advance Htry as u w2 Hlog; [|by eauto]. injection Htry as _ <-. eauto. }
    apply log_upload_run in Hlog as (_ & Hw & _).
    exists (clock w1 (ticks w1)). eapply touches_trans.
    + eapply touches_more; [|exact Hstore]. apply two_of_three.
    + eapply writes_at_touches; [|exact Hw]. right. right. by left.
  - apply upload_image_store_touches in Hstore. fold p in Hstore.
    exists (clock w (ticks w)). eapply touches_more; [|exact Hstore]. apply two_of_three.
Qed.

(** ** A batch is the single upload, entry by entry *)

Lemma alike_refl t : alike t t.
Proof. intros k. by left. Qed.

Lemma same_but_records_refl w : same_but_records w w.
Proof. repeat split. apply alike_refl. Qed.

Lemma alike_is_dir t1 t2 k : alike t1 t2 -> Fs.is_dir t1 k = Fs.is_dir t2 k.
Proof.
  intros Ha. unfold Fs.is_dir. destruct k as [|c k]; [done|].
  destruct (Ha (c :: k)) as [->|(v1 & v2 & tl & -> & ->)]; done.
Qed.

Lemma alike_is_file t1 t2 k : alike t1 t2 -> Fs.is_file t1 k = Fs.is_file t2 k.
Proof.
  intros Ha. unfold Fs.is_file.
  destruct (Ha k) as [->|(v1 & v2 & tl & -> & ->)]; done.
Qed.

Lemma alike_enter t1 t2 cur comp : alike t1 t2 -> Fs.enter t1 cur comp = Fs.enter t2 cur comp.
Proof.
  intros Ha. unfold Fs.enter. rewrite (alike_is_dir t1 t2 cur Ha).
  destruct (Ha cur) as [->|(v1 & v2 & tl & -> & ->)]; done.
Qed.

Lemma alike_resolve t1 t2 p : alike t1 t2 -> Fs.resolve t1 p = Fs.resolve t2 p.
Proof.
  intros Ha. unfold Fs.resolve, Fs.walk_to. destruct p as [|c p]; [done|].
  generalize (Str.split Str.slash (String c p)). intros comps.
  generalize (@inr errno (list string) []). intros start.
  revert start. induction comps as [|comp comps IH]; intros start; [done|].
  cbn [foldl]. destruct start as [e|cur]; [apply IH|]. rewrite (alike_enter t1 t2) by done.
  apply IH.
Qed.

Lemma alike_insert t1 t2 k n : alike t1 t2 -> alike (<[k := n]> t1) (<[k := n]> t2).
Proof.
  intros Ha j. destruct (decide (k = j)) as [<-|Hne].
  - left. by rewrite !lookup_insert_eq.
  - rewrite !lookup_insert_ne by done. apply Ha.
Qed.

Lemma alike_insert_document t1 t2 k v1 v2 trailer :
  alike t1 t2 ->
  alike (<[k := Fs.File (Fs.Document v1 trailer)]> t1)
        (<[k := Fs.File (Fs.Document v2 trailer)]> t2).
Proof.
  intros Ha j. destruct (decide (k = j)) as [<-|Hne].
  - right. exists v1, v2, trailer. by rewrite !lookup_insert_eq.
  - rewrite !lookup_insert_ne by done. apply Ha.
Qed.

Lemma bind_same {A B C} (m : M A) (k1 : A -> M B) (k2 : A -> M C) (R : B -> C -> Prop) w :
  (forall a w', sim R (k1 a w') (k2 a w')) -> sim R (bind m k1 w) (bind m k2 w).
Proof.
  intros Hk. unfold bind. destruct (m w) as [[a|e] w']; [apply Hk|].
  split; [apply same_but_records_refl|done].
Qed.

Lemma bind_alike {A1 A2 B1 B2} (m1 : M A1) (m2 : M A2) (k1 : A1 -> M B1) (k2 : A2 -> M B2)
    (Ra : A1 -> A2 -> Prop) (R : B1 -> B2 -> Prop) w1 w2 :
  sim Ra (m1 w1) (m2 w2) ->
  (forall a1 a2 w1' w2', Ra a1 a2 -> same_but_records w1' w2' -> sim R (k1 a1 w1') (k2 a2 w2')) ->
  sim R (bind m1 k1 w1) (bind m2 k2 w2).
Proof.
  unfold bind, sim.
  destruct (m1 w1) as [[a1|e1] w1'], (m2 w2) as [[a2|e2] w2']; simpl;
    intros [Hw Hr] Hk; try done.
  by apply Hk.
Qed.

Lemma now_alike w1 w2 : same_but_records w1 w2 -> sim eq (now w1) (now w2).
Proof.
  intros (Hticks & Hclock & Hops & Hfault & Hjson & Ha). unfold now, sim. simpl.
  split; [by repeat split; simpl; try congruence|]. congruence.
Qed.

Lemma io_alike {A} (path : string) (op1 op2 : Fs.tree -> errno + (A * Fs.tree)) w1 w2 :
  same_but_records w1 w2 ->
  match op1 (files w1), op2 (files w2) with
  | inl e1, inl e2 => e1 = e2
  | inr (a1, t1), inr (a2, t2) => a1 = a2 /\ alike t1 t2
  | _, _ => False
  end ->
  sim eq (io path op1 w1) (io path op2 w2).
Proof.
  intros (Hticks & Hclock & Hops & Hfault & Hjson & Ha) Hop. unfold io, sim.
  rewrite Hfault, Hops. destruct (fault w2 (ops w2)); simpl.
  { split; [by repeat split; simpl; try congruence|done]. }
  destruct (op1 (files w1)) as [e1|[a1 t1]], (op2 (files w2)) as [e2|[a2 t2]]; simpl;
    try done.
  - split; [by repeat split; simpl; try congruence|congruence].
  - destruct Hop as [-> Ht]. split; [by repeat split; simpl; try congruence|done].
Qed.

Lemma open_append_alike p t1 t2 :
  alike t1 t2 ->
  match Fs.open_append p t1, Fs.open_append p t2 with
  | inl e1, inl e2 => e1 = e2
  | inr (k1, t1'), inr (k2, t2') => k1 = k2 /\ alike t1' t2'
  | _, _ => False
  end.
Proof.
  intros Ha. unfold Fs.open_append. rewrite (alike_resolve t1 t2 p Ha).
  destruct (Fs.resolve t2 p) as [e|k]; [done|]. rewrite (alike_is_dir t1 t2 k Ha).
  destruct (Fs.is_dir t2 k); [done|].
  destruct (Ha k) as [->|(v1 & v2 & tl & -> & ->)]; [|done].
  destruct (t2 !! k); [done|]. split; [done|]. by apply alike_insert.
Qed.

Lemma append_alike k line t1 t2 :
  alike t1 t2 ->
  match Fs.append k line t1, Fs.append k line t2 with
  | inl e1, inl e2 => e1 = e2
  | inr (a1, t1'), inr (a2, t2') => a1 = a2 /\ alike t1' t2'
  | _, _ => False
  end.
Proof.
  intros Ha. unfold Fs.append.
  destruct (Ha k) as [->|(v1 & v2 & tl & -> & ->)].
  - destruct (t2 !! k) as [[d|]|]; (split; [done|by apply alike_insert]).
  - split; [done|]. cbn [Fs.extend]. by apply alike_insert_document.
Qed.

Lemma log_upload_alike filename flight_id w1 w2 :
  same_but_records w1 w2 ->
  sim eq (log_upload filename flight_id w1) (log_upload filename flight_id w2).
Proof.
  intros Hw. unfold log_upload.
  eapply bind_alike; [by apply now_alike|]. intros today ? w1' w2' <- Hw'. cbv zeta.
  eapply bind_alike.
  { apply io_alike; [done|]. apply open_append_alike, Hw'. }
  intros f ? w1'' w2'' <- Hw''.
  eapply bind_alike; [by apply now_alike|]. intros t1 ? w1''' w2''' <- Hw'''.
  apply io_alike; [done|]. apply append_alike, Hw'''.
Qed.

Lemma save_metadata_alike image_path metadata1 metadata2 flight_id w :
  sim (fun saved1 saved2 => saved1.1 = saved2.1)
      (save_metadata image_path metadata1 flight_id w)
      (save_metadata image_path metadata2 flight_id w).
Proof.
  unfold save_metadata. cbv zeta.
  apply bind_same. intros u w1. apply bind_same. intros t0 w2.
  apply bind_same. intros f w3.
  eapply bind_alike.
  { apply io_alike; [apply same_but_records_refl|]. unfold Fs.write.
    split; [done|]. apply alike_insert_document, alike_refl. }
  intros u1 u2 w1' w2' _ Hw'. by split.
Qed.

(** The [try] of the loop of [upload_batch] is the [try] of
    [upload_image] on the form of the entry. *)
Lemma upload_batch_try_alike rq file w :
  sim (fun entry r => entry = BatchSuccess (res_filename r) (res_path r))
      (upload_batch_try rq file w)
      (upload_image_try (put_form rq file) w).
Proof.
  unfold upload_batch_try, upload_image_try. cbv zeta.
  cbn [put_form form_file form_flight_id form_camera_settings form_gps_latitude
       form_gps_longitude form_altitude form_notes truthy].
  apply bind_same. intros [[full_path date_folder] flight_folder] w1.
  apply bind_same. intros filename w2.
  apply bind_same. intros content w3.
  apply bind_same. intros image_file w4.
  apply bind_same. intros u w5.
  apply bind_same. intros uploaded w6.
  change (bind (ret Json.Null) ?k w6) with (k Json.Null w6). cbv beta.
  eapply bind_alike; [apply save_metadata_alike|].
  intros [file1 md1] [file2 md2] w1' w2' Hfile Hw'. cbn [fst] in Hfile. subst file2.
  eapply bind_alike; [by apply log_upload_alike|].
  intros u1 u2 w1'' w2'' _ Hw''. by split.
Qed.

Lemma upload_batch_step_answers rq file w :
  put_answers rq file w (upload_batch_step rq file w).1 (upload_batch_step rq file w).2.
Proof.
  pose proof (upload_batch_try_alike rq file w) as [Hw Hout].
  unfold put_answers, upload_batch_step, upload_image.
  destruct (upload_batch_try rq file w) as [[entry|e1] w1],
           (upload_image_try (put_form rq file) w) as [[r|e2] w2]; simpl in *; try done.
  subst e2. by exists (str_exn e1).
Qed.

(** What makes the [try] of the loop fail: the read of the file, or an
    operation on the file system. *)
Lemma upload_batch_try_failure rq file w e w' :
  upload_batch_try rq file w = (Raise e, w') ->
  (exists msg, upload_read file = inl msg /\ e = ReadError msg) \/
  (exists e0 path, e = OSError e0 path).
Proof.
  unfold upload_batch_try. cbv zeta.
  remember (Raise e) as out eqn:Hout. intros H.
  advance H as dirs w1 Hdirs.
  2:{ apply get_timestamped_path_run in Hdirs as (_ & _ & _ & _ & (e0 & path & ->)).
      injection Hout as <-. eauto. }
  destruct dirs as [[full_path date_folder] flight_folder].
  advance H as filename w2 Hname; [|by apply generate_filename_run in Hname as ([=] & _)].
  advance H as content w3 Hread.
  2:{ unfold read_upload in Hread. destruct (upload_read file) as [msg|]; [|done].
      injection Hread as <- _. injection Hout as <-. eauto. }
  advance H as kp w4 Hopen.
  2:{ apply io_run in Hopen as (_ & _ & [(e' & [= ->] & _)|(u & [=] & _)]).
      injection Hout as <-. eauto. }
  advance H as u w5 Hwrite.
  2:{ apply io_run in Hwrite as (_ & _ & [(e' & [= ->] & _)|(u & [=] & _)]).
      injection Hout as <-. eauto. }
  tick H as uploaded w6 Hnow.
  advance H as saved w7 Hsave.
  2:{ apply save_metadata_run in Hsave as (_ & _ & (e0 & path & ->)).
      injection Hout as <-. eauto. }
  advance H as u' w8 Hlog.
  - by injection H as <-.
  - apply log_upload_run in Hlog as (_ & _ & (e0 & path & ->)).
    injection Hout as <-. eauto.
Qed.

Lemma upload_batch_try_read rq file w entry w' :
  upload_batch_try rq file w = (Return entry, w') ->
  exists content, upload_read file = inr content.
Proof.
  unfold upload_batch_try. cbv zeta.
  remember (Return entry) as out eqn:Hout. intros H.
  advance H as dirs w1 Hdirs; [|done]. destruct dirs as [[full_path date_folder] flight_folder].
  advance H as filename w2 Hname; [|done].
  advance H as content w3 Hread; [|done].
  unfold read_upload in Hread. destruct (upload_read file) as [msg|content']; [done|]. eauto.
Qed.

Lemma upload_batch_try_success rq file w entry w' :
  upload_batch_try rq file w = (Return entry, w') -> exists stored path, entry = BatchSuccess stored path.
Proof.
  unfold upload_batch_try. cbv zeta.
  remember (Return entry) as out eqn:Hout. intros H.
  advance H as dirs w1 Hdirs; [|done]. destruct dirs as [[full_path date_folder] flight_folder].
  advance H as filename w2 Hname; [|done].
  advance H as content w3 Hread; [|done].
  advance H as kp w4 Hopen; [|done].
  advance H as u w5 Hwrite; [|done].
  advance H as uploaded w6 Hnow; [|done].
  advance H as saved w7 Hsave; [|done].
  advance H as u' w8 Hlog; [|done].
  injection H as <- _. injection Hout as <-. eauto.
Qed.

Lemma upload_batch_step_outcome rq file w :
  entry_outcome rq file w (upload_batch_step rq file w).1 (upload_batch_step rq file w).2.
Proof.
  unfold entry_outcome, upload_batch_step.
  destruct (upload_batch_try rq file w) as [[entry|e] w1] eqn:Htry; cbn [fst snd].
  - split; [by apply upload_batch_try_grows in Htry as [_ Hg]|].
    destruct (upload_batch_try_success _ _ _ _ _ Htry) as (stored & path & ->).
    destruct (upload_batch_try_read _ _ _ _ _ Htry) as [content Hcontent].
    apply upload_batch_try_stored in Htry as (-> & -> & Hfile).
    split; [done|]. split; [done|]. split; [done|]. eauto.
  - split; [by apply upload_batch_try_grows in Htry as [_ Hg]|].
    split; [done|].
    apply upload_batch_try_failure in Htry as [(msg & Hread & ->)|(e0 & path & ->)]; eauto.
Qed.

Lemma batch_run_trace rq todo w :
  batch_trace rq w todo (batch_run rq todo w).1 (batch_run rq todo w).2.
Proof.
  revert w. induction todo as [|file rest IH]; intros w; cbn [batch_run]; [constructor|].
  pose proof (upload_batch_step_answers rq file w) as Hput.
  pose proof (upload_batch_step_outcome rq file w) as Hout.
  destruct (upload_batch_step rq file w) as [entry w1]. cbn [fst snd] in *.
  specialize (IH w1). destruct (batch_run rq rest w1) as [entries w2]. cbn [fst snd] in *.
  by econstructor.
Qed.

Lemma count_status_success results :
  count_status "success" results = length (filter (fun entry => is_success entry = true) results).
Proof.
  unfold count_status. induction results as [|[stored path|name error] results IH]; [done| |].
  - rewrite !filter_cons. cbn [entry_status is_success].
    rewrite !decide_True by done. simpl. by rewrite IH.
  - rewrite !filter_cons. cbn [entry_status is_success].
    rewrite !decide_False by done. done.
Qed.

Lemma count_status_error results :
  count_status "error" results = length (filter (fun entry => is_success entry = false) results).
Proof.
  unfold count_status. induction results as [|[stored path|name error] results IH]; [done| |].
  - rewrite !filter_cons. cbn [entry_status is_success].
    rewrite !decide_False by done. done.
  - rewrite !filter_cons. cbn [entry_status is_success].
    rewrite !decide_True by done. simpl. by rewrite IH.
Qed.

(** C7: a batch is always answered with a body.  Its results are one
    entry for each file, in the order sent; each file is tried in the
    world that the one before it left, failed or not, and what the
    batch does with it there is what the single upload of the file in
    the context of the batch does: a success with the stored name and
    the path of a file that is in the store when the batch is answered,
    or a failure with the name of the file as sent and the description
    of the error of its read or of the file system.  The total is the
    number of the files, the count of the successes the number of the
    entries that are successes and the count of the failures that of
    the others, so that they add up to the total. *)
Theorem upload_batch_isolates_entries (rq : batch_form) (w : world) :
  exists r w',
    upload_batch rq w = (Ok r, w') /\
    batch_total r = length (batch_files rq) /\
    length (batch_results r) = batch_total r /\
    batch_successful r
    = length (filter (fun entry => is_success entry = true) (batch_results r)) /\
    batch_failed r
    = length (filter (fun entry => is_success entry = false) (batch_results r)) /\
    batch_successful r + batch_failed r = batch_total r /\
    batch_trace rq w (batch_files rq) (batch_results r) w' /\
    Forall (entry_stored (files w')) (batch_results r) /\
    (batch_results r, w') = batch_run rq (batch_files rq) w /\
    Forall2 (entry_of rq) (batch_files rq) (batch_results r).
Proof.
  unfold upload_batch.
  destruct (upload_batch_loop rq (batch_files rq) [] w) as [results w'] eqn:Hloop.
  pose proof (upload_batch_loop_stored _ _ _ _ _ _ Hloop (Forall_nil_2 _)) as Hstored.
  rewrite upload_batch_loop_run in Hloop. cbn [app] in Hloop. injection Hloop as <- <-.
  pose proof (batch_run_entries rq (batch_files rq) w) as Hall.
  pose proof (batch_run_trace rq (batch_files rq) w) as Htrace.
  apply Forall2_length in Hall as Hlen.
  eexists _, _. split; [reflexivity|].
  cbn [batch_total batch_successful batch_failed batch_results].
  split; [done|]. split; [done|].
  split; [apply count_status_success|]. split; [apply count_status_error|].
  split; [by rewrite count_status_split|]. split; [done|]. split; [done|].
  split; [by destruct (batch_run rq (batch_files rq) w)|done].
Qed.

(** Three files in a batch, the second of which cannot be read: the
    batch is answered with a total of three, two successes and one
    failure, the failure in the second place with the name of the file
    and the message of the read, and the two others stored. *)
Example batch_of_three_with_an_unreadable_file :
  let unreadable := {| upload_filename := "b.jpg"; upload_content_type := None;
                       upload_read := inl "connection lost" |} in
  let batch :=
    {| batch_files := [jpeg_file "a.jpg" "first"; unreadable; jpeg_file "c.png" "third"];
       batch_flight_id := Some "X";
       batch_gps_latitude := None; batch_gps_longitude := None; batch_altitude := None |} in
  let '(answer, w') := upload_batch batch (quiet_world fresh_store stepping_clock) in
  answer
  = Ok {| batch_total := 3; batch_successful := 2; batch_failed := 1;
          batch_results :=
            [BatchSuccess "20250309_140507_250.jpg"
                          "images/2025-03-09/flight_X/20250309_140507_250.jpg";
             BatchError "b.jpg" "connection lost";
             BatchSuccess "20250309_140507_251.png"
                          "images/2025-03-09/flight_X/20250309_140507_251.png"] |} /\
  Fs.read (files w') "images/2025-03-09/flight_X/20250309_140507_250.jpg"
  = inr (Fs.Bytes "first") /\
  Fs.read (files w') "images/2025-03-09/flight_X/20250309_140507_251.png"
  = inr (Fs.Bytes "third").
Proof. vm_compute. repeat split; reflexivity. Qed.

(** ** What the listings find, and when they find nothing *)
































